(** * Local-government complaint tracker: a shallow embedding of
      [models.py] and [app.py], and the properties of its routes.

    The relational store is modelled as three tables (lists of rows in
    insertion order), the Flask session as an optional record, a request as
    a method and a form dictionary.  Every view function is a function from
    a request context to a result: the committed database, the session, the
    messages flashed and the HTTP response.  The clock, the random source
    and the password-hash salt are inputs of the context. *)

From Stdlib Require Import ZArith String Ascii DecimalString List.
From stdpp Require Import gmap strings list sorting.

Open Scope Z_scope.

(** ** models.py: enumerations *)

Inductive UserRole := CITIZEN | ADMIN | STAFF.

Inductive ComplaintStatus :=
  PENDING | ACKNOWLEDGED | IN_PROGRESS | ESCALATED | RESOLVED | CLOSED.

Inductive ComplaintPriority := LOW | MEDIUM | HIGH | CRITICAL.

#[global] Instance UserRole_eq_dec : EqDecision UserRole.
Proof. solve_decision. Defined.
#[global] Instance ComplaintStatus_eq_dec : EqDecision ComplaintStatus.
Proof. solve_decision. Defined.
#[global] Instance ComplaintPriority_eq_dec : EqDecision ComplaintPriority.
Proof. solve_decision. Defined.

(** [role.value], [status.value] *)
Definition UserRole_value (r : UserRole) : string :=
  match r with CITIZEN => "citizen" | ADMIN => "admin" | STAFF => "staff" end.

Definition ComplaintStatus_value (s : ComplaintStatus) : string :=
  match s with
  | PENDING => "pending" | ACKNOWLEDGED => "acknowledged"
  | IN_PROGRESS => "in_progress" | ESCALATED => "escalated"
  | RESOLVED => "resolved" | CLOSED => "closed"
  end.

(** [for status in ComplaintStatus]: members in definition order *)
Definition ComplaintStatus_members : list ComplaintStatus :=
  [PENDING; ACKNOWLEDGED; IN_PROGRESS; ESCALATED; RESOLVED; CLOSED].

(** ** Exceptions raised inside the view functions *)

Inductive Exception :=
| BadRequestKeyError (key : string)  (* request.form[key], key absent *)
| KeyError (name : string)           (* EnumClass[name], no such member *)
| ValueError (text : string)         (* int(text) *)
| AttributeError (attr : string)     (* None.attr *)
| OverflowError                      (* integer outside SQLite's 64 bits *)
| IntegrityError (constraint : string).

Definition Exc (A : Type) : Type := Exception + A.

Definition raise {A} (e : Exception) : Exc A := inl e.
Definition ret {A} (a : A) : Exc A := inr a.
Definition bind {A B} (m : Exc A) (k : A -> Exc B) : Exc B :=
  match m with inl e => inl e | inr a => k a end.

Notation "'do' x <- m ; k" := (bind m (fun x => k))
  (at level 10, x name, m at level 100, k at level 200,
   format "'[v' 'do'  x  <-  m ; '/' k ']'").

(** [ComplaintStatus[name]] and [ComplaintPriority[name]]: lookup by member
    name, [KeyError] otherwise. *)
Definition ComplaintStatus_getitem (name : string) : Exc ComplaintStatus :=
  if String.eqb name "PENDING" then ret PENDING
  else if String.eqb name "ACKNOWLEDGED" then ret ACKNOWLEDGED
  else if String.eqb name "IN_PROGRESS" then ret IN_PROGRESS
  else if String.eqb name "ESCALATED" then ret ESCALATED
  else if String.eqb name "RESOLVED" then ret RESOLVED
  else if String.eqb name "CLOSED" then ret CLOSED
  else raise (KeyError name).

Definition ComplaintPriority_getitem (name : string) : Exc ComplaintPriority :=
  if String.eqb name "LOW" then ret LOW
  else if String.eqb name "MEDIUM" then ret MEDIUM
  else if String.eqb name "HIGH" then ret HIGH
  else if String.eqb name "CRITICAL" then ret CRITICAL
  else raise (KeyError name).

(** ** Time *)

(** A naive [datetime], as [datetime.utcnow()] returns it. *)
Record datetime := mk_datetime {
  year : Z; month : Z; day : Z;
  hour : Z; minute : Z; second : Z; microsecond : Z
}.

#[global] Instance datetime_eq_dec : EqDecision datetime.
Proof. solve_decision. Defined.

(** Lexicographic comparison of the seven fields, as [ORDER BY created_at]
    compares stored timestamps. *)
Definition datetime_key (d : datetime) : list Z :=
  [year d; month d; day d; hour d; minute d; second d; microsecond d].

Fixpoint lex_leb (a b : list Z) : bool :=
  match a, b with
  | [], _ => true
  | _ :: _, [] => false
  | x :: a', y :: b' => (x <? y) || ((x =? y) && lex_leb a' b')
  end.

Definition datetime_leb (a b : datetime) : bool :=
  lex_leb (datetime_key a) (datetime_key b).

(** The fields of a [datetime] object are in these ranges; the system clock
    of a running server reads a four-digit year. *)
Definition clock_reading (d : datetime) : Prop :=
  1000 <= year d <= 9999 /\ 1 <= month d <= 12 /\ 1 <= day d <= 31.

(** ** models.py: rows *)

Record User := mk_User {
  u_id : Z;
  u_email : string;
  u_username : string;
  u_password_hash : string;
  u_full_name : string;
  u_phone : option string;
  u_address : option string;
  u_role : UserRole;
  u_created_at : datetime;
  u_is_active : option Z       (* Integer column, NULL allowed *)
}.

Record Complaint := mk_Complaint {
  c_id : Z;
  c_ticket_number : string;
  c_user_id : Z;
  c_title : string;
  c_description : string;
  c_category : string;
  c_location : string;
  c_status : ComplaintStatus;
  c_priority : ComplaintPriority;
  c_assigned_to : option Z;
  c_created_at : datetime;
  c_updated_at : datetime;
  c_resolved_at : option datetime;
  c_escalation_count : Z
}.

#[global] Instance Complaint_eq_dec : EqDecision Complaint.
Proof. solve_decision. Defined.

Record Response := mk_Response {
  r_id : Z;
  r_complaint_id : Z;
  r_responder_id : Z;
  r_message : string;
  r_is_internal : Z;
  r_created_at : datetime
}.

(** The committed contents of the three tables. *)
Record DB := mk_DB {
  users : list User;
  complaints : list Complaint;
  responses : list Response
}.

(** Truth value of an Integer column in a Python condition. *)
Definition truthy (v : option Z) : bool :=
  match v with None => false | Some n => negb (n =? 0) end.

(** Primary keys: an INTEGER PRIMARY KEY without a supplied value gets one
    more than the largest key present (1 in an empty table). *)
Definition next_id (keys : list Z) : Z := foldr Z.max 0 keys + 1.

(** The row a table holds under a primary key.  [get_user] is
    [db_session.query(User).get(session['user_id'])]: the key in the session
    was written at login from a stored row. *)
Definition get_user (db : DB) (key : Z) : option User :=
  List.find (fun u => u_id u =? key) (users db).

Definition get_complaint (db : DB) (key : Z) : option Complaint :=
  List.find (fun c => c_id c =? key) (complaints db).

(** [db_session.query(User).filter_by(username=name).first()] *)
Definition first_by_username (d : DB) (name : string) : option User :=
  List.find (fun u => String.eqb (u_username u) name) (users d).

(** SQLite stores an integer in 64 signed bits; binding a larger Python
    [int] raises. *)
Definition sqlite_integer (n : Z) : bool :=
  (- 2 ^ 63 <=? n) && (n <? 2 ^ 63).

(** [db_session.query(Complaint).get(complaint_id)] with the key of the
    URL, which the [<int:...>] converter accepts at any size: the SELECT
    binds the key, which raises outside 64 bits.  The keys of stored rows
    fit 64 bits, so a key outside them has no row. *)
Definition query_get_complaint (d : DB) (key : Z) : Exc (option Complaint) :=
  match get_complaint d key with
  | Some c => ret (Some c)
  | None => if sqlite_integer key then ret None else raise OverflowError
  end.

(** ** The web layer: requests, sessions, responses *)

Inductive Method := GET | POST.

#[global] Instance Method_eq_dec : EqDecision Method.
Proof. solve_decision. Defined.

Record Request := mk_Request {
  method : Method;
  form : gmap string string
}.

(** [request.form[key]] *)
Definition form_getitem (f : gmap string string) (key : string) : Exc string :=
  match f !! key with
  | Some v => ret v
  | None => raise (BadRequestKeyError key)
  end.

(** [request.form.get(key, dflt)] *)
Definition form_get (f : gmap string string) (key dflt : string) : string :=
  default dflt (f !! key).

(** The session cookie.  The application writes its three keys together (at
    login) and removes them together (at logout), so ['user_id' in session]
    is [Some]. *)
Record SessionData := mk_SessionData {
  s_user_id : Z;
  s_username : string;
  s_role : string;
  s_permanent : bool
}.

Definition Session : Type := option SessionData.

(** A flashed message: a literal text, or a prefix followed by [str(e)]. *)
Inductive Message :=
| Text (s : string)
| TextExc (prefix : string) (e : Exception).

Definition Flash : Type := Message * string.

(** [url_for(...)] *)
Inductive Endpoint :=
| url_index | url_register | url_login
| url_user_dashboard | url_admin_dashboard
| url_view_complaint (complaint_id : Z).

(** A template with the values handed to it. *)
Inductive Page :=
| index_html
| register_html
| login_html
| user_dashboard_html (user : User) (cs : list Complaint)
                      (stats : list (string * nat))
| admin_dashboard_html (user : option User) (stats : list (string * nat))
                       (cs : list Complaint)
| new_complaint_html (categories : list string)
| view_complaint_html (complaint : Complaint) (rs : list Response)
| manage_users_html (us : list User)
| reports_html (total : nat) (status_counts : list (string * nat))
               (category_counts : list string).

Inductive HttpResponse :=
| redirect (to : Endpoint)
| render_template (page : Page)
| jsonify (body : list (string * string)) (status : Z)
| abort (status : Z).

(** What a request reads from outside the program. *)
Record Env := mk_Env {
  utcnow : nat -> datetime;                       (* n-th datetime.utcnow() *)
  token_bytes : Byte.byte * Byte.byte * Byte.byte;  (* secrets.token_bytes(3) *)
  salt : string                                   (* drawn by the hasher *)
}.

Record Ctx := mk_Ctx {
  env : Env;
  request : Request;
  session : Session;
  db : DB
}.

Record Result := mk_Result {
  res_db : DB;
  res_session : Session;
  res_flashes : list Flash;
  res_response : HttpResponse
}.

Definition Handler : Type := Ctx -> Result.

(** A view that touches neither the database nor the session. *)
Definition respond (ctx : Ctx) (fl : list Flash) (r : HttpResponse) : Result :=
  {| res_db := db ctx; res_session := session ctx;
     res_flashes := fl; res_response := r |}.

(** ** Strings: the ticket number *)

Definition digit_char (d : Z) : ascii := ascii_of_N (48 + Z.to_N d).

(** [%m], [%d]: two digits, zero padded *)
Definition fmt_02d (n : Z) : string :=
  String (digit_char (n / 10)) (String (digit_char (n mod 10)) EmptyString).

(** [%Y]: the year in decimal; four digits from the year 1000 on *)
Definition fmt_Y (y : Z) : string :=
  NilZero.string_of_uint (N.to_uint (Z.to_N y)).

(** [d.strftime('%Y%m%d')] *)
Definition strftime_Ymd (d : datetime) : string :=
  (fmt_Y (year d) ++ fmt_02d (month d) ++ fmt_02d (day d))%string.

Definition hex_char (n : N) : ascii :=
  match n with
  | 0 => "0" | 1 => "1" | 2 => "2" | 3 => "3" | 4 => "4" | 5 => "5"
  | 6 => "6" | 7 => "7" | 8 => "8" | 9 => "9" | 10 => "a" | 11 => "b"
  | 12 => "c" | 13 => "d" | 14 => "e" | _ => "f"
  end%N%char.

Definition hexlify_byte (b : Byte.byte) : string :=
  let n := Byte.to_N b in
  String (hex_char (n / 16)) (String (hex_char (n mod 16)) EmptyString).

(** [secrets.token_hex(3)] on the three bytes drawn *)
Definition token_hex (bs : Byte.byte * Byte.byte * Byte.byte) : string :=
  let '(b1, b2, b3) := bs in
  (hexlify_byte b1 ++ hexlify_byte b2 ++ hexlify_byte b3)%string.

(** [str.upper()] on ASCII text *)
Definition upper_char (c : ascii) : ascii :=
  let n := N_of_ascii c in
  if ((97 <=? n) && (n <=? 122))%N then ascii_of_N (n - 32) else c.

Fixpoint upper (s : string) : string :=
  match s with
  | EmptyString => EmptyString
  | String c s' => String (upper_char c) (upper s')
  end.

(** [f"COMP-{now.strftime('%Y%m%d')}-{secrets.token_hex(3).upper()}"] *)
Definition make_ticket_number (e : Env) : string :=
  ("COMP-" ++ strftime_Ymd (utcnow e 0%nat) ++ "-"
   ++ upper (token_hex (token_bytes e)))%string.

(** The shape [COMP-<8 digits>-<6 upper-case hex>]. *)
Definition is_digit (c : ascii) : bool :=
  let n := N_of_ascii c in ((48 <=? n) && (n <=? 57))%N.

Definition is_upper_hex (c : ascii) : bool :=
  let n := N_of_ascii c in
  (((48 <=? n) && (n <=? 57)) || ((65 <=? n) && (n <=? 70)))%N.

Definition ticket_shape (s : string) : bool :=
  (String.length s =? 20)%nat
  && String.eqb (substring 0 5 s) "COMP-"
  && forallb is_digit (list_ascii_of_string (substring 5 8 s))
  && String.eqb (substring 13 1 s) "-"
  && forallb is_upper_hex (list_ascii_of_string (substring 14 6 s)).

(** The number written by a string of decimal digits. *)
Definition digits_value (s : string) : Z :=
  fold_left (fun acc c => 10 * acc + (Z.of_N (N_of_ascii c) - 48))
            (list_ascii_of_string s) 0.

(** ** Committing rows *)

(** [db_session.add(user); db_session.commit()]: the key is assigned and
    the UNIQUE constraints of [users] are checked. *)
Definition insert_user (d : DB) (row : Z -> User) : Exc DB :=
  let u := row (next_id (map u_id (users d))) in
  if existsb (fun v => String.eqb (u_email v) (u_email u)) (users d)
  then raise (IntegrityError "users.email")
  else if existsb (fun v => String.eqb (u_username v) (u_username u)) (users d)
  then raise (IntegrityError "users.username")
  else ret {| users := users d ++ [u];
              complaints := complaints d; responses := responses d |}.

Definition insert_complaint (d : DB) (row : Z -> Complaint) : Exc DB :=
  let c := row (next_id (map c_id (complaints d))) in
  if existsb (fun v => String.eqb (c_ticket_number v) (c_ticket_number c))
             (complaints d)
  then raise (IntegrityError "complaints.ticket_number")
  else ret {| users := users d; complaints := complaints d ++ [c];
              responses := responses d |}.

Definition insert_response (d : DB) (row : Z -> Response) : DB :=
  let r := row (next_id (map r_id (responses d))) in
  {| users := users d; complaints := complaints d;
     responses := responses d ++ [r] |}.

(** Committing a modified complaint object writes the row with its key. *)
Definition write_complaint (d : DB) (c : Complaint) : DB :=
  {| users := users d;
     complaints :=
       map (fun old => if c_id old =? c_id c then c else old) (complaints d);
     responses := responses d |}.

(** What the flush writes for a loaded complaint [old] whose attributes were
    assigned to give [new].  The UPDATE sets the columns whose value differs
    from the loaded one, and there is no UPDATE when none differs.
    [updated_at] has [onupdate=datetime.utcnow]: when the UPDATE does not
    set it (the assigned time equals the loaded one), it is stamped with the
    clock reading taken at the flush, [next]. *)
Definition onupdate (old new : Complaint) (next : datetime) : Complaint :=
  if decide (new = old) then new
  else if decide (c_updated_at new = c_updated_at old)
  then {| c_id := c_id new; c_ticket_number := c_ticket_number new;
          c_user_id := c_user_id new; c_title := c_title new;
          c_description := c_description new; c_category := c_category new;
          c_location := c_location new; c_status := c_status new;
          c_priority := c_priority new; c_assigned_to := c_assigned_to new;
          c_created_at := c_created_at new; c_updated_at := next;
          c_resolved_at := c_resolved_at new;
          c_escalation_count := c_escalation_count new |}
  else new.

(** [db_session.commit()] after assignments to a loaded complaint: the
    integer values [ints] the view assigned are bound, which raises outside
    64 bits, and the row is written. *)
Definition commit_complaint (d : DB) (old new : Complaint) (next : datetime)
           (ints : list Z) : Exc DB :=
  if forallb sqlite_integer ints
  then ret (write_complaint d (onupdate old new next))
  else raise OverflowError.

(** [role in [UserRole.ADMIN, UserRole.STAFF]] *)
Definition admin_or_staff (r : UserRole) : bool :=
  bool_decide (r ∈ [ADMIN; STAFF]).

(** [len([c for c in cs if c.status == st])] and [.filter_by(...).count()] *)
Definition count_status (st : ComplaintStatus) (cs : list Complaint) : nat :=
  length (filter (fun c => c_status c = st) cs).

(** [.order_by(created_at.desc())]; rows with equal times keep table
    order, which SQL leaves open. *)
Definition newest_first {A} (key : A -> datetime) (l : list A) : list A :=
  merge_sort (fun a b => Is_true (datetime_leb (key b) (key a))) l.

Definition oldest_first {A} (key : A -> datetime) (l : list A) : list A :=
  merge_sort (fun a b => Is_true (datetime_leb (key a) (key b))) l.

Section App.

(** werkzeug.security and the built-in [int] are outside the program. *)
Variable generate_password_hash : string -> string -> string. (* salt, password *)
Variable check_password_hash : string -> string -> bool.      (* hash, password *)
Variable int_of_str : string -> option Z.                     (* None: ValueError *)

(** *** models.py: create_admin_user *)

Definition create_admin_user (e : Env) (d : DB) : Exc (DB * option User) :=
  match first_by_username d "admin" with
  | Some admin => ret (d, Some admin)
  | None =>
    let row k :=
      {| u_id := k; u_email := "admin@localgov.com"; u_username := "admin";
         u_password_hash := generate_password_hash (salt e) "admin123";
         u_full_name := "System Administrator";
         u_phone := Some "0000000000"; u_address := None;
         u_role := ADMIN; u_created_at := utcnow e 0%nat;
         u_is_active := Some 1 |} in
    do d' <- insert_user d row;
    ret (d', last (users d'))
  end.

(** *** Decorators *)

Definition login_required (f : Handler) : Handler := fun ctx =>
  match session ctx with
  | None =>
    respond ctx [(Text "Please log in to access this page.", "error")]
            (redirect url_login)
  | Some _ => f ctx
  end.

Definition admin_required (f : Handler) : Handler := fun ctx =>
  match session ctx with
  | None => respond ctx [] (redirect url_login)
  | Some s =>
    match get_user (db ctx) (s_user_id s) with
    | Some user =>
      if admin_or_staff (u_role user) then f ctx
      else respond ctx [(Text "Access denied. Admin privileges required.", "error")]
                   (redirect url_index)
    | None =>
      respond ctx [(Text "Access denied. Admin privileges required.", "error")]
              (redirect url_index)
    end
  end.

(** The key a decorated view reads with [session['user_id']]. *)
Definition session_user_id (ctx : Ctx) : Exc Z :=
  match session ctx with
  | Some s => ret (s_user_id s)
  | None => raise (KeyError "user_id")
  end.

(** *** Routes: index, register, login, logout *)

Definition index : Handler := fun ctx =>
  respond ctx [] (render_template index_html).

Definition register : Handler := fun ctx =>
  match method (request ctx) with
  | POST =>
    let f := form (request ctx) in
    let attempt : Exc (option DB) :=
      do email <- form_getitem f "email";
      do username <- form_getitem f "username";
      match List.find (fun u => String.eqb (u_email u) email
                                || String.eqb (u_username u) username)
                      (users (db ctx)) with
      | Some _ => ret None
      | None =>
        do full_name <- form_getitem f "full_name";
        let phone := form_get f "phone" "" in
        let address := form_get f "address" "" in
        do password <- form_getitem f "password";
        let row k :=
          {| u_id := k; u_email := email; u_username := username;
             u_password_hash :=
               generate_password_hash (salt (env ctx)) password;
             u_full_name := full_name;
             u_phone := Some phone; u_address := Some address;
             u_role := CITIZEN; u_created_at := utcnow (env ctx) 0%nat;
             u_is_active := Some 1 |} in
        do d' <- insert_user (db ctx) row;
        ret (Some d')
      end in
    match attempt with
    | inr None =>
      respond ctx [(Text "Email or username already exists!", "error")]
              (redirect url_register)
    | inr (Some d') =>
      {| res_db := d'; res_session := session ctx;
         res_flashes := [(Text "Registration successful! Please log in.", "success")];
         res_response := redirect url_login |}
    | inl e =>
      respond ctx [(TextExc "Registration failed: " e, "error")]
              (redirect url_register)
    end
  | GET => respond ctx [] (render_template register_html)
  end.

Definition login : Handler := fun ctx =>
  match method (request ctx) with
  | POST =>
    let f := form (request ctx) in
    match (do username <- form_getitem f "username";
           do password <- form_getitem f "password";
           ret (username, password)) with
    | inl _ => respond ctx [] (abort 400)
    | inr (username, password) =>
      match first_by_username (db ctx) username with
      | Some u =>
        if check_password_hash (u_password_hash u) password
           && truthy (u_is_active u)
        then
          {| res_db := db ctx;
             res_session :=
               Some {| s_user_id := u_id u; s_username := u_username u;
                       s_role := UserRole_value (u_role u);
                       s_permanent := true |};
             res_flashes :=
               [(Text ("Welcome back, " ++ u_full_name u ++ "!"), "success")];
             res_response :=
               if admin_or_staff (u_role u)
               then redirect url_admin_dashboard
               else redirect url_user_dashboard |}
        else
          respond ctx [(Text "Invalid credentials or inactive account!", "error")]
                  (render_template login_html)
      | None =>
        respond ctx [(Text "Invalid credentials or inactive account!", "error")]
                (render_template login_html)
      end
    end
  | GET => respond ctx [] (render_template login_html)
  end.

Definition logout : Handler := fun ctx =>
  {| res_db := db ctx; res_session := None;
     res_flashes := [(Text "You have been logged out.", "success")];
     res_response := redirect url_index |}.

(** *** Routes: dashboards *)

Definition user_dashboard : Handler := login_required (fun ctx =>
  match (do k <- session_user_id ctx; ret (get_user (db ctx) k)) with
  | inr (Some user) =>
    let cs :=
      newest_first c_created_at
        (filter (fun c => c_user_id c = u_id user) (complaints (db ctx))) in
    let stats :=
      [("total", length cs);
       ("pending", count_status PENDING cs);
       ("in_progress", count_status IN_PROGRESS cs);
       ("resolved", count_status RESOLVED cs)] in
    respond ctx [] (render_template (user_dashboard_html user cs stats))
  | _ => respond ctx [] (abort 500)      (* user.id on None *)
  end).

Definition admin_dashboard : Handler := admin_required (fun ctx =>
  match session_user_id ctx with
  | inr k =>
    let user := get_user (db ctx) k in
    let cs := complaints (db ctx) in
    let stats :=
      [("total", length cs);
       ("pending", count_status PENDING cs);
       ("escalated", count_status ESCALATED cs);
       ("users", length (filter (fun u => u_role u = CITIZEN) (users (db ctx))))] in
    respond ctx []
      (render_template
         (admin_dashboard_html user stats
            (take 10 (newest_first c_created_at cs))))
  | inl _ => respond ctx [] (abort 500)
  end).

(** *** Routes: complaints *)

Definition categories : list string :=
  ["Roads & Infrastructure"; "Water Supply"; "Sanitation"; "Electricity";
   "Public Safety"; "Healthcare"; "Education"; "Others"].

Definition new_complaint : Handler := login_required (fun ctx =>
  match method (request ctx) with
  | POST =>
    let f := form (request ctx) in
    let ticket_number := make_ticket_number (env ctx) in
    let attempt : Exc DB :=
      do uid <- session_user_id ctx;
      do title <- form_getitem f "title";
      do description <- form_getitem f "description";
      do category <- form_getitem f "category";
      let location := form_get f "location" "" in
      do priority <- ComplaintPriority_getitem (form_get f "priority" "MEDIUM");
      let row k :=
        {| c_id := k; c_ticket_number := ticket_number; c_user_id := uid;
           c_title := title; c_description := description;
           c_category := category; c_location := location;
           c_status := PENDING; c_priority := priority;
           c_assigned_to := None;
           c_created_at := utcnow (env ctx) 1%nat;
           c_updated_at := utcnow (env ctx) 2%nat;
           c_resolved_at := None; c_escalation_count := 0 |} in
      insert_complaint (db ctx) row in
    match attempt with
    | inr d' =>
      {| res_db := d'; res_session := session ctx;
         res_flashes :=
           [(Text ("Complaint submitted successfully! Ticket: " ++ ticket_number),
             "success")];
         res_response := redirect url_user_dashboard |}
    | inl e =>
      respond ctx [(TextExc "Failed to submit complaint: " e, "error")]
              (render_template (new_complaint_html categories))
    end
  | GET => respond ctx [] (render_template (new_complaint_html categories))
  end).

Definition view_complaint (complaint_id : Z) : Handler :=
  login_required (fun ctx =>
  match query_get_complaint (db ctx) complaint_id with
  | inl _ => respond ctx [] (abort 500)  (* raised outside any try *)
  | inr None =>
    respond ctx [(Text "Complaint not found!", "error")]
            (redirect url_user_dashboard)
  | inr (Some complaint) =>
    match (do k <- session_user_id ctx; ret (get_user (db ctx) k)) with
    | inr (Some user) =>
      if bool_decide (u_role user = CITIZEN)
         && negb (c_user_id complaint =? u_id user)
      then respond ctx [(Text "Access denied!", "error")]
                   (redirect url_user_dashboard)
      else
        let rs := filter (fun r => r_complaint_id r = complaint_id)
                         (responses (db ctx)) in
        let rs := if bool_decide (u_role user = CITIZEN)
                  then filter (fun r => r_is_internal r = 0) rs else rs in
        let rs := oldest_first r_created_at rs in
        respond ctx [] (render_template (view_complaint_html complaint rs))
    | _ => respond ctx [] (abort 500)    (* user.role on None *)
    end
  end).

Definition update_complaint (complaint_id : Z) : Handler :=
  admin_required (fun ctx =>
  match query_get_complaint (db ctx) complaint_id with
  | inl _ => respond ctx [] (abort 500)  (* raised before the try *)
  | inr None =>
    respond ctx [] (jsonify [("error", "Complaint not found")] 404)
  | inr (Some complaint) =>
    let f := form (request ctx) in
    let now := utcnow (env ctx) in
    let attempt : Exc DB :=
      (* the status, [resolved_at] and the number of clock readings taken *)
      do st <- match f !! "status" with
               | Some name =>
                 do new_status <- ComplaintStatus_getitem name;
                 if bool_decide (new_status = RESOLVED)
                 then ret (new_status, Some (now 0%nat), 1%nat)
                 else ret (new_status, c_resolved_at complaint, 0%nat)
               | None => ret (c_status complaint, c_resolved_at complaint, 0%nat)
               end;
      let '(status, resolved_at, n) := st in
      do priority <- match f !! "priority" with
                     | Some name => ComplaintPriority_getitem name
                     | None => ret (c_priority complaint)
                     end;
      do assigned_to <- match f !! "assigned_to" with
                        | Some text =>
                          if String.eqb text "" then ret (c_assigned_to complaint)
                          else match int_of_str text with
                               | Some k => ret (Some k)
                               | None => raise (ValueError text)
                               end
                        | None => ret (c_assigned_to complaint)
                        end;
      commit_complaint (db ctx) complaint
        {| c_id := c_id complaint;
           c_ticket_number := c_ticket_number complaint;
           c_user_id := c_user_id complaint;
           c_title := c_title complaint;
           c_description := c_description complaint;
           c_category := c_category complaint;
           c_location := c_location complaint;
           c_status := status; c_priority := priority;
           c_assigned_to := assigned_to;
           c_created_at := c_created_at complaint;
           c_updated_at := now n;
           c_resolved_at := resolved_at;
           c_escalation_count := c_escalation_count complaint |}
        (now (S n))
        (match assigned_to with Some k => [k] | None => [] end) in
    match attempt with
    | inr d' =>
      {| res_db := d'; res_session := session ctx;
         res_flashes := [(Text "Complaint updated successfully!", "success")];
         res_response := redirect (url_view_complaint complaint_id) |}
    | inl e =>
      respond ctx [(TextExc "Update failed: " e, "error")]
              (redirect (url_view_complaint complaint_id))
    end
  end).

Definition respond_to_complaint (complaint_id : Z) : Handler :=
  login_required (fun ctx =>
  let complaint := query_get_complaint (db ctx) complaint_id in
  let user := match session ctx with
              | Some s => get_user (db ctx) (s_user_id s)
              | None => None
              end in
  match complaint with
  | inl _ => respond ctx [] (abort 500)  (* raised before the try *)
  | inr None =>
    respond ctx [(Text "Complaint not found!", "error")]
            (redirect url_user_dashboard)
  | inr (Some _) =>
    let f := form (request ctx) in
    let attempt : Exc DB :=
      do role <- match user with
                 | Some u => ret (u_role u)
                 | None => raise (AttributeError "role")
                 end;
      let is_internal :=
        if admin_or_staff role
        then (if bool_decide (f !! "internal" = Some "on") then 1 else 0)
        else 0 in
      do uid <- session_user_id ctx;
      do message <- form_getitem f "message";
      let row k :=
        {| r_id := k; r_complaint_id := complaint_id;
           r_responder_id := uid; r_message := message;
           r_is_internal := is_internal;
           r_created_at := utcnow (env ctx) 0%nat |} in
      ret (insert_response (db ctx) row) in
    match attempt with
    | inr d' =>
      {| res_db := d'; res_session := session ctx;
         res_flashes := [(Text "Response added successfully!", "success")];
         res_response := redirect (url_view_complaint complaint_id) |}
    | inl e =>
      respond ctx [(TextExc "Failed to add response: " e, "error")]
              (redirect (url_view_complaint complaint_id))
    end
  end).

(** No [try] surrounds the view: a key or a counter outside 64 bits is
    answered with status 500.  The counter grows by one per request from
    0, so the routes do not reach that bound. *)
Definition escalate_complaint (complaint_id : Z) : Handler :=
  admin_required (fun ctx =>
  match query_get_complaint (db ctx) complaint_id with
  | inl _ => respond ctx [] (abort 500)
  | inr (Some complaint) =>
    let now := utcnow (env ctx) in
    match
      commit_complaint (db ctx) complaint
        {| c_id := c_id complaint;
           c_ticket_number := c_ticket_number complaint;
           c_user_id := c_user_id complaint;
           c_title := c_title complaint;
           c_description := c_description complaint;
           c_category := c_category complaint;
           c_location := c_location complaint;
           c_status := ESCALATED;
           c_priority := HIGH;
           c_assigned_to := c_assigned_to complaint;
           c_created_at := c_created_at complaint;
           c_updated_at := now 0%nat;
           c_resolved_at := c_resolved_at complaint;
           c_escalation_count := c_escalation_count complaint + 1 |}
        (now 1%nat)
        [c_escalation_count complaint + 1]
    with
    | inr d' =>
      {| res_db := d'; res_session := session ctx;
         res_flashes := [(Text "Complaint escalated successfully!", "success")];
         res_response := redirect (url_view_complaint complaint_id) |}
    | inl _ => respond ctx [] (abort 500)
    end
  | inr None => respond ctx [] (redirect (url_view_complaint complaint_id))
  end).

(** *** Routes: administration *)

Definition manage_users : Handler := admin_required (fun ctx =>
  respond ctx []
    (render_template
       (manage_users_html (newest_first u_created_at (users (db ctx)))))).

(** [query(Complaint.category).group_by(Complaint.category).all()]: one
    row per group, each row holding the category alone.  SQL leaves the
    order of the groups open. *)
Definition group_by_category (cs : list Complaint) : list string :=
  remove_dups (map c_category cs).

Definition reports : Handler := admin_required (fun ctx =>
  let cs := complaints (db ctx) in
  let total_complaints := length cs in
  let status_counts :=
    map (fun st => (ComplaintStatus_value st, count_status st cs))
        ComplaintStatus_members in
  let category_counts := group_by_category cs in
  respond ctx []
    (render_template
       (reports_html total_complaints status_counts category_counts))).

(** *** The URL map *)

Inductive Route :=
| route_index | route_register | route_login | route_logout
| route_user_dashboard | route_admin_dashboard | route_new_complaint
| route_view_complaint (complaint_id : Z)
| route_update_complaint (complaint_id : Z)
| route_respond_to_complaint (complaint_id : Z)
| route_escalate_complaint (complaint_id : Z)
| route_manage_users | route_reports.

(** [methods=[...]] of each route, GET where none is given; HEAD and
    OPTIONS, which Flask answers by itself, are left out. *)
Definition methods (r : Route) : list Method :=
  match r with
  | route_register | route_login | route_new_complaint => [GET; POST]
  | route_update_complaint _ | route_respond_to_complaint _
  | route_escalate_complaint _ => [POST]
  | _ => [GET]
  end.

Definition view_function (r : Route) : Handler :=
  match r with
  | route_index => index
  | route_register => register
  | route_login => login
  | route_logout => logout
  | route_user_dashboard => user_dashboard
  | route_admin_dashboard => admin_dashboard
  | route_new_complaint => new_complaint
  | route_view_complaint k => view_complaint k
  | route_update_complaint k => update_complaint k
  | route_respond_to_complaint k => respond_to_complaint k
  | route_escalate_complaint k => escalate_complaint k
  | route_manage_users => manage_users
  | route_reports => reports
  end.

(** One request: 405 when the method is not registered for the URL. *)
Definition dispatch (r : Route) : Handler := fun ctx =>
  if bool_decide (method (request ctx) ∈ methods r)
  then view_function r ctx
  else respond ctx [] (abort 405).

End App.

(** * Notions used by the properties *)

(** The actor of a request: the user row the session key reads. *)
Definition actor (ctx : Ctx) : option User :=
  match session ctx with
  | Some s => get_user (db ctx) (s_user_id s)
  | None => None
  end.

(** The same request with another form. *)
Definition with_form (ctx : Ctx) (f : gmap string string) : Ctx :=
  {| env := env ctx;
     request := {| method := method (request ctx); form := f |};
     session := session ctx; db := db ctx |}.

(** The answer of a failed login. *)
Definition invalid_credentials (ctx : Ctx) : Result :=
  respond ctx [(Text "Invalid credentials or inactive account!", "error")]
          (render_template login_html).

(** No two user rows share an email or a username. *)
Definition unique_users (d : DB) : Prop :=
  NoDup (map u_email (users d)) /\ NoDup (map u_username (users d)).

(** A view that leaves the [users] table as it found it. *)
Definition keeps_users (h : Handler) : Prop :=
  forall ctx, users (res_db (h ctx)) = users (db ctx).

(** Strings of exactly four (two) decimal digits that write [n]; strings of
    exactly two upper-case hexadecimal digits. *)
Definition four_digits (s : string) (n : Z) : bool :=
  match s with
  | String a (String b (String c (String d EmptyString))) =>
    is_digit a && is_digit b && is_digit c && is_digit d
    && (digits_value s =? n)
  | _ => false
  end.

Definition two_digits (s : string) (n : Z) : bool :=
  match s with
  | String a (String b EmptyString) =>
    is_digit a && is_digit b && (digits_value s =? n)
  | _ => false
  end.

Definition two_upper_hex (s : string) : bool :=
  match s with
  | String a (String b EmptyString) => is_upper_hex a && is_upper_hex b
  | _ => false
  end.

(** The category report in the words of the specification, for comparison
    with [group_by_category]: each distinct non-empty category observed,
    paired with the number of complaints that have it. *)
Definition countByCategory (cs : list Complaint) : list (string * nat) :=
  map (fun cat => (cat, length (filter (fun c => c_category c = cat) cs)))
      (filter (fun cat => cat <> EmptyString) (remove_dups (map c_category cs))).

(** ** Sample data for the closed examples *)

(** A stand-in hasher: the hash is the salt, a dollar sign and the
    password; the examples use the salt [na]. *)
Definition demo_hash (s p : string) : string := (s ++ "$" ++ p)%string.
Definition demo_check (h p : string) : bool := String.eqb h ("na$" ++ p)%string.

(** A stand-in for [int]: non-empty strings of ASCII digits. *)
Definition demo_int (s : string) : option Z :=
  if forallb is_digit (list_ascii_of_string s) && negb (String.eqb s "")
  then Some (digits_value s) else None.

Definition demo_time (h : Z) : datetime := mk_datetime 2024 3 7 h 0 0 0.

Definition demo_env (h : Z) : Env :=
  {| utcnow := fun n => mk_datetime 2024 3 7 h 0 (Z.of_nat n) 0;
     token_bytes := (Byte.xa0, Byte.x1f, Byte.xc4);
     salt := "na" |}.

Definition demo_admin : User :=
  mk_User 1 "admin@localgov.com" "admin" "na$admin123" "System Administrator"
          (Some "0000000000") None ADMIN (demo_time 8) (Some 1).
Definition demo_alice : User :=
  mk_User 2 "alice@example.org" "alice" "na$wonder" "Alice A"
          (Some "") (Some "") CITIZEN (demo_time 9) (Some 1).
Definition demo_bob : User :=
  mk_User 3 "bob@example.org" "bob" "na$builder" "Bob B"
          (Some "") (Some "") CITIZEN (demo_time 9) (Some 1).

(** Alice's complaint, already resolved and critical. *)
Definition demo_complaint : Complaint :=
  mk_Complaint 1 "COMP-20240307-0000AA" 2 "Pothole" "Deep pothole"
               "Roads & Infrastructure" "Main St" RESOLVED CRITICAL None
               (demo_time 10) (demo_time 11) (Some (demo_time 11)) 4.

(** Two complaints about water and one filed with an empty category. *)
Definition demo_water (k : Z) (ticket category : string) : Complaint :=
  mk_Complaint k ticket 2 "No water" "Dry tap" category "" PENDING MEDIUM None
               (demo_time 10) (demo_time 10) None 0.

Definition demo_db : DB :=
  {| users := [demo_admin; demo_alice; demo_bob];
     complaints := [demo_complaint];
     responses := [] |}.

Definition demo_db_categories : DB :=
  {| users := [demo_admin; demo_alice; demo_bob];
     complaints := [demo_water 1 "COMP-20240307-000001" "Water Supply";
                    demo_water 2 "COMP-20240307-000002" "";
                    demo_water 3 "COMP-20240307-000003" "Water Supply"];
     responses := [] |}.

Definition session_of (u : User) : Session :=
  Some {| s_user_id := u_id u; s_username := u_username u;
          s_role := UserRole_value (u_role u); s_permanent := true |}.

Definition demo_ctx (m : Method) (s : Session) (f : gmap string string)
           (d : DB) : Ctx :=
  {| env := demo_env 12; request := mk_Request m f; session := s; db := d |}.

(** * Further notions: key uniqueness, sequences of requests *)

(** Primary keys and ticket numbers are unique. *)
Definition unique_keys (d : DB) : Prop :=
  NoDup (map u_id (users d)) /\
  NoDup (map c_id (complaints d)) /\
  NoDup (map r_id (responses d)) /\
  NoDup (map c_ticket_number (complaints d)).

(** The fields of a complaint no view function assigns after creation. *)
Definition fixed_fields (c : Complaint)
  : Z * string * Z * string * string * string * string * datetime :=
  (c_id c, c_ticket_number c, c_user_id c, c_title c, c_description c,
   c_category c, c_location c, c_created_at c).

(** The database before the first request. *)
Definition empty_db : DB := {| users := []; complaints := []; responses := [] |}.

#[global] Instance Route_eq_dec : EqDecision Route.
Proof. solve_decision. Defined.

(** The routes behind [login_required], and those behind [admin_required]. *)
Definition login_routes (k : Z) : list Route :=
  [route_user_dashboard; route_new_complaint; route_view_complaint k;
   route_respond_to_complaint k].

Definition admin_routes (k : Z) : list Route :=
  [route_admin_dashboard; route_update_complaint k;
   route_escalate_complaint k; route_manage_users; route_reports].

(** A request as it reaches the server: the URL, what the request reads from
    outside, its method and form, and the session cookie it carries. *)
Record Visit := mk_Visit {
  v_route : Route;
  v_env : Env;
  v_request : Request;
  v_session : Session
}.

(** Not later than, and not earlier than, by the time under [key]. *)
Definition not_later {A} (key : A -> datetime) : relation A :=
  fun a b => Is_true (datetime_leb (key a) (key b)).

Definition not_earlier {A} (key : A -> datetime) : relation A :=
  fun a b => Is_true (datetime_leb (key b) (key a)).


(** What one request may do to the database: nothing, or store one citizen
    with a fresh key and an email and username nobody has, or store one
    pending complaint with a fresh key and ticket number, or write one
    stored complaint back with the same fixed fields, or store one response
    with a fresh key. *)
Inductive db_step (d : DB) : DB -> Prop :=
| step_none : db_step d d
| step_user u :
    u_id u = next_id (map u_id (users d)) ->
    u_role u = CITIZEN ->
    (forall v, v ∈ users d ->
       u_email v <> u_email u /\ u_username v <> u_username u) ->
    db_step d {| users := users d ++ [u]; complaints := complaints d;
                 responses := responses d |}
| step_complaint c :
    c_id c = next_id (map c_id (complaints d)) ->
    (forall v, v ∈ complaints d -> c_ticket_number v <> c_ticket_number c) ->
    c_status c = PENDING -> c_escalation_count c = 0 ->
    c_resolved_at c = None ->
    db_step d {| users := users d; complaints := complaints d ++ [c];
                 responses := responses d |}
| step_write k c c' :
    get_complaint d k = Some c ->
    fixed_fields c' = fixed_fields c ->
    c_escalation_count c <= c_escalation_count c' ->
    (c_resolved_at c <> None -> c_resolved_at c' <> None) ->
    db_step d (write_complaint d c')
| step_response r :
    r_id r = next_id (map r_id (responses d)) ->
    db_step d {| users := users d; complaints := complaints d;
                 responses := responses d ++ [r] |}.

(** A stored complaint and what later became of it. *)
Definition later_version (c c' : Complaint) : Prop :=
  fixed_fields c' = fixed_fields c /\
  c_escalation_count c <= c_escalation_count c' /\
  (c_resolved_at c <> None -> c_resolved_at c' <> None).

Section Serving.

Variable generate_password_hash : string -> string -> string.
Variable check_password_hash : string -> string -> bool.
Variable int_of_str : string -> option Z.

(** The answer to one request on database [d], and the database after a
    sequence of requests served one after the other. *)
Definition serve (d : DB) (v : Visit) : Result :=
  dispatch generate_password_hash check_password_hash int_of_str (v_route v)
           {| env := v_env v; request := v_request v;
              session := v_session v; db := d |}.

Definition serve_all (d : DB) (vs : list Visit) : DB :=
  fold_left (fun d v => res_db (serve d v)) vs d.

End Serving.

(** ** More sample data *)

(** Alice's complaint with three responses: an internal note by the admin,
    a public question by Alice an hour earlier, a public answer later. *)
Definition demo_db_thread : DB :=
  {| users := [demo_admin; demo_alice; demo_bob];
     complaints := [demo_complaint];
     responses := [mk_Response 1 1 1 "Crew assigned" 1 (demo_time 12);
                   mk_Response 2 1 2 "Any news?" 0 (demo_time 11);
                   mk_Response 3 1 1 "Fixed" 0 (demo_time 13)] |}.

Definition demo_carol_form : gmap string string :=
  {[ "email" := "carol@example.org"; "username" := "carol";
     "full_name" := "Carol C"; "password" := "pw" ]}.

Definition demo_visit (r : Route) (s : Session) (f : gmap string string)
  : Visit :=
  {| v_route := r; v_env := demo_env 12; v_request := mk_Request POST f;
     v_session := s |}.

(** * Properties *)

Example ex_ticket :
  make_ticket_number
    {| utcnow := fun _ => mk_datetime 2024 3 7 10 0 0 0;
       token_bytes := (Byte.xa0, Byte.x1f, Byte.xc4); salt := "" |}
  = "COMP-20240307-A01FC4".
Proof. reflexivity. Qed.

(** ** Lookups by key *)

Lemma get_complaint_key d k c : get_complaint d k = Some c -> c_id c = k.
Proof.
  unfold get_complaint; intros H.
  apply List.find_some in H as [_ H]. lia.
Qed.

Lemma get_user_key d k u : get_user d k = Some u -> u_id u = k.
Proof.
  unfold get_user; intros H.
  apply List.find_some in H as [_ H]. lia.
Qed.

(** Writing the object read under key [k] back makes it the row read under
    [k]; rows under other keys are read as before. *)
Lemma find_write_same (l : list Complaint) k c c' :
  List.find (fun x => c_id x =? k) l = Some c ->
  c_id c' = k ->
  List.find (fun x => c_id x =? k)
            (map (fun old => if c_id old =? c_id c' then c' else old) l)
  = Some c'.
Proof.
  intros Hf Hk. subst k.
  induction l as [|x l IH]; simpl in *; [discriminate|].
  destruct (c_id x =? c_id c') eqn:E; simpl.
  - rewrite Z.eqb_refl. reflexivity.
  - rewrite E. apply IH, Hf.
Qed.

Lemma find_write_other (l : list Complaint) k c' :
  c_id c' <> k ->
  List.find (fun x => c_id x =? k)
            (map (fun old => if c_id old =? c_id c' then c' else old) l)
  = List.find (fun x => c_id x =? k) l.
Proof.
  intros Hk. induction l as [|x l IH]; simpl; [reflexivity|].
  destruct (c_id x =? c_id c') eqn:E.
  - apply Z.eqb_eq in E.
    assert ((c_id c' =? k) = false) as -> by (apply Z.eqb_neq; lia).
    assert ((c_id x =? k) = false) as -> by (apply Z.eqb_neq; lia).
    exact IH.
  - rewrite IH. reflexivity.
Qed.

Lemma get_write_complaint d k c c' :
  get_complaint d k = Some c -> c_id c' = k ->
  get_complaint (write_complaint d c') k = Some c'.
Proof. unfold get_complaint, write_complaint; simpl. apply find_write_same. Qed.

Lemma get_write_complaint_other d k c' :
  c_id c' <> k ->
  get_complaint (write_complaint d c') k = get_complaint d k.
Proof. unfold get_complaint, write_complaint; simpl. apply find_write_other. Qed.

(** ** The decorators *)

Lemma admin_or_staff_spec r : admin_or_staff r = true <-> r = ADMIN \/ r = STAFF.
Proof. destruct r; vm_compute; intuition congruence. Qed.

Lemma admin_or_staff_citizen : admin_or_staff CITIZEN = false.
Proof. reflexivity. Qed.

Lemma admin_required_pass f ctx u :
  actor ctx = Some u -> admin_or_staff (u_role u) = true ->
  admin_required f ctx = f ctx.
Proof.
  unfold actor, admin_required. destruct (session ctx); [|discriminate].
  intros -> ->. reflexivity.
Qed.

Lemma login_required_pass f ctx u :
  actor ctx = Some u -> login_required f ctx = f ctx.
Proof.
  unfold actor, login_required. destruct (session ctx); [|discriminate].
  reflexivity.
Qed.

(** A decorator either runs the view or answers without touching the
    database and the session. *)
Lemma admin_required_cases f ctx :
  admin_required f ctx = f ctx \/
  (exists fl to, admin_required f ctx = respond ctx fl (redirect to) /\
     forall m, In (m, "success") fl -> False).
Proof.
  unfold admin_required.
  destruct (session ctx) as [s|].
  - destruct (get_user (db ctx) (s_user_id s)) as [u|].
    + destruct (admin_or_staff (u_role u)); [by left|].
      right; eexists _, _; split; [reflexivity|].
      intros m [H|[]]; inversion H.
    + right; eexists _, _; split; [reflexivity|].
      intros m [H|[]]; inversion H.
  - right; eexists _, _; split; [reflexivity|]. intros m [].
Qed.

Lemma login_required_cases f ctx :
  login_required f ctx = f ctx \/
  (session ctx = None /\
   login_required f ctx =
     respond ctx [(Text "Please log in to access this page.", "error")]
             (redirect url_login)).
Proof.
  unfold login_required. destruct (session ctx); [by left|by right].
Qed.

(** ** The query by key and the flush *)

Lemma query_get_complaint_found d k c :
  get_complaint d k = Some c -> query_get_complaint d k = inr (Some c).
Proof. unfold query_get_complaint. by intros ->. Qed.

Lemma query_get_complaint_missing d k :
  get_complaint d k = None ->
  query_get_complaint d k
  = if sqlite_integer k then inr None else inl OverflowError.
Proof. unfold query_get_complaint. by intros ->. Qed.

Lemma query_get_complaint_inr d k o :
  query_get_complaint d k = inr o -> get_complaint d k = o.
Proof.
  unfold query_get_complaint. destruct (get_complaint d k); [by intros [= <-]|].
  destruct (sqlite_integer k); [by intros [= <-]|discriminate].
Qed.

(** The flush changes [updated_at] at most. *)
Lemma onupdate_fields old new next :
  (c_id (onupdate old new next), c_status (onupdate old new next),
   c_priority (onupdate old new next), c_assigned_to (onupdate old new next),
   c_resolved_at (onupdate old new next),
   c_escalation_count (onupdate old new next),
   c_ticket_number (onupdate old new next), c_user_id (onupdate old new next),
   c_title (onupdate old new next), c_description (onupdate old new next),
   c_category (onupdate old new next), c_location (onupdate old new next),
   c_created_at (onupdate old new next))
  = (c_id new, c_status new, c_priority new, c_assigned_to new,
     c_resolved_at new, c_escalation_count new, c_ticket_number new,
     c_user_id new, c_title new, c_description new, c_category new,
     c_location new, c_created_at new).
Proof. unfold onupdate. repeat case_decide; reflexivity. Qed.

Lemma onupdate_updated_at old new next :
  c_updated_at (onupdate old new next)
  = if decide (new = old) then c_updated_at new
    else if decide (c_updated_at new = c_updated_at old) then next
    else c_updated_at new.
Proof. unfold onupdate. repeat case_decide; reflexivity. Qed.

Lemma commit_complaint_inr d old new next ints d' :
  commit_complaint d old new next ints = inr d' ->
  d' = write_complaint d (onupdate old new next) /\
  forallb sqlite_integer ints = true.
Proof.
  unfold commit_complaint. destruct (forallb _ _); [|discriminate].
  by intros [= <-].
Qed.

(** ** Escalation *)

(** C1. For every existing complaint, whatever its status and priority
    before (Resolved, Closed and Critical included), an escalation by a
    staff or admin actor succeeds exactly when the raised count still fits
    the 64 bits of the column, which holds for every count the routes can
    produce.  A successful escalation leaves the complaint with status
    Escalated, priority High, an escalation count one higher and
    [updated_at] stamped with a clock reading of the request: the one the
    view takes, or, when that equals the stored time, the one the flush
    takes next.  The other fields are as before.  Where the count does not
    fit, the commit raises: status 500, nothing written. *)
Theorem escalate_complaint_sets_fields ctx k u c :
  actor ctx = Some u ->
  admin_or_staff (u_role u) = true ->
  get_complaint (db ctx) k = Some c ->
  let r := escalate_complaint k ctx in
  (res_flashes r = [(Text "Complaint escalated successfully!", "success")]
   <-> sqlite_integer (c_escalation_count c + 1) = true) /\
  (sqlite_integer (c_escalation_count c + 1) = true ->
   exists c',
     get_complaint (res_db r) k = Some c' /\
     c_status c' = ESCALATED /\
     c_priority c' = HIGH /\
     c_escalation_count c' = c_escalation_count c + 1 /\
     c_updated_at c'
     = (if decide (utcnow (env ctx) 0%nat = c_updated_at c)
        then utcnow (env ctx) 1%nat else utcnow (env ctx) 0%nat) /\
     (c_ticket_number c', c_user_id c', c_title c', c_description c',
      c_category c', c_location c', c_assigned_to c', c_created_at c',
      c_resolved_at c')
     = (c_ticket_number c, c_user_id c, c_title c, c_description c,
        c_category c, c_location c, c_assigned_to c, c_created_at c,
        c_resolved_at c)) /\
  (sqlite_integer (c_escalation_count c + 1) = false ->
   res_db r = db ctx /\ res_flashes r = [] /\ res_response r = abort 500).
Proof.
  intros Hu Hr Hc r. subst r. unfold escalate_complaint.
  rewrite (admin_required_pass _ _ _ Hu Hr),
    (query_get_complaint_found _ _ _ Hc).
  cbv zeta. unfold commit_complaint. simpl forallb. rewrite andb_true_r.
  destruct (sqlite_integer (c_escalation_count c + 1)) eqn:Hfit; simpl.
  - split_and!; [done| |discriminate]. intros _.
    match goal with
    | |- context [onupdate c ?new ?next] =>
      pose proof (onupdate_fields c new next) as Hf;
      pose proof (onupdate_updated_at c new next) as Ht;
      set (c' := onupdate c new next) in *
    end.
    simpl in Hf, Ht. injection Hf as Hid Hst Hpr Has Hre Hcn Htk Hus Hti Hde Hca Hlo Hcr.
    exists c'. split_and!; try done.
    + eapply get_write_complaint; [exact Hc|].
      rewrite Hid. eapply get_complaint_key; eauto.
    + rewrite Ht. rewrite decide_False; [reflexivity|].
      intros E. apply (f_equal c_escalation_count) in E. simpl in E. lia.
    + congruence.
  - split_and!; [split; discriminate|discriminate|done].
Qed.

(** C10, as amended. Escalating a key under which no complaint is stored
    never changes the database or the session and never flashes success.
    For a key that fits 64 bits the answer is a redirect, and for a staff
    or admin actor nothing at all is flashed and the redirect goes to the
    complaint's page.  For a larger key and a staff or admin actor the
    lookup raises: status 500, nothing flashed. *)
Theorem escalate_missing_complaint_silent ctx k :
  get_complaint (db ctx) k = None ->
  let r := escalate_complaint k ctx in
  res_db r = db ctx /\
  res_session r = session ctx /\
  (forall m, In (m, "success") (res_flashes r) -> False) /\
  (sqlite_integer k = true ->
     (exists to, res_response r = redirect to) /\
     (forall u, actor ctx = Some u -> admin_or_staff (u_role u) = true ->
        res_flashes r = [] /\
        res_response r = redirect (url_view_complaint k))) /\
  (sqlite_integer k = false ->
     forall u, actor ctx = Some u -> admin_or_staff (u_role u) = true ->
       res_flashes r = [] /\ res_response r = abort 500).
Proof.
  intros Hn r. subst r. unfold escalate_complaint.
  match goal with
  | |- context [admin_required ?f ctx] =>
    pose proof (admin_required_cases f ctx) as Hdec;
    pose proof (admin_required_pass f ctx) as Hpass;
    cbv beta in Hdec, Hpass;
    rewrite (query_get_complaint_missing _ _ Hn) in Hdec, Hpass
  end.
  destruct (sqlite_integer k) eqn:Hfit; split_and!; try discriminate.
  - destruct Hdec as [->|(fl & to & -> & _)]; reflexivity.
  - destruct Hdec as [->|(fl & to & -> & _)]; reflexivity.
  - destruct Hdec as [->|(fl & to & -> & Hfl)]; [intros m []|exact Hfl].
  - intros _. split.
    + destruct Hdec as [->|(fl & to & -> & _)]; eexists; reflexivity.
    + intros u Hu Hr. rewrite (Hpass u Hu Hr). split; reflexivity.
  - destruct Hdec as [->|(fl & to & -> & _)]; reflexivity.
  - destruct Hdec as [->|(fl & to & -> & _)]; reflexivity.
  - destruct Hdec as [->|(fl & to & -> & Hfl)]; [intros m []|exact Hfl].
  - intros _ u Hu Hr. rewrite (Hpass u Hu Hr). split; reflexivity.
Qed.

(** C10 as stated fails: the admin escalates the key 2^63, which the URL
    converter accepts and under which nothing is stored; the lookup raises
    and the answer is status 500, not a redirect. *)
Lemma escalate_key_outside_64_bits :
  let ctx := demo_ctx POST (session_of demo_admin) ∅ demo_db in
  get_complaint (db ctx) (2 ^ 63) = None /\
  res_response (escalate_complaint (2 ^ 63) ctx) = abort 500 /\
  ~ (exists to, res_response (escalate_complaint (2 ^ 63) ctx) = redirect to).
Proof.
  vm_compute. split_and!; [reflexivity|reflexivity|].
  intros [to H]. discriminate H.
Qed.

(** ** Responses *)

Lemma app_singleton_neq {A} (l : list A) (x : A) : l = l ++ [x] -> False.
Proof.
  intros H. apply (f_equal (@length A)) in H.
  rewrite length_app in H. simpl in H. lia.
Qed.

(** C2, evaluated.  Bob, a citizen, posts a response to the complaint owned
    by Alice: the row is stored and success is flashed, although the
    complaint's page refuses the same request context. *)
Example respond_to_complaint_of_other_citizen :
  let ctx := demo_ctx POST (session_of demo_bob)
                      {[ "message" := "mine too" ]} demo_db in
  actor ctx = Some demo_bob /\
  u_role demo_bob = CITIZEN /\
  get_complaint (db ctx) 1 = Some demo_complaint /\
  c_user_id demo_complaint <> u_id demo_bob /\
  res_flashes (view_complaint 1 ctx) = [(Text "Access denied!", "error")] /\
  res_flashes (respond_to_complaint 1 ctx)
    = [(Text "Response added successfully!", "success")] /\
  responses (res_db (respond_to_complaint 1 ctx))
    = [mk_Response 1 1 3 "mine too" 0 (utcnow (demo_env 12) 0%nat)].
Proof. vm_compute. repeat split; congruence. Qed.

(** C4. Every response row a request stores is authored by the actor of
    the request; it is internal (1) exactly when the actor is admin or
    staff and the form has [internal] = [on], and public (0) otherwise, so a
    citizen's row is public whatever the form asks. *)
Theorem respond_to_complaint_internal_flag ctx k u row :
  actor ctx = Some u ->
  responses (res_db (respond_to_complaint k ctx)) = responses (db ctx) ++ [row] ->
  r_responder_id row = u_id u /\
  (u_role u = CITIZEN -> r_is_internal row = 0) /\
  (r_is_internal row = 1 <->
     (u_role u = ADMIN \/ u_role u = STAFF) /\
     form (request ctx) !! "internal" = Some "on") /\
  (r_is_internal row = 0 \/ r_is_internal row = 1).
Proof.
  intros Hu. unfold respond_to_complaint.
  rewrite (login_required_pass _ _ _ Hu).
  unfold actor in Hu.
  destruct (session ctx) as [s|] eqn:Hs; [|discriminate].
  destruct (query_get_complaint (db ctx) k) as [e|[c|]];
    [simpl; intros H; destruct (app_singleton_neq _ _ H)|
    |simpl; intros H; destruct (app_singleton_neq _ _ H)].
  rewrite Hu. unfold session_user_id. rewrite Hs. simpl.
  destruct (form_getitem (form (request ctx)) "message") as [e|msg];
    simpl; [intros H; destruct (app_singleton_neq _ _ H)|].
  intros H. apply app_inv_head in H. injection H as <-. simpl.
  pose proof (get_user_key _ _ _ Hu) as Hk.
  pose proof (admin_or_staff_spec (u_role u)) as Hr.
  split; [lia|].
  destruct (admin_or_staff (u_role u)).
  - assert (u_role u = ADMIN \/ u_role u = STAFF) as Hor by (apply Hr; reflexivity).
    case_bool_decide as Hon.
    + split_and!; [intros E; destruct Hor; congruence| |by right].
      split; [intros _; by split|reflexivity].
    + split_and!; [reflexivity| |by left].
      split; [discriminate|intros [_ ?]; contradiction].
  - split_and!; [reflexivity| |by left].
    split; [discriminate|].
    intros [Hor _]. apply Hr in Hor. discriminate.
Qed.

(** ** Status updates *)

Lemma ComplaintStatus_getitem_resolved name st :
  ComplaintStatus_getitem name = inr st -> (st = RESOLVED <-> name = "RESOLVED").
Proof.
  unfold ComplaintStatus_getitem, ret, raise.
  repeat match goal with
         | |- context [String.eqb name ?s] =>
           destruct (String.eqb_spec name s) as [->|?];
           [intros [= <-]; split; congruence|]
         end.
  discriminate.
Qed.

Section Externals.

Variable int_of_str : string -> option Z.

(** C5. A successful update whose form asks for status RESOLVED stores a
  non-null [resolved_at], the first clock reading of the request; a
  successful update to any other status, or without a status, leaves
  [resolved_at] as it was.  This holds from every stored state of the
  complaint, so also for the update that follows one to RESOLVED.  Every
  successful update stamps [updated_at] with the clock reading the view
  takes for it (the second one after a RESOLVED, the first otherwise);
  only when that reading equals the stored time while the status, the
  priority, the assignee or [resolved_at] changes does the flush stamp the
  reading after it instead. *)
Theorem update_complaint_timestamps ctx k c :
get_complaint (db ctx) k = Some c ->
res_flashes (update_complaint int_of_str k ctx)
  = [(Text "Complaint updated successfully!", "success")] ->
let n := if bool_decide (form (request ctx) !! "status" = Some "RESOLVED")
         then 1%nat else 0%nat in
exists c',
  get_complaint (res_db (update_complaint int_of_str k ctx)) k = Some c' /\
  (form (request ctx) !! "status" = Some "RESOLVED" ->
     c_status c' = RESOLVED /\
     c_resolved_at c' = Some (utcnow (env ctx) 0%nat)) /\
  (forall name, form (request ctx) !! "status" = Some name ->
     name <> "RESOLVED" ->
     ComplaintStatus_getitem name = inr (c_status c') /\
     c_status c' <> RESOLVED /\
     c_resolved_at c' = c_resolved_at c) /\
  (form (request ctx) !! "status" = None ->
     c_status c' = c_status c /\
     c_resolved_at c' = c_resolved_at c) /\
  (utcnow (env ctx) n <> c_updated_at c ->
     c_updated_at c' = utcnow (env ctx) n) /\
  (utcnow (env ctx) n = c_updated_at c ->
     (c_status c', c_priority c', c_assigned_to c', c_resolved_at c')
     = (c_status c, c_priority c, c_assigned_to c, c_resolved_at c) ->
     c_updated_at c' = utcnow (env ctx) n) /\
  (utcnow (env ctx) n = c_updated_at c ->
     (c_status c', c_priority c', c_assigned_to c', c_resolved_at c')
     <> (c_status c, c_priority c, c_assigned_to c, c_resolved_at c) ->
     c_updated_at c' = utcnow (env ctx) (S n)).
Proof.
intros Hc Hok n. subst n. revert Hok. unfold update_complaint.
match goal with
| |- context [admin_required ?f ctx] =>
  destruct (admin_required_cases f ctx) as [->|(fl & to & -> & Hfl)]
end.
2:{ simpl. intros ->. destruct (Hfl _ (or_introl eq_refl)). }
rewrite (query_get_complaint_found _ _ _ Hc).
match goal with |- res_flashes ?X = _ -> _ => remember X as r eqn:Hr end.
revert Hr. unfold bind, ret, raise.
set (f := form (request ctx)).
set (n := if bool_decide (f !! "status" = Some "RESOLVED")
          then 1%nat else 0%nat).
assert (forall st pr asg ra m,
  (f !! "status" = Some "RESOLVED" ->
     st = RESOLVED /\ ra = Some (utcnow (env ctx) 0%nat)) ->
  (forall name, f !! "status" = Some name -> name <> "RESOLVED" ->
     ComplaintStatus_getitem name = inr st /\ st <> RESOLVED /\
     ra = c_resolved_at c) ->
  (f !! "status" = None -> st = c_status c /\ ra = c_resolved_at c) ->
  m = n ->
  forall d',
  commit_complaint (db ctx) c
    {| c_id := c_id c; c_ticket_number := c_ticket_number c;
       c_user_id := c_user_id c; c_title := c_title c;
       c_description := c_description c; c_category := c_category c;
       c_location := c_location c; c_status := st; c_priority := pr;
       c_assigned_to := asg; c_created_at := c_created_at c;
       c_updated_at := utcnow (env ctx) m; c_resolved_at := ra;
       c_escalation_count := c_escalation_count c |}
    (utcnow (env ctx) (S m))
    (match asg with Some z => [z] | None => [] end) = inr d' ->
  exists c',
    get_complaint d' k = Some c' /\
    (f !! "status" = Some "RESOLVED" ->
       c_status c' = RESOLVED /\
       c_resolved_at c' = Some (utcnow (env ctx) 0%nat)) /\
    (forall name, f !! "status" = Some name -> name <> "RESOLVED" ->
       ComplaintStatus_getitem name = inr (c_status c') /\
       c_status c' <> RESOLVED /\
       c_resolved_at c' = c_resolved_at c) /\
    (f !! "status" = None ->
       c_status c' = c_status c /\
       c_resolved_at c' = c_resolved_at c) /\
    (utcnow (env ctx) n <> c_updated_at c ->
       c_updated_at c' = utcnow (env ctx) n) /\
    (utcnow (env ctx) n = c_updated_at c ->
       (c_status c', c_priority c', c_assigned_to c', c_resolved_at c')
       = (c_status c, c_priority c, c_assigned_to c, c_resolved_at c) ->
       c_updated_at c' = utcnow (env ctx) n) /\
    (utcnow (env ctx) n = c_updated_at c ->
       (c_status c', c_priority c', c_assigned_to c', c_resolved_at c')
       <> (c_status c, c_priority c, c_assigned_to c, c_resolved_at c) ->
       c_updated_at c' = utcnow (env ctx) (S n))) as Hwrite.
{ clearbody n.
  intros st pr asg ra m H1 H2 H3 -> d' [-> _]%commit_complaint_inr.
  match goal with
  | |- context [onupdate c ?new ?next] =>
    pose proof (onupdate_fields c new next) as Hf;
    pose proof (onupdate_updated_at c new next) as Ht;
    set (c' := onupdate c new next) in *
  end.
  simpl in Hf, Ht.
  injection Hf as Hid Hst Hpr Has Hre Hcn Htk Hus Hti Hde Hca Hlo Hcr.
  exists c'. rewrite Hst, Hpr, Has, Hre, Ht.
  split; [eapply get_write_complaint; [exact Hc|];
          rewrite Hid; eapply get_complaint_key; eauto|].
  split_and!; [exact H1|exact H2|exact H3| | |].
  - intros Hne. repeat case_decide; congruence.
  - intros He [= -> -> -> ->]. rewrite decide_True; [reflexivity|].
    rewrite He. by destruct c.
  - intros He Hne. rewrite decide_False, decide_True; [reflexivity|exact He|].
    intros E. apply Hne. by rewrite <- E. }
assert (forall name, f !! "status" = Some name ->
        n = if bool_decide (name = "RESOLVED") then 1%nat else 0%nat) as Hn.
{ intros name Hst. subst n. rewrite Hst.
  repeat case_bool_decide; congruence. }
assert (f !! "status" = None -> n = 0%nat) as Hn0.
{ intros Hst. subst n. rewrite Hst. by case_bool_decide. }
clearbody n.
destruct (f !! "status") as [name|] eqn:Hst.
- specialize (Hn _ eq_refl). clear Hn0.
  destruct (ComplaintStatus_getitem name) as [e|st] eqn:Hg;
    [intros ->; discriminate|].
  pose proof (ComplaintStatus_getitem_resolved _ _ Hg) as Hres.
  destruct (bool_decide_reflect (st = RESOLVED)) as [Hrs|Hrs].
  all: destruct (match f !! "priority" with Some _ => _ | None => _ end)
    as [e|pr]; [intros ->; discriminate|].
  all: destruct (match f !! "assigned_to" with Some _ => _ | None => _ end)
    as [e|asg]; [intros ->; discriminate|].
  all: destruct (commit_complaint _ _ _ _ _) as [e|d'] eqn:Hd;
    [intros ->; discriminate|].
  all: intros -> _; cbn [res_db].
  all: eapply Hwrite;
    [intros [= Hx]|intros name0 [= Hx] Hne; subst name0|discriminate
    |rewrite Hn; case_bool_decide|exact Hd].
  all: by intuition.
- specialize (Hn0 eq_refl). clear Hn.
  destruct (match f !! "priority" with Some _ => _ | None => _ end)
    as [e|pr]; [intros ->; discriminate|].
  destruct (match f !! "assigned_to" with Some _ => _ | None => _ end)
    as [e|asg]; [intros ->; discriminate|].
  destruct (commit_complaint _ _ _ _ _) as [e|d'] eqn:Hd;
    [intros ->; discriminate|].
  intros -> _; cbn [res_db].
  eapply Hwrite; [| | | |exact Hd]; try discriminate; done.
Qed.

End Externals.

(** ** Inversion of the exception monad *)

Lemma bind_inr {A B} (m : Exc A) (k : A -> Exc B) b :
  bind m k = inr b -> exists a, m = inr a /\ k a = inr b.
Proof. destruct m as [e|a]; simpl; [discriminate|eauto]. Qed.

Ltac exc_inv H :=
  repeat match type of H with
         | bind _ _ = inr _ =>
           let a := fresh "a" in
           let Ha := fresh "Ha" in
           apply bind_inr in H as (a & Ha & H)
         | (let '(_, _) := ?p in _) = inr _ => destruct p
         end.

(** The database of a view that ran an attempt under [try]. *)
Ltac case_attempt HE :=
  match goal with
  | |- context [match ?E with inl _ => _ | inr _ => _ end] =>
    destruct E as [?|?] eqn:HE
  end.

Lemma form_getitem_inr f key v :
  form_getitem f key = inr v <-> f !! key = Some v.
Proof.
  unfold form_getitem. destruct (f !! key); split; intros [= ->]; reflexivity.
Qed.

Lemma insert_complaint_inr d row d' :
  insert_complaint d row = inr d' ->
  d' = {| users := users d;
          complaints := complaints d ++ [row (next_id (map c_id (complaints d)))];
          responses := responses d |}.
Proof.
  unfold insert_complaint. destruct (existsb _ _); [discriminate|].
  by intros [= <-].
Qed.

(** ** Looking a user up by username *)

Lemma first_by_username_elem d name u :
  first_by_username d name = Some u -> u ∈ users d /\ u_username u = name.
Proof.
  unfold first_by_username. intros H. apply List.find_some in H as [H1 H2].
  split; [by apply list_elem_of_In|by apply String.eqb_eq].
Qed.

Lemma first_by_username_none d name :
  first_by_username d name = None ->
  forall u, u ∈ users d -> u_username u <> name.
Proof.
  unfold first_by_username. intros H u Hu%list_elem_of_In.
  pose proof (List.find_none _ _ H u Hu) as Hb. by apply String.eqb_neq.
Qed.

Lemma NoDup_fmap_elem {A B} (f : A -> B) (l : list A) x y :
  NoDup (map f l) -> x ∈ l -> y ∈ l -> f x = f y -> x = y.
Proof.
  induction l as [|a l IH]; simpl; [by intros _ ?%elem_of_nil|].
  intros [Ha Hl]%NoDup_cons [->|Hx]%elem_of_cons [->|Hy]%elem_of_cons E.
  - reflexivity.
  - destruct Ha. rewrite E. apply list_elem_of_fmap. eauto.
  - destruct Ha. rewrite <- E. apply list_elem_of_fmap. eauto.
  - by apply IH.
Qed.

(** ** Registration *)

Lemma find_none_email_username (l : list User) e n :
  List.find (fun u => String.eqb (u_email u) e || String.eqb (u_username u) n) l
  = None
  <-> forall v, v ∈ l -> u_email v <> e /\ u_username v <> n.
Proof.
  split.
  - intros H v Hv. apply list_elem_of_In in Hv.
    pose proof (List.find_none _ _ H v Hv) as Hb. simpl in Hb.
    apply orb_false_iff in Hb as [H1 H2].
    apply String.eqb_neq in H1, H2. done.
  - intros H. destruct (List.find _ l) as [v|] eqn:E; [|done].
    apply List.find_some in E as [Hin Hb].
    apply list_elem_of_In in Hin. destruct (H v Hin) as [H1 H2].
    apply orb_true_iff in Hb as [Hb|Hb]; apply String.eqb_eq in Hb; done.
Qed.

Lemma existsb_false_iff {A} (p : A -> bool) (l : list A) :
  existsb p l = false <-> forall x, x ∈ l -> p x = false.
Proof.
  rewrite <- not_true_iff_false, existsb_exists. split.
  - intros H x Hx. apply not_true_iff_false. intros Hp.
    apply H. exists x. split; [by apply list_elem_of_In|done].
  - intros H (x & Hx & Hp). apply list_elem_of_In in Hx.
    rewrite (H x Hx) in Hp. discriminate.
Qed.

Section Identity.

Variable generate_password_hash : string -> string -> string.
Variable check_password_hash : string -> string -> bool.

(** What a registration request does to the database. *)
Lemma register_cases ctx :
  (res_db (register generate_password_hash ctx) = db ctx /\
   res_flashes (register generate_password_hash ctx)
     <> [(Text "Registration successful! Please log in.", "success")]) \/
  (exists e n u,
     method (request ctx) = POST /\
     form (request ctx) !! "email" = Some e /\
     form (request ctx) !! "username" = Some n /\
     (forall v, v ∈ users (db ctx) -> u_email v <> e /\ u_username v <> n) /\
     u_email u = e /\ u_username u = n /\ u_role u = CITIZEN /\
     res_db (register generate_password_hash ctx)
       = {| users := users (db ctx) ++ [u];
            complaints := complaints (db ctx);
            responses := responses (db ctx) |} /\
     res_flashes (register generate_password_hash ctx)
       = [(Text "Registration successful! Please log in.", "success")]).
Proof.
  unfold register.
  destruct (method (request ctx)); [left; by split|].
  unfold form_getitem, bind, ret, raise.
  destruct (form (request ctx) !! "email") as [e|]; [|left; by split].
  destruct (form (request ctx) !! "username") as [n|]; [|left; by split].
  destruct (List.find _ (users (db ctx))) as [v|] eqn:Hf; [left; by split|].
  pose proof (proj1 (find_none_email_username _ _ _) Hf) as Hfree.
  destruct (form (request ctx) !! "full_name") as [fn|]; [|left; by split].
  destruct (form (request ctx) !! "password") as [pw|]; [|left; by split].
  unfold insert_user; simpl.
  assert (existsb (fun v => String.eqb (u_email v) e) (users (db ctx)) = false)
    as ->.
  { apply existsb_false_iff. intros x Hx. apply String.eqb_neq. by apply Hfree. }
  assert (existsb (fun v => String.eqb (u_username v) n) (users (db ctx)) = false)
    as ->.
  { apply existsb_false_iff. intros x Hx. apply String.eqb_neq. by apply Hfree. }
  right. eexists e, n, _. simpl. split_and!; try reflexivity; done.
Qed.

Lemma register_duplicate ctx e n :
  method (request ctx) = POST ->
  form (request ctx) !! "email" = Some e ->
  form (request ctx) !! "username" = Some n ->
  (exists v, v ∈ users (db ctx) /\ (u_email v = e \/ u_username v = n)) ->
  register generate_password_hash ctx
  = respond ctx [(Text "Email or username already exists!", "error")]
            (redirect url_register).
Proof.
  intros Hm He Hn (v & Hv & Hor). unfold register.
  rewrite Hm. unfold form_getitem, bind, ret. rewrite He, Hn.
  destruct (List.find _ (users (db ctx))) as [w|] eqn:Hf; [reflexivity|].
  pose proof (proj1 (find_none_email_username _ _ _) Hf v Hv) as [? ?].
  destruct Hor; contradiction.
Qed.

Lemma register_keeps_unique ctx :
  unique_users (db ctx) -> unique_users (res_db (register generate_password_hash ctx)).
Proof.
  intros [He Hn].
  destruct (register_cases ctx)
    as [[-> _]|(e & n & u & _ & _ & _ & Hfree & Hue & Hun & _ & -> & _)];
    [by split|].
  unfold unique_users; simpl. rewrite !map_app; simpl.
  split; (apply NoDup_app; split_and!; [done| |apply NoDup_singleton]).
  - intros x Hx [<-|[]]%list_elem_of_In.
    apply list_elem_of_fmap in Hx as (v & Hv1 & Hv2).
    destruct (Hfree v Hv2). congruence.
  - intros x Hx [<-|[]]%list_elem_of_In.
    apply list_elem_of_fmap in Hx as (v & Hv1 & Hv2).
    destruct (Hfree v Hv2). congruence.
Qed.

(** C6. When a registration has succeeded and a later request, on a
    database that still holds the users stored by then, submits the same
    email or the same username (compared as stored), the later request is
    answered with the duplicate error and the database stays as it was.
    Every registration request, whatever it submits, keeps emails and
    usernames unique. *)
Theorem register_rejects_second_attempt ctx1 ctx2 e1 n1 e2 n2 :
  form (request ctx1) !! "email" = Some e1 ->
  form (request ctx1) !! "username" = Some n1 ->
  res_flashes (register generate_password_hash ctx1)
    = [(Text "Registration successful! Please log in.", "success")] ->
  (forall u, u ∈ users (res_db (register generate_password_hash ctx1)) -> u ∈ users (db ctx2)) ->
  method (request ctx2) = POST ->
  form (request ctx2) !! "email" = Some e2 ->
  form (request ctx2) !! "username" = Some n2 ->
  e1 = e2 \/ n1 = n2 ->
  register generate_password_hash ctx2
    = respond ctx2 [(Text "Email or username already exists!", "error")]
              (redirect url_register) /\
  res_db (register generate_password_hash ctx2) = db ctx2 /\
  (forall ctx, unique_users (db ctx) -> unique_users (res_db (register generate_password_hash ctx))).
Proof.
  intros He1 Hn1 Hok Hsub Hm He2 Hn2 Hshare.
  assert (register generate_password_hash ctx2
    = respond ctx2 [(Text "Email or username already exists!", "error")]
              (redirect url_register)) as Hdup.
  { destruct (register_cases ctx1)
      as [[_ Hno]|(e & n & u & _ & He & Hn & _ & Hue & Hun & _ & Hdb & _)];
      [contradiction|].
    apply (register_duplicate ctx2 e2 n2 Hm He2 Hn2).
    exists u. split.
    - apply Hsub. rewrite Hdb. simpl. apply elem_of_app. right.
      apply list_elem_of_singleton. reflexivity.
    - rewrite Hue, Hun. destruct Hshare as [Hsh|Hsh]; [left|right]; congruence. }
  split_and!; [exact Hdup|by rewrite Hdup|exact register_keeps_unique].
Qed.

(** ** Authentication *)

(** C7. On a users table without a repeated username (the column is
    unique), a login request with a username and a password is answered
    with the invalid-credentials message, the session and the database
    left as they were, exactly when no stored user has the username, or
    the user who has it stores a hash that does not verify the password,
    or that user's active flag is unset (NULL or 0).  In every other case
    the login succeeds: the session identifies that user by key, username
    and role, the user is welcomed by name, and the answer redirects to
    the dashboard of the user's role. *)
Theorem login_fails_iff ctx name password :
  method (request ctx) = POST ->
  form (request ctx) !! "username" = Some name ->
  form (request ctx) !! "password" = Some password ->
  NoDup (map u_username (users (db ctx))) ->
  (login check_password_hash ctx = invalid_credentials ctx <->
     (forall u, u ∈ users (db ctx) -> u_username u <> name) \/
     exists u, u ∈ users (db ctx) /\ u_username u = name /\
       (check_password_hash (u_password_hash u) password = false \/
        u_is_active u = None \/ u_is_active u = Some 0)) /\
  (invalid_credentials ctx
   = {| res_db := db ctx; res_session := session ctx;
        res_flashes :=
          [(Text "Invalid credentials or inactive account!", "error")];
        res_response := render_template login_html |}) /\
  (forall u n, u ∈ users (db ctx) -> u_username u = name ->
     check_password_hash (u_password_hash u) password = true ->
     u_is_active u = Some n -> n <> 0 ->
     login check_password_hash ctx
     = {| res_db := db ctx;
          res_session :=
            Some {| s_user_id := u_id u; s_username := name;
                    s_role := UserRole_value (u_role u);
                    s_permanent := true |};
          res_flashes :=
            [(Text ("Welcome back, " ++ u_full_name u ++ "!"), "success")];
          res_response :=
            redirect (if admin_or_staff (u_role u)
                      then url_admin_dashboard else url_user_dashboard) |}).
Proof.
  intros Hm Hn Hp Hnd. unfold login, invalid_credentials.
  rewrite Hm. unfold form_getitem, bind, ret. rewrite Hn, Hp.
  destruct (first_by_username (db ctx) name) as [u|] eqn:Hf.
  - pose proof (first_by_username_elem _ _ _ Hf) as [Hu Hname].
    assert (forall v, v ∈ users (db ctx) -> u_username v = name -> v = u)
      as Hone.
    { intros v Hv Hvn. eapply NoDup_fmap_elem; eauto. congruence. }
    destruct (check_password_hash (u_password_hash u) password) eqn:Hc;
      [destruct (u_is_active u) as [a|] eqn:Hact;
         [destruct (decide (a = 0)) as [->|Ha]|]|]; simpl.
    + split_and!; [|reflexivity|].
      * split; [|done]. intros _. right. exists u. auto.
      * intros v n Hv Hvn _ Hvact Hne. rewrite (Hone v Hv Hvn) in Hvact.
        congruence.
    + rewrite (proj2 (Z.eqb_neq a 0) Ha). simpl.
      split_and!; [|reflexivity|].
      * split; [intros H; inversion H|].
        intros [Hno|(v & Hv & Hvn & Hor)]; [destruct (Hno u Hu Hname)|].
        rewrite (Hone v Hv Hvn) in Hor.
        destruct Hor as [?|[?|?]]; congruence.
      * intros v n Hv Hvn _ _ _. rewrite (Hone v Hv Hvn), Hname.
        by destruct (admin_or_staff (u_role u)).
    + split_and!; [|reflexivity|].
      * split; [|done]. intros _. right. exists u. auto.
      * intros v n Hv Hvn _ Hvact Hne. rewrite (Hone v Hv Hvn) in Hvact.
        congruence.
    + split_and!; [|reflexivity|].
      * split; [|done]. intros _. right. exists u. auto.
      * intros v n Hv Hvn Hvc _ _. rewrite (Hone v Hv Hvn) in Hvc.
        congruence.
  - pose proof (first_by_username_none _ _ Hf) as Hno.
    split_and!; [split; [auto|done]|reflexivity|].
    intros v n Hv Hvn. destruct (Hno v Hv Hvn).
Qed.

End Identity.

(** ** Who writes the users table *)

Lemma keeps_users_admin_required f :
  keeps_users f -> keeps_users (admin_required f).
Proof.
  intros Hf ctx.
  destruct (admin_required_cases f ctx) as [->|(fl & to & -> & _)];
    [apply Hf|reflexivity].
Qed.

Lemma keeps_users_login_required f :
  keeps_users f -> keeps_users (login_required f).
Proof.
  intros Hf ctx.
  destruct (login_required_cases f ctx) as [->|[_ ->]];
    [apply Hf|reflexivity].
Qed.

Lemma keeps_users_new_complaint : keeps_users new_complaint.
Proof.
  apply keeps_users_login_required. intros ctx.
  destruct (method (request ctx)); [reflexivity|]. cbv zeta.
  case_attempt HE; [reflexivity|].
  exc_inv HE. apply insert_complaint_inr in HE as ->. reflexivity.
Qed.

Lemma keeps_users_respond_to_complaint k : keeps_users (respond_to_complaint k).
Proof.
  apply keeps_users_login_required. intros ctx. cbv zeta.
  destruct (query_get_complaint (db ctx) k) as [?|[?|]]; [reflexivity| |reflexivity].
  case_attempt HE; [reflexivity|].
  exc_inv HE. injection HE as <-. reflexivity.
Qed.

Lemma keeps_users_escalate_complaint k : keeps_users (escalate_complaint k).
Proof.
  apply keeps_users_admin_required. intros ctx. cbv zeta.
  destruct (query_get_complaint (db ctx) k) as [?|[?|]]; [reflexivity| |reflexivity].
  case_attempt HE; [reflexivity|].
  apply commit_complaint_inr in HE as [-> _]. reflexivity.
Qed.

Section Routes.

Variable generate_password_hash : string -> string -> string.
Variable check_password_hash : string -> string -> bool.
Variable int_of_str : string -> option Z.

Lemma keeps_users_update_complaint k :
  keeps_users (update_complaint int_of_str k).
Proof.
  apply keeps_users_admin_required. intros ctx. cbv zeta.
  destruct (query_get_complaint (db ctx) k) as [?|[?|]]; [reflexivity| |reflexivity].
  case_attempt HE; [reflexivity|].
  exc_inv HE. apply commit_complaint_inr in HE as [-> _]. reflexivity.
Qed.

Lemma keeps_users_login : keeps_users (login check_password_hash).
Proof.
  intros ctx. unfold login.
  destruct (method (request ctx)); [reflexivity|].
  destruct (do username <- _; _) as [?|[username password]]; [reflexivity|].
  destruct (first_by_username (db ctx) username) as [u|]; [|reflexivity].
  destruct (_ && _); reflexivity.
Qed.

Lemma keeps_users_view r :
  r <> route_register -> keeps_users
    (view_function generate_password_hash check_password_hash int_of_str r).
Proof.
  intros Hr.
  destruct r; simpl; try contradiction;
    auto using keeps_users_login, keeps_users_new_complaint,
      keeps_users_respond_to_complaint, keeps_users_update_complaint,
      keeps_users_escalate_complaint;
    try apply keeps_users_admin_required;
    try apply keeps_users_login_required;
    intros ctx; try reflexivity.
  - destruct (do k <- session_user_id ctx; ret (get_user (db ctx) k))
      as [?|[?|]]; reflexivity.
  - destruct (session_user_id ctx); reflexivity.
  - destruct (query_get_complaint (db ctx) complaint_id) as [?|[?|]];
      [reflexivity| |reflexivity].
    destruct (do k <- session_user_id ctx; ret (get_user (db ctx) k))
      as [?|[?|]]; try reflexivity.
    destruct (_ && _); reflexivity.
Qed.

(** A request adds at most one user row, a citizen, and changes none. *)
Lemma dispatch_users r ctx :
  users (res_db (dispatch generate_password_hash check_password_hash
                            int_of_str r ctx)) = users (db ctx) \/
  exists u, users (res_db (dispatch generate_password_hash check_password_hash
                            int_of_str r ctx)) = users (db ctx) ++ [u] /\
            u_role u = CITIZEN.
Proof.
  unfold dispatch. case_bool_decide; [|by left].
  destruct r; try (left; by apply keeps_users_view).
  simpl.
  destruct (register_cases generate_password_hash ctx)
    as [[-> _]|(e & n & u & _ & _ & _ & _ & _ & _ & Hrole & -> & _)];
    [by left|right; eauto].
Qed.

Lemma register_ignores_role ctx v :
  register generate_password_hash
           (with_form ctx (<["role" := v]> (form (request ctx))))
  = register generate_password_hash ctx.
Proof.
  unfold register, with_form, form_getitem, form_get, respond; simpl.
  rewrite !lookup_insert_ne by done. reflexivity.
Qed.

(** C9. Registration does not read a [role] field of the form: the same
    request with any role value added has the same outcome, and a user
    row it stores has role CITIZEN.  No route stores a row with another
    role or changes a stored row: after any request the users table is as
    before or has one more row, a citizen.  The bootstrap routine, run on
    a database without a user named [admin] (and without its email),
    stores a row with role ADMIN. *)
Theorem register_creates_citizens_only :
  (forall ctx v,
     register generate_password_hash
              (with_form ctx (<["role" := v]> (form (request ctx))))
     = register generate_password_hash ctx) /\
  (forall ctx u,
     u ∈ users (res_db (register generate_password_hash ctx)) ->
     u ∈ users (db ctx) \/ u_role u = CITIZEN) /\
  (forall r ctx,
     users (res_db (dispatch generate_password_hash check_password_hash
                            int_of_str r ctx)) = users (db ctx) \/
     exists u, users (res_db (dispatch generate_password_hash check_password_hash
                            int_of_str r ctx)) = users (db ctx) ++ [u] /\
               u_role u = CITIZEN) /\
  (forall e d,
     first_by_username d "admin" = None ->
     (forall v, v ∈ users d -> u_email v <> "admin@localgov.com") ->
     exists u,
       create_admin_user generate_password_hash e d
       = inr ({| users := users d ++ [u]; complaints := complaints d;
                 responses := responses d |}, Some u) /\
       u_role u = ADMIN /\ u_username u = "admin").
Proof.
  split_and!.
  - exact register_ignores_role.
  - intros ctx u Hu.
    destruct (register_cases generate_password_hash ctx)
      as [[Hdb _]|(e & n & w & _ & _ & _ & _ & _ & _ & Hrole & Hdb & _)];
      rewrite Hdb in Hu; [by left|].
    simpl in Hu. apply elem_of_app in Hu as [Hu|Hu]; [by left|].
    apply list_elem_of_singleton in Hu as ->. by right.
  - exact dispatch_users.
  - intros e d Hnone Hmail. unfold create_admin_user. rewrite Hnone.
    unfold insert_user; simpl.
    assert (existsb (fun v => String.eqb (u_email v) "admin@localgov.com")
                    (users d) = false) as ->.
    { apply existsb_false_iff. intros x Hx. apply String.eqb_neq. by apply Hmail. }
    assert (existsb (fun v => String.eqb (u_username v) "admin") (users d) = false)
      as ->.
    { apply existsb_false_iff. intros x Hx.
      apply (List.find_none _ _ Hnone). by apply list_elem_of_In. }
    simpl. rewrite last_snoc. eexists. split_and!; reflexivity.
Qed.

End Routes.

(** ** Ticket numbers *)

(** A property of every number of a range, checked by running over it. *)
Lemma forall_range (p : Z -> bool) (lo hi : Z) :
  forallb (fun i => p (lo + Z.of_nat i)) (seq 0 (Z.to_nat (hi - lo))) = true ->
  forall n, lo <= n < hi -> p n = true.
Proof.
  intros H n Hn. rewrite forallb_forall in H.
  replace n with (lo + Z.of_nat (Z.to_nat (n - lo))) by lia.
  apply H. apply in_seq. lia.
Qed.

Lemma fmt_Y_four_digits y :
  1000 <= y <= 9999 -> four_digits (fmt_Y y) y = true.
Proof.
  intros H.
  apply (forall_range (fun y => four_digits (fmt_Y y) y) 1000 10000);
    [vm_compute; reflexivity|lia].
Qed.

Lemma fmt_02d_two_digits n :
  0 <= n <= 99 -> two_digits (fmt_02d n) n = true.
Proof.
  intros H.
  apply (forall_range (fun n => two_digits (fmt_02d n) n) 0 100);
    [vm_compute; reflexivity|lia].
Qed.

Lemma hexlify_byte_upper b : two_upper_hex (upper (hexlify_byte b)) = true.
Proof. destruct b; reflexivity. Qed.

Lemma upper_app s t : upper (s ++ t) = (upper s ++ upper t)%string.
Proof. induction s as [|c s IH]; simpl; [reflexivity|by rewrite IH]. Qed.

Lemma make_ticket_number_shape e :
  clock_reading (utcnow e 0%nat) ->
  ticket_shape (make_ticket_number e) = true /\
  digits_value (substring 5 8 (make_ticket_number e))
  = year (utcnow e 0%nat) * 10000 + month (utcnow e 0%nat) * 100
    + day (utcnow e 0%nat).
Proof.
  intros (Hy & Hm & Hd). unfold make_ticket_number, strftime_Ymd, token_hex.
  destruct (token_bytes e) as [[b1 b2] b3].
  pose proof (fmt_Y_four_digits _ Hy) as HY.
  pose proof (fmt_02d_two_digits (month (utcnow e 0%nat)) ltac:(lia)) as HM.
  pose proof (fmt_02d_two_digits (day (utcnow e 0%nat)) ltac:(lia)) as HD.
  pose proof (hexlify_byte_upper b1) as H1.
  pose proof (hexlify_byte_upper b2) as H2.
  pose proof (hexlify_byte_upper b3) as H3.
  rewrite !upper_app.
  destruct (fmt_Y _) as [|y1 [|y2 [|y3 [|y4 [|]]]]]; try discriminate HY.
  destruct (fmt_02d (month _)) as [|m1 [|m2 [|]]]; try discriminate HM.
  destruct (fmt_02d (day _)) as [|d1 [|d2 [|]]]; try discriminate HD.
  destruct (upper (hexlify_byte b1)) as [|h1 [|h2 [|]]]; try discriminate H1.
  destruct (upper (hexlify_byte b2)) as [|h3 [|h4 [|]]]; try discriminate H2.
  destruct (upper (hexlify_byte b3)) as [|h5 [|h6 [|]]]; try discriminate H3.
  unfold four_digits, two_digits, two_upper_hex, digits_value in *.
  cbn [list_ascii_of_string fold_left] in HY, HM, HD.
  repeat match goal with
         | H : _ && _ = true |- _ => apply andb_true_iff in H as [? ?]
         | H : (_ =? _) = true |- _ => apply Z.eqb_eq in H
         end.
  split.
  - cbv -[is_digit is_upper_hex].
    repeat match goal with H : is_digit _ = true |- _ => rewrite H; clear H end.
    repeat match goal with H : is_upper_hex _ = true |- _ => rewrite H; clear H end.
    reflexivity.
  - cbv -[Z.add Z.mul Z.sub Z.of_N N_of_ascii year month day utcnow]. lia.
Qed.

(** C8. Every complaint row a request to the create route stores carries
    the ticket number [COMP-], eight decimal digits that write the date of
    the clock reading as year, month and day, a dash and six upper-case
    hexadecimal digits; its status is PENDING, its escalation count 0, and
    its priority is MEDIUM when the form names none (otherwise the member
    the form names). *)
Theorem new_complaint_ticket_and_defaults ctx c :
  clock_reading (utcnow (env ctx) 0%nat) ->
  complaints (res_db (new_complaint ctx)) = complaints (db ctx) ++ [c] ->
  ticket_shape (c_ticket_number c) = true /\
  digits_value (substring 5 8 (c_ticket_number c))
  = year (utcnow (env ctx) 0%nat) * 10000
    + month (utcnow (env ctx) 0%nat) * 100 + day (utcnow (env ctx) 0%nat) /\
  c_status c = PENDING /\
  c_escalation_count c = 0 /\
  (form (request ctx) !! "priority" = None -> c_priority c = MEDIUM) /\
  (forall name, form (request ctx) !! "priority" = Some name ->
     ComplaintPriority_getitem name = inr (c_priority c)).
Proof.
  intros Hclock. unfold new_complaint.
  match goal with
  | |- context [login_required ?f ctx] =>
    destruct (login_required_cases f ctx) as [->|[_ ->]]
  end; [|simpl; intros H; destruct (app_singleton_neq _ _ H)].
  destruct (method (request ctx));
    [simpl; intros H; destruct (app_singleton_neq _ _ H)|].
  cbv zeta. case_attempt HE;
    [simpl; intros H; destruct (app_singleton_neq _ _ H)|].
  exc_inv HE. apply insert_complaint_inr in HE as ->. simpl.
  intros H. apply app_inv_head in H. injection H as <-. simpl.
  destruct (make_ticket_number_shape _ Hclock) as [Hshape Hdate].
  split_and!; try done.
  - intros Hnone. unfold form_get in Ha3. rewrite Hnone in Ha3. simpl in Ha3.
    by injection Ha3 as <-.
  - intros name Hname. unfold form_get in Ha3. rewrite Hname in Ha3. exact Ha3.
Qed.

(** ** Reports *)

(** C3, as amended. For a staff or admin actor the report page is rendered
    with the total, the count of each status, and the category rows: every
    category string some stored complaint has, the empty string like any
    other, once each, and no other string. *)
Theorem reports_category_rows ctx u :
  actor ctx = Some u ->
  admin_or_staff (u_role u) = true ->
  exists status_counts rows,
    res_response (reports ctx)
    = render_template
        (reports_html (length (complaints (db ctx))) status_counts rows) /\
    NoDup rows /\
    (forall cat, cat ∈ rows <->
       exists c, c ∈ complaints (db ctx) /\ c_category c = cat).
Proof.
  intros Hu Hr. unfold reports. rewrite (admin_required_pass _ _ _ Hu Hr).
  eexists _, _. split; [reflexivity|]. unfold group_by_category. split.
  - apply NoDup_remove_dups.
  - intros cat. rewrite elem_of_remove_dups, list_elem_of_fmap.
    split; [intros (c & -> & Hc)|intros (c & Hc & <-)]; eauto.
Qed.

(** C3 as stated fails: on the sample database, where one complaint has the
    empty category and two have "Water Supply", the rows of the report are
    the two category strings alone, the empty one among them, and not the
    keys of the mapping the specification describes. *)
Lemma reports_lists_empty_category :
  let ctx := demo_ctx GET (session_of demo_admin) ∅ demo_db_categories in
  res_response (reports ctx)
  = render_template
      (reports_html 3
         [("pending", 3%nat); ("acknowledged", 0%nat); ("in_progress", 0%nat);
          ("escalated", 0%nat); ("resolved", 0%nat); ("closed", 0%nat)]
         [""; "Water Supply"]) /\
  countByCategory (complaints (db ctx)) = [("Water Supply", 2%nat)] /\
  ~ (forall cat, cat ∈ group_by_category (complaints (db ctx)) ->
       cat <> EmptyString) /\
  group_by_category (complaints (db ctx))
  <> map fst (countByCategory (complaints (db ctx))).
Proof.
  vm_compute. split_and!; try reflexivity.
  - intros H. apply (H EmptyString); [|reflexivity]. apply list_elem_of_here.
  - discriminate.
Qed.
(** * The theorems at the sample data *)

(** The admin escalates Alice's complaint, which is resolved and critical and
    was escalated four times: at noon, and at eleven, the very time the
    complaint was last updated.  A complaint whose count is the largest the
    column holds cannot be escalated. *)
Lemma escalate_complaint_sets_fields_witness :
  let ctx := demo_ctx POST (session_of demo_admin) ∅ demo_db in
  let ctx11 := {| env := demo_env 11; request := mk_Request POST ∅;
                  session := session_of demo_admin; db := demo_db |} in
  let full := mk_Complaint 1 "COMP-20240307-0000AA" 2 "Pothole" "Deep pothole"
                "Roads & Infrastructure" "Main St" PENDING LOW None
                (demo_time 10) (demo_time 11) None (2 ^ 63 - 1) in
  let ctx_full := demo_ctx POST (session_of demo_admin) ∅
                    {| users := [demo_admin]; complaints := [full];
                       responses := [] |} in
  res_flashes (escalate_complaint 1 ctx)
    = [(Text "Complaint escalated successfully!", "success")] /\
  (exists c',
    get_complaint (res_db (escalate_complaint 1 ctx)) 1 = Some c' /\
    c_status c' = ESCALATED /\ c_priority c' = HIGH /\
    c_escalation_count c' = 5 /\
    c_updated_at c' = utcnow (demo_env 12) 0%nat) /\
  (exists c',
    get_complaint (res_db (escalate_complaint 1 ctx11)) 1 = Some c' /\
    c_updated_at c' = utcnow (demo_env 11) 1%nat) /\
  res_db (escalate_complaint 1 ctx_full) = db ctx_full /\
  res_response (escalate_complaint 1 ctx_full) = abort 500.
Proof.
  intros ctx ctx11 full ctx_full.
  destruct (escalate_complaint_sets_fields ctx 1 demo_admin demo_complaint)
    as ([_ Hok] & Hrow & _); [reflexivity|reflexivity|reflexivity|].
  destruct (Hrow eq_refl) as (c' & H1 & H2 & H3 & H4 & H5 & _).
  destruct (escalate_complaint_sets_fields ctx11 1 demo_admin demo_complaint)
    as (_ & Hrow11 & _); [reflexivity|reflexivity|reflexivity|].
  destruct (Hrow11 eq_refl) as (c11 & G1 & _ & _ & _ & G5 & _).
  destruct (escalate_complaint_sets_fields ctx_full 1 demo_admin full)
    as (_ & _ & Hfull); [reflexivity|reflexivity|reflexivity|].
  destruct (Hfull eq_refl) as (F1 & _ & F3).
  split_and!; [exact (Hok eq_refl)| | |exact F1|exact F3].
  - exists c'. split_and!; assumption.
  - exists c11. split; assumption.
Defined.

(** The admin escalates key 99, under which nothing is stored, and then the
    key 2^63. *)
Lemma escalate_missing_complaint_silent_witness :
  let ctx := demo_ctx POST (session_of demo_admin) ∅ demo_db in
  (res_db (escalate_complaint 99 ctx) = demo_db /\
   res_flashes (escalate_complaint 99 ctx) = [] /\
   res_response (escalate_complaint 99 ctx) = redirect (url_view_complaint 99)) /\
  (res_db (escalate_complaint (2 ^ 63) ctx) = demo_db /\
   res_flashes (escalate_complaint (2 ^ 63) ctx) = [] /\
   res_response (escalate_complaint (2 ^ 63) ctx) = abort 500).
Proof.
  intros ctx. split.
  - destruct (escalate_missing_complaint_silent ctx 99)
      as (Hdb & _ & _ & Hfit & _); [reflexivity|].
    destruct (Hfit eq_refl) as [_ Hadmin].
    destruct (Hadmin demo_admin) as [Hfl Hre]; [reflexivity|reflexivity|].
    split_and!; assumption.
  - destruct (escalate_missing_complaint_silent ctx (2 ^ 63))
      as (Hdb & _ & _ & _ & Hbig); [reflexivity|].
    destruct (Hbig eq_refl demo_admin) as [Hfl Hre]; [reflexivity|reflexivity|].
    split_and!; assumption.
Defined.

(** Bob, a citizen, asks for an internal response. *)
Lemma respond_to_complaint_internal_flag_witness :
  let ctx := demo_ctx POST (session_of demo_bob)
                      {[ "message" := "mine too"; "internal" := "on" ]}
                      demo_db in
  let row := mk_Response 1 1 3 "mine too" 0 (utcnow (demo_env 12) 0%nat) in
  responses (res_db (respond_to_complaint 1 ctx)) = [row] /\
  r_responder_id row = 3 /\ r_is_internal row = 0.
Proof.
  intros ctx row.
  assert (responses (res_db (respond_to_complaint 1 ctx))
          = responses (db ctx) ++ [row]) as Hrow by reflexivity.
  destruct (respond_to_complaint_internal_flag ctx 1 demo_bob row)
    as (Hid & Hcit & _); [reflexivity|exact Hrow|].
  split_and!; [exact Hrow|exact Hid|apply Hcit; reflexivity].
Defined.

(** The admin resolves the first water complaint, then closes it an hour
    later: [resolved_at] keeps the time of the first update.  Closing
    Alice's resolved complaint at eleven, the time it was last updated,
    stamps the reading after that one. *)
Lemma update_complaint_timestamps_witness :
  let ctx1 := demo_ctx POST (session_of demo_admin)
                       {[ "status" := "RESOLVED" ]} demo_db_categories in
  let d1 := res_db (update_complaint demo_int 1 ctx1) in
  let ctx2 := {| env := demo_env 13;
                 request := mk_Request POST {[ "status" := "CLOSED" ]};
                 session := session_of demo_admin; db := d1 |} in
  let d2 := res_db (update_complaint demo_int 1 ctx2) in
  let ctx3 := {| env := demo_env 11;
                 request := mk_Request POST {[ "status" := "CLOSED" ]};
                 session := session_of demo_admin; db := demo_db |} in
  let d3 := res_db (update_complaint demo_int 1 ctx3) in
  (exists c1, get_complaint d1 1 = Some c1 /\
     c_status c1 = RESOLVED /\
     c_resolved_at c1 = Some (utcnow (demo_env 12) 0%nat) /\
     c_updated_at c1 = utcnow (demo_env 12) 1%nat) /\
  (exists c2, get_complaint d2 1 = Some c2 /\
     c_status c2 = CLOSED /\
     c_resolved_at c2 = Some (utcnow (demo_env 12) 0%nat) /\
     c_updated_at c2 = utcnow (demo_env 13) 0%nat) /\
  (exists c3, get_complaint d3 1 = Some c3 /\
     c_status c3 = CLOSED /\
     c_resolved_at c3 = Some (demo_time 11) /\
     c_updated_at c3 = utcnow (demo_env 11) 1%nat).
Proof.
  intros ctx1 d1 ctx2 d2 ctx3 d3. split_and!.
  - destruct (update_complaint_timestamps demo_int ctx1 1
                (demo_water 1 "COMP-20240307-000001" "Water Supply"))
      as (c1 & Hget & Hres & _ & _ & Hstamp & _); [reflexivity|reflexivity|].
    destruct (Hres eq_refl) as [Hst Hra].
    exists c1. split_and!; [exact Hget|exact Hst|exact Hra|].
    apply Hstamp. discriminate.
  - destruct (update_complaint_timestamps demo_int ctx2 1
                (mk_Complaint 1 "COMP-20240307-000001" 2 "No water" "Dry tap"
                   "Water Supply" "" RESOLVED MEDIUM None (demo_time 10)
                   (utcnow (demo_env 12) 1%nat)
                   (Some (utcnow (demo_env 12) 0%nat)) 0))
      as (c2 & Hget & _ & Hother & _ & Hstamp & _); [reflexivity|reflexivity|].
    destruct (Hother "CLOSED") as (Hst & _ & Hra);
      [reflexivity|discriminate|].
    exists c2. split_and!; [exact Hget| |exact Hra|].
    + injection Hst as <-. reflexivity.
    + apply Hstamp. discriminate.
  - destruct (update_complaint_timestamps demo_int ctx3 1 demo_complaint)
      as (c3 & Hget & _ & Hother & _ & _ & _ & Hlater);
      [reflexivity|reflexivity|].
    destruct (Hother "CLOSED") as (Hst & _ & Hra);
      [reflexivity|discriminate|].
    injection Hst as Hst.
    exists c3. split_and!; [exact Hget|by rewrite <- Hst|exact Hra|].
    apply Hlater; [reflexivity|].
    rewrite <- Hst. discriminate.
Defined.

(** Carol registers; a second request reuses her username with another
    email. *)
Lemma register_rejects_second_attempt_witness :
  let f1 : gmap string string :=
    {[ "email" := "carol@example.org"; "username" := "carol";
       "full_name" := "Carol C"; "password" := "pw" ]} in
  let f2 : gmap string string :=
    {[ "email" := "other@example.org"; "username" := "carol";
       "full_name" := "Someone Else"; "password" := "pw2" ]} in
  let ctx1 := demo_ctx POST None f1 demo_db in
  let ctx2 := demo_ctx POST None f2 (res_db (register demo_hash ctx1)) in
  length (users (db ctx2)) = 4%nat /\
  res_flashes (register demo_hash ctx2)
  = [(Text "Email or username already exists!", "error")] /\
  res_db (register demo_hash ctx2) = db ctx2.
Proof.
  intros f1 f2 ctx1 ctx2.
  destruct (register_rejects_second_attempt demo_hash ctx1 ctx2
              "carol@example.org" "carol" "other@example.org" "carol")
    as (Hdup & Hdb & _);
    [reflexivity|reflexivity|reflexivity|intros u Hu; exact Hu
    |reflexivity|reflexivity|reflexivity|right; reflexivity|].
  split_and!; [reflexivity|by rewrite Hdup|exact Hdb].
Defined.

(** Alice mistypes her password, then types it right. *)
Lemma login_fails_iff_witness :
  let ctx := demo_ctx POST None
                      {[ "username" := "alice"; "password" := "wander" ]}
                      demo_db in
  let ctx' := demo_ctx POST None
                       {[ "username" := "alice"; "password" := "wonder" ]}
                       demo_db in
  (login demo_check ctx = invalid_credentials ctx /\
   res_session (login demo_check ctx) = None) /\
  (login demo_check ctx' <> invalid_credentials ctx' /\
   res_session (login demo_check ctx')
   = Some {| s_user_id := 2; s_username := "alice"; s_role := "citizen";
             s_permanent := true |} /\
   res_response (login demo_check ctx') = redirect url_user_dashboard).
Proof.
  intros ctx ctx'.
  assert (NoDup (map u_username (users demo_db))) as Hnd
    by (apply (bool_decide_unpack _); vm_compute; exact I).
  split.
  - destruct (login_fails_iff demo_check ctx "alice" "wander")
      as ([_ Hfail] & Hinv & _); [reflexivity|reflexivity|reflexivity|exact Hnd|].
    assert (login demo_check ctx = invalid_credentials ctx) as Heq.
    { apply Hfail. right. exists demo_alice.
      split_and!; [apply list_elem_of_further, list_elem_of_here|reflexivity|].
      left. reflexivity. }
    split; [exact Heq|by rewrite Heq, Hinv].
  - destruct (login_fails_iff demo_check ctx' "alice" "wonder")
      as ([Hfail _] & _ & Hok); [reflexivity|reflexivity|reflexivity|exact Hnd|].
    split.
    + intros Heq. destruct (Hfail Heq) as [Hno|(u & Hu & Hname & Hor)].
      * apply (Hno demo_alice);
          [apply list_elem_of_further, list_elem_of_here|reflexivity].
      * assert (u = demo_alice) as ->.
        { eapply (NoDup_fmap_elem u_username); [exact Hnd|exact Hu| |exact Hname].
          apply list_elem_of_further, list_elem_of_here. }
        destruct Hor as [?|[?|?]]; discriminate.
    + rewrite (Hok demo_alice 1);
        [split; reflexivity|apply list_elem_of_further, list_elem_of_here
        |reflexivity|reflexivity|reflexivity|discriminate].
Defined.

(** Alice files a complaint without naming a priority. *)
Lemma new_complaint_ticket_and_defaults_witness :
  let ctx := demo_ctx POST (session_of demo_alice)
                      {[ "title" := "Dark street"; "description" := "Lamp out";
                         "category" := "Electricity" ]} demo_db in
  exists c,
    complaints (res_db (new_complaint ctx)) = [demo_complaint; c] /\
    c_ticket_number c = "COMP-20240307-A01FC4" /\
    ticket_shape (c_ticket_number c) = true /\
    c_status c = PENDING /\ c_priority c = MEDIUM.
Proof.
  intros ctx.
  pose (c := mk_Complaint 2 "COMP-20240307-A01FC4" 2 "Dark street" "Lamp out"
               "Electricity" "" PENDING MEDIUM None
               (utcnow (demo_env 12) 1%nat) (utcnow (demo_env 12) 2%nat)
               None 0).
  destruct (new_complaint_ticket_and_defaults ctx c)
    as (Hshape & _ & Hst & _ & Hpr & _);
    [unfold clock_reading; simpl; lia|reflexivity|].
  exists c. split_and!; [reflexivity|reflexivity|exact Hshape|exact Hst|].
  apply Hpr. reflexivity.
Defined.

(** The admin opens the reports page of the sample database. *)
Lemma reports_category_rows_witness :
  let ctx := demo_ctx GET (session_of demo_admin) ∅ demo_db_categories in
  exists status_counts rows,
    res_response (reports ctx)
    = render_template (reports_html 3 status_counts rows) /\
    NoDup rows /\ "" ∈ rows /\ "Water Supply" ∈ rows.
Proof.
  intros ctx.
  destruct (reports_category_rows ctx demo_admin)
    as (sc & rows & Hre & Hnd & Hrows); [reflexivity|reflexivity|].
  exists sc, rows. split_and!; [exact Hre|exact Hnd| |].
  - apply Hrows. exists (demo_water 2 "COMP-20240307-000002" "").
    split; [|reflexivity]. apply list_elem_of_further, list_elem_of_here.
  - apply Hrows. exists (demo_water 1 "COMP-20240307-000001" "Water Supply").
    split; [|reflexivity]. apply list_elem_of_here.
Defined.

(** * Further properties of the routes *)

(** ** Gates, methods and the session *)

Lemma admin_required_refuses f ctx s :
  session ctx = Some s ->
  (forall u, actor ctx = Some u -> admin_or_staff (u_role u) = false) ->
  admin_required f ctx
  = respond ctx [(Text "Access denied. Admin privileges required.", "error")]
            (redirect url_index).
Proof.
  unfold actor, admin_required. intros -> Hno.
  destruct (get_user (db ctx) (s_user_id s)) as [u|]; [|reflexivity].
  rewrite (Hno u eq_refl). reflexivity.
Qed.

Ltac list_cases H :=
  repeat match type of H with
         | _ ∈ _ ++ _ => apply elem_of_app in H as [H|H]
         | _ ∈ _ :: _ => apply elem_of_cons in H as [->|H]
         | _ ∈ [] => apply elem_of_nil in H; destruct H
         end.

Section Gates.

Variable generate_password_hash : string -> string -> string.
Variable check_password_hash : string -> string -> bool.
Variable int_of_str : string -> option Z.

(** X1. A request without a session to any route behind [login_required]
    or [admin_required] is redirected to the login page; nothing is
    stored, and only the [login_required] routes flash the request to log
    in. *)
Theorem protected_routes_require_login k r ctx :
  r ∈ login_routes k ++ admin_routes k ->
  session ctx = None ->
  method (request ctx) ∈ methods r ->
  let res := dispatch generate_password_hash check_password_hash int_of_str
                      r ctx in
  res_db res = db ctx /\
  res_session res = None /\
  res_response res = redirect url_login /\
  res_flashes res
  = if bool_decide (r ∈ login_routes k)
    then [(Text "Please log in to access this page.", "error")] else [].
Proof.
  intros Hr Hs Hm res. subst res. unfold dispatch.
  rewrite (bool_decide_eq_true_2 _ Hm).
  unfold login_routes, admin_routes in Hr. list_cases Hr; simpl;
    unfold user_dashboard, new_complaint, view_complaint,
      respond_to_complaint, admin_dashboard, update_complaint,
      escalate_complaint, manage_users, reports,
      login_required, admin_required;
    rewrite Hs; simpl; rewrite Hs; split_and!; try reflexivity;
    case_bool_decide as Hin; try reflexivity;
    first [ exfalso; apply Hin; unfold login_routes;
            repeat first [apply list_elem_of_here | apply list_elem_of_further]
          | unfold login_routes in Hin; list_cases Hin; discriminate ].
Qed.

(** X2. A request whose session does not read a staff or admin user (a
    citizen, or a key no user row has) is refused by every route behind
    [admin_required]: access denied is flashed, the answer redirects to
    the landing page, and database and session stay as they were. *)
Theorem admin_routes_refuse_citizens k r ctx s :
  r ∈ admin_routes k ->
  session ctx = Some s ->
  (forall u, actor ctx = Some u -> u_role u = CITIZEN) ->
  method (request ctx) ∈ methods r ->
  dispatch generate_password_hash check_password_hash int_of_str r ctx
  = respond ctx [(Text "Access denied. Admin privileges required.", "error")]
            (redirect url_index).
Proof.
  intros Hr Hs Hrole Hm. unfold dispatch.
  rewrite (bool_decide_eq_true_2 _ Hm).
  assert (forall u, actor ctx = Some u -> admin_or_staff (u_role u) = false)
    as Hno by (intros u Hu; by rewrite (Hrole u Hu)).
  unfold admin_routes in Hr. list_cases Hr; simpl;
    unfold admin_dashboard, update_complaint, escalate_complaint,
      manage_users, reports;
    apply (admin_required_refuses _ _ _ Hs Hno).
Qed.

(** X3. A GET request stores nothing, whatever the route, the session and
    the form. *)
Theorem get_requests_store_nothing r ctx :
  method (request ctx) = GET ->
  res_db (dispatch generate_password_hash check_password_hash int_of_str
                   r ctx) = db ctx.
Proof.
  intros Hm. unfold dispatch. rewrite Hm.
  destruct r; (* the methods of the route decide by computation *)
    match goal with
    | |- context [bool_decide ?P] =>
      let b := eval vm_compute in (bool_decide P) in
      change (bool_decide P) with b
    end; cbv iota; try reflexivity; unfold view_function.
  - unfold register. rewrite Hm. reflexivity.
  - unfold login. rewrite Hm. reflexivity.
  - unfold user_dashboard.
    match goal with |- context [login_required ?f ctx] =>
      destruct (login_required_cases f ctx) as [->|[_ ->]] end;
      [|reflexivity].
    destruct (do k <- session_user_id ctx; ret (get_user (db ctx) k))
      as [?|[?|]]; reflexivity.
  - unfold admin_dashboard.
    match goal with |- context [admin_required ?f ctx] =>
      destruct (admin_required_cases f ctx) as [->|(fl & to & -> & _)] end;
      [|reflexivity].
    destruct (session_user_id ctx); reflexivity.
  - unfold new_complaint.
    match goal with |- context [login_required ?f ctx] =>
      destruct (login_required_cases f ctx) as [->|[_ ->]] end;
      [|reflexivity].
    rewrite Hm. reflexivity.
  - unfold view_complaint.
    match goal with |- context [login_required ?f ctx] =>
      destruct (login_required_cases f ctx) as [->|[_ ->]] end;
      [|reflexivity].
    destruct (query_get_complaint (db ctx) complaint_id) as [?|[?|]];
      [reflexivity| |reflexivity].
    destruct (do k <- session_user_id ctx; ret (get_user (db ctx) k))
      as [?|[?|]]; try reflexivity.
    destruct (_ && _); reflexivity.
  - unfold manage_users.
    match goal with |- context [admin_required ?f ctx] =>
      destruct (admin_required_cases f ctx) as [->|(fl & to & -> & _)] end;
      reflexivity.
  - unfold reports.
    match goal with |- context [admin_required ?f ctx] =>
      destruct (admin_required_cases f ctx) as [->|(fl & to & -> & _)] end;
      reflexivity.
Qed.

End Gates.

Section SessionWriters.

Variable generate_password_hash : string -> string -> string.
Variable check_password_hash : string -> string -> bool.
Variable int_of_str : string -> option Z.

(** X4. Only the login and the logout route write the session: every
    other request leaves it as it came. *)
Theorem only_login_logout_write_session r ctx :
  r <> route_login -> r <> route_logout ->
  res_session (dispatch generate_password_hash check_password_hash
                        int_of_str r ctx) = session ctx.
Proof.
  intros Hin Hout. unfold dispatch. case_bool_decide; [|reflexivity].
  destruct r; try contradiction; simpl;
    unfold user_dashboard, new_complaint, view_complaint,
      respond_to_complaint, admin_dashboard, update_complaint,
      escalate_complaint, manage_users, reports;
    repeat match goal with
           | |- context [login_required ?f ctx] =>
             destruct (login_required_cases f ctx) as [->|[_ ->]];
             [|reflexivity]
           | |- context [admin_required ?f ctx] =>
             destruct (admin_required_cases f ctx) as [->|(fl & to & -> & _)];
             [|reflexivity]
           end; cbv zeta; try reflexivity.
  - unfold register. destruct (method (request ctx)); [reflexivity|].
    cbv zeta. destruct (do email <- _; _) as [?|[?|]]; reflexivity.
  - destruct (do k <- session_user_id ctx; ret (get_user (db ctx) k))
      as [?|[?|]]; reflexivity.
  - destruct (session_user_id ctx); reflexivity.
  - destruct (method (request ctx)); [reflexivity|].
    case_attempt HE; reflexivity.
  - destruct (query_get_complaint (db ctx) complaint_id) as [?|[?|]];
      [reflexivity| |reflexivity].
    destruct (do k <- session_user_id ctx; ret (get_user (db ctx) k))
      as [?|[?|]]; try reflexivity.
    destruct (_ && _); reflexivity.
  - destruct (query_get_complaint (db ctx) complaint_id) as [?|[?|]];
      [reflexivity| |reflexivity].
    case_attempt HE; reflexivity.
  - destruct (query_get_complaint (db ctx) complaint_id) as [?|[?|]];
      [reflexivity| |reflexivity].
    case_attempt HE; reflexivity.
  - destruct (query_get_complaint (db ctx) complaint_id) as [?|[?|]];
      [reflexivity| |reflexivity].
    case_attempt HE; reflexivity.
Qed.

End SessionWriters.

(** ** Orderings of the listed rows *)

Lemma lex_leb_total a b : lex_leb a b = true \/ lex_leb b a = true.
Proof.
  revert b. induction a as [|x a IH]; intros [|y b]; simpl; auto.
  destruct (Z.ltb_spec x y); [by left|].
  destruct (Z.ltb_spec y x); [by right|].
  assert (x = y) as -> by lia. rewrite Z.eqb_refl. simpl. apply IH.
Qed.

Lemma lex_leb_trans a b c :
  lex_leb a b = true -> lex_leb b c = true -> lex_leb a c = true.
Proof.
  revert b c. induction a as [|x a IH]; intros [|y b] [|z c]; simpl;
    try done.
  intros H1 H2.
  apply orb_true_iff in H1 as [H1|[H1 H1']%andb_true_iff];
    apply orb_true_iff in H2 as [H2|[H2 H2']%andb_true_iff];
    apply orb_true_iff.
  - left. apply Z.ltb_lt in H1, H2. apply Z.ltb_lt. lia.
  - left. apply Z.ltb_lt in H1. apply Z.eqb_eq in H2. apply Z.ltb_lt. lia.
  - left. apply Z.eqb_eq in H1. apply Z.ltb_lt in H2. apply Z.ltb_lt. lia.
  - right. apply Z.eqb_eq in H1, H2. subst. rewrite Z.eqb_refl. simpl. eauto.
Qed.

#[global] Instance not_later_total {A} (key : A -> datetime) :
  Total (not_later key).
Proof.
  intros a b. unfold not_later, datetime_leb.
  destruct (lex_leb_total (datetime_key (key a)) (datetime_key (key b)))
    as [->| ->]; [by left|by right].
Qed.

#[global] Instance not_earlier_total {A} (key : A -> datetime) :
  Total (not_earlier key).
Proof. intros a b. destruct (total (not_later key) a b); [by right|by left]. Qed.

#[global] Instance not_later_trans {A} (key : A -> datetime) :
  Transitive (not_later key).
Proof.
  intros a b c. unfold not_later, datetime_leb.
  intros H1%Is_true_true H2%Is_true_true. apply Is_true_true.
  eapply lex_leb_trans; eauto.
Qed.

#[global] Instance not_earlier_trans {A} (key : A -> datetime) :
  Transitive (not_earlier key).
Proof. intros a b c H1 H2. exact (not_later_trans key c b a H2 H1). Qed.

Lemma newest_first_sorted {A} (key : A -> datetime) l :
  StronglySorted (not_earlier key) (newest_first key l).
Proof. apply (StronglySorted_merge_sort (not_earlier key)). Qed.

Lemma oldest_first_sorted {A} (key : A -> datetime) l :
  StronglySorted (not_later key) (oldest_first key l).
Proof. apply (StronglySorted_merge_sort (not_later key)). Qed.

Lemma newest_first_perm {A} (key : A -> datetime) l : newest_first key l ≡ₚ l.
Proof. apply merge_sort_Permutation. Qed.

Lemma oldest_first_perm {A} (key : A -> datetime) l : oldest_first key l ≡ₚ l.
Proof. apply merge_sort_Permutation. Qed.

(** ** What the pages show *)

(** X5. A citizen who asks for a complaint of another user is refused:
    access denied is flashed, the answer redirects to the dashboard, and the
    complaint is not rendered.  The same request by its owner, or by staff
    or admin, renders the complaint. *)
Theorem view_complaint_access ctx k u c :
  actor ctx = Some u ->
  get_complaint (db ctx) k = Some c ->
  (u_role u = CITIZEN /\ c_user_id c <> u_id u ->
     view_complaint k ctx
     = respond ctx [(Text "Access denied!", "error")]
               (redirect url_user_dashboard)) /\
  (u_role u <> CITIZEN \/ c_user_id c = u_id u ->
     exists rs,
       view_complaint k ctx
       = respond ctx [] (render_template (view_complaint_html c rs))).
Proof.
  intros Hu Hc. unfold view_complaint.
  rewrite (login_required_pass _ _ _ Hu), (query_get_complaint_found _ _ _ Hc).
  unfold actor in Hu. unfold session_user_id.
  destruct (session ctx) as [s|]; [|discriminate]. simpl. rewrite Hu.
  split.
  - intros [Hrole Hown]. rewrite bool_decide_eq_true_2 by done.
    assert ((c_user_id c =? u_id u) = false) as -> by (by apply Z.eqb_neq).
    reflexivity.
  - intros [Hrole|Hown]; eexists.
    + rewrite bool_decide_eq_false_2 by done. reflexivity.
    + apply Z.eqb_eq in Hown. rewrite Hown, andb_false_r. reflexivity.
Qed.

(** X6. The responses rendered with a complaint are those stored for it,
    without the internal ones when the reader is a citizen, each as often
    as it is stored, and ordered from the oldest to the newest. *)
Theorem view_complaint_responses ctx k u c rs :
  actor ctx = Some u ->
  res_response (view_complaint k ctx)
  = render_template (view_complaint_html c rs) ->
  rs ≡ₚ filter (fun r => r_complaint_id r = k /\
                         (u_role u = CITIZEN -> r_is_internal r = 0))
               (responses (db ctx)) /\
  StronglySorted (not_later r_created_at) rs /\
  (u_role u = CITIZEN -> forall r, r ∈ rs -> r_is_internal r = 0).
Proof.
  intros Hu. unfold view_complaint.
  rewrite (login_required_pass _ _ _ Hu).
  destruct (query_get_complaint (db ctx) k) as [?|[c0|]];
    [discriminate| |discriminate].
  unfold actor in Hu. unfold session_user_id.
  destruct (session ctx) as [s|]; [|discriminate]. simpl. rewrite Hu.
  destruct (_ && _); [discriminate|]. simpl.
  intros [= <- <-].
  assert (oldest_first r_created_at
            (if bool_decide (u_role u = CITIZEN)
             then filter (fun r => r_is_internal r = 0)
                    (filter (fun r => r_complaint_id r = k) (responses (db ctx)))
             else filter (fun r => r_complaint_id r = k) (responses (db ctx)))
          ≡ₚ filter (fun r => r_complaint_id r = k /\
                              (u_role u = CITIZEN -> r_is_internal r = 0))
                    (responses (db ctx))) as Hperm.
  { rewrite oldest_first_perm. case_bool_decide as Hrole.
    - rewrite list_filter_filter.
      erewrite list_filter_iff; [reflexivity|]. intros r; simpl. tauto.
    - erewrite list_filter_iff; [reflexivity|]. intros r; simpl. tauto. }
  split_and!; [exact Hperm|apply oldest_first_sorted|].
  intros Hrole r Hr. rewrite Hperm in Hr.
  apply list_elem_of_filter in Hr as [[_ H] _]. by apply H.
Qed.

Lemma count_status_perm st (l1 l2 : list Complaint) :
  l1 ≡ₚ l2 -> count_status st l1 = count_status st l2.
Proof. intros H. unfold count_status. by rewrite H. Qed.

Lemma count_status_total (cs : list Complaint) :
  (count_status PENDING cs + count_status ACKNOWLEDGED cs
   + count_status IN_PROGRESS cs + count_status ESCALATED cs
   + count_status RESOLVED cs + count_status CLOSED cs = length cs)%nat.
Proof.
  unfold count_status. induction cs as [|c cs IH]; [reflexivity|].
  rewrite !filter_cons. simpl length at 7. rewrite <- IH.
  destruct (c_status c); repeat case_decide; try congruence; simpl; lia.
Qed.

(** X7. The dashboard of a logged-in user lists the complaints whose owner
    is that user, each once, the newest first, and none of another user;
    its counts are taken over these complaints. *)
Theorem user_dashboard_lists_own_complaints ctx u :
  actor ctx = Some u ->
  let own := filter (fun c => c_user_id c = u_id u) (complaints (db ctx)) in
  exists cs,
    user_dashboard ctx
    = respond ctx []
        (render_template
           (user_dashboard_html u cs
              [("total", length own);
               ("pending", count_status PENDING own);
               ("in_progress", count_status IN_PROGRESS own);
               ("resolved", count_status RESOLVED own)])) /\
    cs ≡ₚ own /\
    StronglySorted (not_earlier c_created_at) cs /\
    (forall c, c ∈ cs -> c_user_id c = u_id u).
Proof.
  intros Hu own. unfold user_dashboard.
  rewrite (login_required_pass _ _ _ Hu).
  unfold actor in Hu. unfold session_user_id.
  destruct (session ctx) as [s|]; [|discriminate]. simpl. rewrite Hu.
  pose proof (newest_first_perm c_created_at own) as Hperm.
  exists (newest_first c_created_at own). split_and!.
  - fold own. rewrite (Permutation_length Hperm),
      !(count_status_perm _ _ _ Hperm). reflexivity.
  - exact Hperm.
  - apply newest_first_sorted.
  - intros c Hc. rewrite Hperm in Hc.
    by apply list_elem_of_filter in Hc as [? _].
Qed.

(** X8. The admin dashboard lists stored complaints only, ten of them or
    all when fewer are stored, the newest first, and every complaint left
    out is no newer than every complaint listed.  Its counts are the number
    of complaints, of pending and of escalated ones, and of citizen users. *)
Theorem admin_dashboard_recent_complaints ctx u :
  actor ctx = Some u ->
  admin_or_staff (u_role u) = true ->
  exists cs,
    admin_dashboard ctx
    = respond ctx []
        (render_template
           (admin_dashboard_html (Some u)
              [("total", length (complaints (db ctx)));
               ("pending", count_status PENDING (complaints (db ctx)));
               ("escalated", count_status ESCALATED (complaints (db ctx)));
               ("users", length (filter (fun v => u_role v = CITIZEN)
                                        (users (db ctx))))]
              cs)) /\
    length cs = min 10 (length (complaints (db ctx))) /\
    StronglySorted (not_earlier c_created_at) cs /\
    (forall c, c ∈ cs -> c ∈ complaints (db ctx)) /\
    (forall c c', c ∈ cs -> c' ∈ complaints (db ctx) -> c' ∉ cs ->
       not_earlier c_created_at c c').
Proof.
  intros Hu Hr. unfold admin_dashboard.
  rewrite (admin_required_pass _ _ _ Hu Hr).
  unfold actor in Hu. unfold session_user_id.
  destruct (session ctx) as [s|]; [|discriminate]. simpl. rewrite Hu.
  set (l := newest_first c_created_at (complaints (db ctx))).
  pose proof (newest_first_perm c_created_at (complaints (db ctx))) as Hperm.
  pose proof (newest_first_sorted c_created_at (complaints (db ctx))) as Hsort.
  fold l in Hperm, Hsort. rewrite <- (take_drop 10 l) in Hsort.
  exists (take 10 l). split_and!.
  - reflexivity.
  - rewrite length_take. by rewrite (Permutation_length Hperm).
  - eapply StronglySorted_app_1_l, Hsort.
  - intros c Hc. rewrite <- Hperm. by eapply subseteq_take.
  - intros c c' Hc Hc' Hout.
    eapply StronglySorted_app_1_elem_of; [exact Hsort|exact Hc|].
    rewrite <- Hperm, <- (take_drop 10 l) in Hc'.
    apply elem_of_app in Hc' as [?|?]; [contradiction|done].
Qed.

(** X9. The reports page counts the complaints of each of the six statuses,
    in the order of the enumeration and with 0 for a status no complaint
    has; the six counts add up to the total shown. *)
Theorem reports_status_counts ctx u :
  actor ctx = Some u ->
  admin_or_staff (u_role u) = true ->
  exists counts rows,
    reports ctx
    = respond ctx []
        (render_template
           (reports_html (length (complaints (db ctx))) counts rows)) /\
    map fst counts
    = ["pending"; "acknowledged"; "in_progress"; "escalated"; "resolved";
       "closed"] /\
    (forall st, (ComplaintStatus_value st,
                 length (filter (fun c => c_status c = st)
                                (complaints (db ctx)))) ∈ counts) /\
    foldr Nat.add 0%nat (map snd counts) = length (complaints (db ctx)).
Proof.
  intros Hu Hr. unfold reports. rewrite (admin_required_pass _ _ _ Hu Hr).
  eexists _, _. split_and!; [reflexivity|reflexivity| |].
  - intros st. apply list_elem_of_fmap. exists st. split; [reflexivity|].
    destruct st; unfold ComplaintStatus_members;
      repeat first [apply list_elem_of_here | apply list_elem_of_further].
  - simpl. rewrite <- (count_status_total (complaints (db ctx))). lia.
Qed.

(** ** Updates: errors and frame *)

Section Updates.

Variable int_of_str : string -> option Z.

(** X10. For a staff or admin actor, an update of a key without a
    complaint is answered with the JSON error and status 404 when the key
    fits 64 bits; for a larger key the lookup raises and the answer is
    status 500.  An update of a stored complaint whose form names a status
    or a priority that is no member of the enumeration, or an assignee
    that is no integer or does not fit 64 bits, flashes the failure and
    leaves the database as it was: none of the other fields of the form
    is applied. *)
Theorem update_complaint_failures ctx k u :
  actor ctx = Some u ->
  admin_or_staff (u_role u) = true ->
  let f := form (request ctx) in
  (get_complaint (db ctx) k = None -> sqlite_integer k = true ->
     update_complaint int_of_str k ctx
     = respond ctx [] (jsonify [("error", "Complaint not found")] 404)) /\
  (get_complaint (db ctx) k = None -> sqlite_integer k = false ->
     update_complaint int_of_str k ctx = respond ctx [] (abort 500)) /\
  (forall c, get_complaint (db ctx) k = Some c ->
     (exists name, f !! "status" = Some name /\
                   forall st, ComplaintStatus_getitem name <> inr st) \/
     (exists name, f !! "priority" = Some name /\
                   forall p, ComplaintPriority_getitem name <> inr p) \/
     (exists text, f !! "assigned_to" = Some text /\ text <> EmptyString /\
                   forall n, int_of_str text = Some n ->
                             sqlite_integer n = false) ->
     exists e,
       update_complaint int_of_str k ctx
       = respond ctx [(TextExc "Update failed: " e, "error")]
                 (redirect (url_view_complaint k))).
Proof.
  intros Hu Hr f. unfold update_complaint.
  rewrite (admin_required_pass _ _ _ Hu Hr). split_and!.
  - intros Hn Hfit. rewrite (query_get_complaint_missing _ _ Hn), Hfit.
    reflexivity.
  - intros Hn Hfit. rewrite (query_get_complaint_missing _ _ Hn), Hfit.
    reflexivity.
  - intros c Hc Hbad. rewrite (query_get_complaint_found _ _ _ Hc).
    cbv zeta. fold f.
    case_attempt HE; [eexists; reflexivity|exfalso].
    exc_inv HE.
    destruct Hbad as [(name & Hn & Hbad)|[(name & Hn & Hbad)|(text & Hn & Hne & Hbad)]].
    + rewrite Hn in Ha. exc_inv Ha.
      destruct (ComplaintStatus_getitem name) as [?|st] eqn:Hg; [discriminate|].
      by apply (Hbad st).
    + rewrite Hn in Ha0. by apply (Hbad a).
    + rewrite Hn in Ha1.
      apply String.eqb_neq in Hne. rewrite Hne in Ha1.
      destruct (int_of_str text) as [n'|] eqn:Hi; [|discriminate].
      injection Ha1 as <-. specialize (Hbad n' eq_refl).
      apply commit_complaint_inr in HE as [_ Hall].
      simpl in Hall. rewrite Hbad in Hall. discriminate.
Qed.

(** X11. For a staff or admin actor and a stored complaint, an update
    whose form names members of the enumerations and an integer assignee
    of at most 64 bits succeeds.  The complaint then has the status, the
    priority and the assignee the form names, and keeps those the form
    leaves out (an empty assignee text counts as left out); its key,
    ticket number, owner, texts, creation time and escalation count are
    as before, every other complaint is read as before, and users and
    responses are untouched. *)
Theorem update_complaint_applies_form ctx k u c st p a :
  actor ctx = Some u ->
  admin_or_staff (u_role u) = true ->
  get_complaint (db ctx) k = Some c ->
  let f := form (request ctx) in
  match f !! "status" with
  | Some name => ComplaintStatus_getitem name = inr st
  | None => st = c_status c
  end ->
  match f !! "priority" with
  | Some name => ComplaintPriority_getitem name = inr p
  | None => p = c_priority c
  end ->
  match f !! "assigned_to" with
  | Some text => if String.eqb text "" then a = c_assigned_to c
                 else exists n, int_of_str text = Some n /\ a = Some n
  | None => a = c_assigned_to c
  end ->
  (forall n, a = Some n -> sqlite_integer n = true) ->
  let res := update_complaint int_of_str k ctx in
  res_flashes res = [(Text "Complaint updated successfully!", "success")] /\
  res_response res = redirect (url_view_complaint k) /\
  users (res_db res) = users (db ctx) /\
  responses (res_db res) = responses (db ctx) /\
  (forall k', k' <> k ->
     get_complaint (res_db res) k' = get_complaint (db ctx) k') /\
  exists c',
    get_complaint (res_db res) k = Some c' /\
    c_status c' = st /\ c_priority c' = p /\ c_assigned_to c' = a /\
    fixed_fields c' = fixed_fields c /\
    c_escalation_count c' = c_escalation_count c.
Proof.
  intros Hu Hr Hc f Hst Hp Ha Hfit res. subst res. unfold update_complaint.
  rewrite (admin_required_pass _ _ _ Hu Hr),
    (query_get_complaint_found _ _ _ Hc). cbv zeta. fold f.
  pose proof (get_complaint_key _ _ _ Hc) as Hk.
  assert (exists n ra,
    (match f !! "status" with
    | Some name =>
      (do new_status <- ComplaintStatus_getitem name;
       if bool_decide (new_status = RESOLVED)
       then ret (new_status, Some (utcnow (env ctx) 0%nat), 1%nat)
       else ret (new_status, c_resolved_at c, 0%nat))
    | None => ret (c_status c, c_resolved_at c, 0%nat)
    end) = inr (st, ra, n)) as (n & ra & ->).
  { destruct (f !! "status") as [name|]; [rewrite Hst; simpl|subst st].
    - case_bool_decide; eexists _, _; reflexivity.
    - eexists _, _; reflexivity. }
  assert ((match f !! "priority" with
           | Some name => ComplaintPriority_getitem name
           | None => ret (c_priority c)
           end) = inr p) as ->.
  { destruct (f !! "priority"); [exact Hp|by subst p]. }
  assert ((match f !! "assigned_to" with
          | Some text =>
            if String.eqb text "" then ret (c_assigned_to c)
            else match int_of_str text with
                 | Some k => ret (Some k)
                 | None => raise (ValueError text)
                 end
          | None => ret (c_assigned_to c)
          end) = inr a) as ->.
  { destruct (f !! "assigned_to") as [text|]; [|by subst a].
    destruct (String.eqb text ""); [by subst a|].
    destruct Ha as (z & -> & ->). reflexivity. }
  assert (forallb sqlite_integer
            (match a with Some z => [z] | None => [] end) = true) as Hall.
  { destruct a as [z|]; [|reflexivity]. simpl. by rewrite (Hfit z eq_refl). }
  cbn [bind ret]. unfold commit_complaint. rewrite Hall. cbn [ret].
  match goal with
  | |- context [onupdate c ?new ?next] =>
    pose proof (onupdate_fields c new next) as Hf;
    set (c' := onupdate c new next) in *
  end.
  simpl in Hf.
  injection Hf as Hid Hs2 Hp2 Ha2 Hre Hcn Htk Hus Hti Hde Hca Hlo Hcr.
  cbn [res_flashes res_response res_db].
  split_and!; try reflexivity.
  - intros k' Hk'. apply get_write_complaint_other. lia.
  - exists c'. split; [eapply get_write_complaint; [exact Hc|lia]|].
    unfold fixed_fields. split_and!; congruence.
Qed.

End Updates.

(** ** Inserted rows: keys and lookups *)

Lemma next_id_above keys k : k ∈ keys -> k < next_id keys.
Proof.
  unfold next_id. induction keys as [|x keys IH]; intros Hk.
  - by apply elem_of_nil in Hk.
  - apply elem_of_cons in Hk as [->|Hk]; simpl; [lia|].
    specialize (IH Hk). lia.
Qed.

Lemma next_id_fresh keys : next_id keys ∉ keys.
Proof. intros H. apply next_id_above in H. lia. Qed.

Lemma find_app_l {A} (p : A -> bool) l1 l2 x :
  List.find p l1 = Some x -> List.find p (l1 ++ l2) = Some x.
Proof.
  induction l1 as [|y l1 IH]; simpl; [discriminate|].
  destruct (p y); auto.
Qed.

Lemma find_app_r {A} (p : A -> bool) l1 l2 :
  (forall y, y ∈ l1 -> p y = false) ->
  List.find p (l1 ++ l2) = List.find p l2.
Proof.
  induction l1 as [|y l1 IH]; simpl; intros H; [reflexivity|].
  rewrite (H y) by apply list_elem_of_here.
  apply IH. intros z Hz. apply H. by apply list_elem_of_further.
Qed.

Lemma get_complaint_inserted d c :
  c_id c = next_id (map c_id (complaints d)) ->
  get_complaint {| users := users d; complaints := complaints d ++ [c];
                   responses := responses d |} (c_id c) = Some c.
Proof.
  intros Hid. unfold get_complaint. simpl. rewrite find_app_r.
  - simpl. by rewrite Z.eqb_refl.
  - intros y Hy. apply Z.eqb_neq. intros Heq.
    apply (next_id_fresh (map c_id (complaints d))).
    rewrite <- Hid, <- Heq. apply list_elem_of_fmap. eauto.
Qed.

(** ** Creating complaints *)

(** X12. A logged-in POST to the create route whose form has a title, a
    description and a category, names a priority of the enumeration or
    none, and draws a ticket number no complaint has yet, stores one new
    complaint: owned by the session's user, with the texts of the form, the
    location of the form or the empty text, no assignee, no resolution
    time, and a key no stored complaint has.  Reading the new key returns
    the new row, every complaint stored before is read as before, and the
    flashed message shows the ticket number. *)
Theorem new_complaint_stores_form ctx s title description category p :
  session ctx = Some s ->
  method (request ctx) = POST ->
  let f := form (request ctx) in
  f !! "title" = Some title ->
  f !! "description" = Some description ->
  f !! "category" = Some category ->
  match f !! "priority" with
  | Some name => ComplaintPriority_getitem name = inr p
  | None => p = MEDIUM
  end ->
  (forall c, c ∈ complaints (db ctx) ->
     c_ticket_number c <> make_ticket_number (env ctx)) ->
  let res := new_complaint ctx in
  exists c,
    res_db res = {| users := users (db ctx);
                    complaints := complaints (db ctx) ++ [c];
                    responses := responses (db ctx) |} /\
    res_flashes res
    = [(Text ("Complaint submitted successfully! Ticket: "
              ++ c_ticket_number c), "success")] /\
    res_response res = redirect url_user_dashboard /\
    c_user_id c = s_user_id s /\
    (c_title c, c_description c, c_category c) = (title, description, category) /\
    c_location c = default EmptyString (f !! "location") /\
    c_priority c = p /\
    c_assigned_to c = None /\ c_resolved_at c = None /\
    (c_id c ∉ map c_id (complaints (db ctx))) /\
    get_complaint (res_db res) (c_id c) = Some c /\
    (forall k c0, get_complaint (db ctx) k = Some c0 ->
       get_complaint (res_db res) k = Some c0).
Proof.
  intros Hs Hm f Ht Hd Hc Hp Hfresh res. subst res.
  unfold new_complaint, login_required. rewrite Hs, Hm. cbv zeta.
  unfold session_user_id. rewrite Hs. fold f.
  unfold form_getitem. rewrite Ht, Hd, Hc. simpl.
  assert (ComplaintPriority_getitem (form_get f "priority" "MEDIUM") = inr p)
    as ->.
  { unfold form_get. destruct (f !! "priority"); simpl; [exact Hp|by subst p]. }
  simpl. unfold insert_complaint. simpl.
  assert (existsb
            (fun v => String.eqb (c_ticket_number v)
                                 (make_ticket_number (env ctx)))
            (complaints (db ctx)) = false) as ->.
  { apply existsb_false_iff. intros x Hx. apply String.eqb_neq. by apply Hfresh. }
  simpl. eexists. split; [reflexivity|]. simpl.
  split_and!; try reflexivity.
  - apply next_id_fresh.
  - apply (get_complaint_inserted (db ctx)). reflexivity.
  - intros k c0 H0. unfold get_complaint in *. simpl. by apply find_app_l.
Qed.

(** X13. A logged-in POST to the create route whose form lacks the title,
    the description or the category, or names a priority that is no member
    of the enumeration, or whose ticket number is already taken, stores
    nothing: the failure is flashed and the form is rendered again. *)
Theorem new_complaint_failures ctx s :
  session ctx = Some s ->
  method (request ctx) = POST ->
  let f := form (request ctx) in
  f !! "title" = None \/ f !! "description" = None \/ f !! "category" = None \/
  (exists name, f !! "priority" = Some name /\
                forall p, ComplaintPriority_getitem name <> inr p) \/
  (exists c, c ∈ complaints (db ctx) /\
             c_ticket_number c = make_ticket_number (env ctx)) ->
  exists e,
    new_complaint ctx
    = respond ctx [(TextExc "Failed to submit complaint: " e, "error")]
              (render_template (new_complaint_html categories)).
Proof.
  intros Hs Hm f Hbad.
  unfold new_complaint, login_required. rewrite Hs, Hm. cbv zeta. fold f.
  case_attempt HE; [eexists; reflexivity|exfalso].
  exc_inv HE.
  apply form_getitem_inr in Ha0, Ha1, Ha2.
  destruct Hbad as [Hb|[Hb|[Hb|[(name & Hn & Hb)|(c & Hin & Hb)]]]];
    try congruence.
  - unfold form_get in Ha3. fold f in Ha3. rewrite Hn in Ha3. simpl in Ha3.
    by apply (Hb a3).
  - unfold insert_complaint in HE. simpl in HE.
    destruct (existsb _ _) eqn:Hex; [discriminate|].
    pose proof (proj1 (existsb_false_iff _ _) Hex c Hin) as Hne.
    simpl in Hne. apply String.eqb_neq in Hne. contradiction.
Qed.

(** ** Registration and responses: outcomes *)

Section Registration.

Variable generate_password_hash : string -> string -> string.

Lemma register_stores_row ctx email username full_name password :
  method (request ctx) = POST ->
  let f := form (request ctx) in
  f !! "email" = Some email ->
  f !! "username" = Some username ->
  f !! "full_name" = Some full_name ->
  f !! "password" = Some password ->
  (forall v, v ∈ users (db ctx) ->
     u_email v <> email /\ u_username v <> username) ->
  let res := register generate_password_hash ctx in
  exists u,
    res_db res = {| users := users (db ctx) ++ [u];
                    complaints := complaints (db ctx);
                    responses := responses (db ctx) |} /\
    res_session res = session ctx /\
    res_flashes res
    = [(Text "Registration successful! Please log in.", "success")] /\
    res_response res = redirect url_login /\
    (u_email u, u_username u, u_full_name u) = (email, username, full_name) /\
    u_password_hash u = generate_password_hash (salt (env ctx)) password /\
    u_phone u = Some (default EmptyString (f !! "phone")) /\
    u_address u = Some (default EmptyString (f !! "address")) /\
    u_role u = CITIZEN /\ u_is_active u = Some 1 /\
    (u_id u ∉ map u_id (users (db ctx))).
Proof.
  intros Hm f He Hn Hf Hp Hfree res. subst res. unfold register.
  rewrite Hm. cbv zeta. fold f. unfold form_getitem.
  rewrite He, Hn, Hf, Hp. simpl.
  rewrite (proj2 (find_none_email_username _ _ _) Hfree). simpl.
  unfold insert_user. simpl.
  assert (existsb (fun v => String.eqb (u_email v) email) (users (db ctx))
          = false) as ->.
  { apply existsb_false_iff. intros x Hx. apply String.eqb_neq. by apply Hfree. }
  assert (existsb (fun v => String.eqb (u_username v) username)
                  (users (db ctx)) = false) as ->.
  { apply existsb_false_iff. intros x Hx. apply String.eqb_neq. by apply Hfree. }
  simpl. eexists. split; [reflexivity|]. simpl.
  split_and!; try reflexivity. apply next_id_fresh.
Qed.

(** X14. A registration POST with an email, a username, a full name and
    a password, none of the first two held by a stored user, stores one
    new user: a citizen, active, with the fields of the form, the phone
    and address of the form or empty texts, the hash the hasher returns
    for the password, and a key no stored user has.  The session is not
    touched (registering does not log in) and the answer redirects to the
    login page. *)
Theorem register_stores_citizen ctx email username full_name password :
  method (request ctx) = POST ->
  let f := form (request ctx) in
  f !! "email" = Some email ->
  f !! "username" = Some username ->
  f !! "full_name" = Some full_name ->
  f !! "password" = Some password ->
  (forall v, v ∈ users (db ctx) ->
     u_email v <> email /\ u_username v <> username) ->
  let res := register generate_password_hash ctx in
  exists u,
    res_db res = {| users := users (db ctx) ++ [u];
                    complaints := complaints (db ctx);
                    responses := responses (db ctx) |} /\
    res_session res = session ctx /\
    res_flashes res
    = [(Text "Registration successful! Please log in.", "success")] /\
    res_response res = redirect url_login /\
    (u_email u, u_username u, u_full_name u) = (email, username, full_name) /\
    u_password_hash u = generate_password_hash (salt (env ctx)) password /\
    u_phone u = Some (default EmptyString (f !! "phone")) /\
    u_address u = Some (default EmptyString (f !! "address")) /\
    u_role u = CITIZEN /\ u_is_active u = Some 1 /\
    (u_id u ∉ map u_id (users (db ctx))).
Proof.
  intros Hm f He Hn Hf Hp Hfree res.
  exact (register_stores_row ctx email username full_name password
           Hm He Hn Hf Hp Hfree).
Qed.

(** X15. A registration POST that lacks one of email, username, full name
    and password, while no stored user holds the email and username it
    does submit, stores nothing and flashes the failure with the key
    error of a field the form lacks. *)
Theorem register_missing_field ctx :
  method (request ctx) = POST ->
  let f := form (request ctx) in
  (forall v e n, v ∈ users (db ctx) ->
     f !! "email" = Some e -> f !! "username" = Some n ->
     u_email v <> e /\ u_username v <> n) ->
  (exists key, key ∈ ["email"; "username"; "full_name"; "password"] /\
               f !! key = None) ->
  exists key,
    key ∈ ["email"; "username"; "full_name"; "password"] /\
    f !! key = None /\
    register generate_password_hash ctx
    = respond ctx
        [(TextExc "Registration failed: " (BadRequestKeyError key), "error")]
        (redirect url_register).
Proof.
  intros Hm f Hfree (key0 & Hin & Hnone). unfold register.
  rewrite Hm. cbv zeta. fold f. unfold form_getitem.
  destruct (f !! "email") as [e|] eqn:He.
  2:{ exists "email". split_and!; [apply list_elem_of_here|done|reflexivity]. }
  destruct (f !! "username") as [n|] eqn:Hn.
  2:{ exists "username". split_and!; [|done|reflexivity].
      apply list_elem_of_further, list_elem_of_here. }
  simpl.
  rewrite (proj2 (find_none_email_username _ e n)
             (fun v Hv => Hfree v e n Hv eq_refl eq_refl)).
  destruct (f !! "full_name") as [fn|] eqn:Hf.
  2:{ exists "full_name". split_and!; [|done|reflexivity].
      do 2 apply list_elem_of_further. apply list_elem_of_here. }
  destruct (f !! "password") as [pw|] eqn:Hp.
  2:{ exists "password". split_and!; [|done|reflexivity].
      do 3 apply list_elem_of_further. apply list_elem_of_here. }
  exfalso. list_cases Hin; congruence.
Qed.

End Registration.

(** X16. With a logged-in actor, a response to a key without a complaint
    flashes that the complaint was not found and redirects to the dashboard
    when the key fits 64 bits; for a larger key the lookup raises and the
    answer is status 500.  A response to a stored complaint without a
    message flashes the failure.  All three store nothing.  A response with
    a message to a stored complaint stores one new row for that complaint,
    by the actor, with the message, the clock reading and a key no stored
    response has, and leaves users and complaints untouched. *)
Theorem respond_to_complaint_outcomes ctx k u :
  actor ctx = Some u ->
  let f := form (request ctx) in
  (get_complaint (db ctx) k = None -> sqlite_integer k = true ->
     respond_to_complaint k ctx
     = respond ctx [(Text "Complaint not found!", "error")]
               (redirect url_user_dashboard)) /\
  (get_complaint (db ctx) k = None -> sqlite_integer k = false ->
     respond_to_complaint k ctx = respond ctx [] (abort 500)) /\
  (forall c, get_complaint (db ctx) k = Some c -> f !! "message" = None ->
     respond_to_complaint k ctx
     = respond ctx [(TextExc "Failed to add response: "
                             (BadRequestKeyError "message"), "error")]
               (redirect (url_view_complaint k))) /\
  (forall c message,
     get_complaint (db ctx) k = Some c -> f !! "message" = Some message ->
     exists row,
       res_db (respond_to_complaint k ctx)
       = {| users := users (db ctx); complaints := complaints (db ctx);
            responses := responses (db ctx) ++ [row] |} /\
       res_flashes (respond_to_complaint k ctx)
       = [(Text "Response added successfully!", "success")] /\
       res_response (respond_to_complaint k ctx)
       = redirect (url_view_complaint k) /\
       (r_complaint_id row, r_responder_id row, r_message row)
       = (k, u_id u, message) /\
       r_created_at row = utcnow (env ctx) 0%nat /\
       (r_id row ∉ map r_id (responses (db ctx)))).
Proof.
  intros Hu f. unfold respond_to_complaint.
  rewrite (login_required_pass _ _ _ Hu). cbv zeta.
  unfold actor in Hu. unfold session_user_id.
  destruct (session ctx) as [s|] eqn:Hs; [|discriminate].
  rewrite Hu. fold f. unfold form_getitem. simpl.
  pose proof (get_user_key _ _ _ Hu) as Hk.
  split_and!.
  - intros Hn Hfit. rewrite (query_get_complaint_missing _ _ Hn), Hfit.
    reflexivity.
  - intros Hn Hfit. rewrite (query_get_complaint_missing _ _ Hn), Hfit.
    reflexivity.
  - intros c Hc ->. rewrite (query_get_complaint_found _ _ _ Hc). reflexivity.
  - intros c message Hc ->. rewrite (query_get_complaint_found _ _ _ Hc).
    simpl. eexists. split; [reflexivity|]. simpl.
    split_and!; try reflexivity; [by rewrite Hk|apply next_id_fresh].
Qed.

(** ** What a request may do to the database *)

Lemma onupdate_db_step d k c new next :
  get_complaint d k = Some c ->
  fixed_fields new = fixed_fields c ->
  c_escalation_count c <= c_escalation_count new ->
  (c_resolved_at c <> None -> c_resolved_at new <> None) ->
  db_step d (write_complaint d (onupdate c new next)).
Proof.
  intros Hc Hfix Hcnt Hres.
  pose proof (onupdate_fields c new next) as Hf.
  injection Hf as Hid Hs2 Hp2 Ha2 Hre Hcn Htk Hus Hti Hde Hca Hlo Hcr.
  eapply (step_write _ k c); [exact Hc| | |].
  - rewrite <- Hfix. unfold fixed_fields. congruence.
  - by rewrite Hcn.
  - by rewrite Hre.
Qed.

Section Steps.

Variable generate_password_hash : string -> string -> string.
Variable check_password_hash : string -> string -> bool.
Variable int_of_str : string -> option Z.

Lemma register_db_step ctx :
  db_step (db ctx) (res_db (register generate_password_hash ctx)).
Proof.
  unfold register.
  destruct (method (request ctx)); [apply step_none|].
  unfold form_getitem, bind, ret, raise.
  destruct (form (request ctx) !! "email") as [e|]; [|apply step_none].
  destruct (form (request ctx) !! "username") as [n|]; [|apply step_none].
  destruct (List.find _ (users (db ctx))) as [v|] eqn:Hf; [apply step_none|].
  pose proof (proj1 (find_none_email_username _ _ _) Hf) as Hfree.
  destruct (form (request ctx) !! "full_name") as [fn|]; [|apply step_none].
  destruct (form (request ctx) !! "password") as [pw|]; [|apply step_none].
  unfold insert_user; simpl.
  destruct (existsb _ _); [apply step_none|].
  destruct (existsb _ _); [apply step_none|].
  simpl. apply step_user; simpl; done.
Qed.

Lemma new_complaint_db_step ctx :
  db_step (db ctx) (res_db (new_complaint ctx)).
Proof.
  unfold new_complaint.
  match goal with |- context [login_required ?f ctx] =>
    destruct (login_required_cases f ctx) as [->|[_ ->]] end;
    [|apply step_none].
  destruct (method (request ctx)); [apply step_none|]. cbv zeta.
  case_attempt HE; [apply step_none|]. simpl.
  exc_inv HE. unfold insert_complaint in HE. simpl in HE.
  destruct (existsb _ _) eqn:Hex; [discriminate|]. injection HE as <-.
  apply step_complaint; simpl; try reflexivity.
  intros v Hv.
  pose proof (proj1 (existsb_false_iff _ _) Hex v Hv) as Hne.
  simpl in Hne. by apply String.eqb_neq.
Qed.

Lemma update_complaint_db_step k ctx :
  db_step (db ctx) (res_db (update_complaint int_of_str k ctx)).
Proof.
  unfold update_complaint.
  match goal with |- context [admin_required ?f ctx] =>
    destruct (admin_required_cases f ctx) as [->|(fl & to & -> & _)] end;
    [|apply step_none].
  destruct (query_get_complaint (db ctx) k) as [?|[c|]] eqn:Hc;
    [apply step_none| |apply step_none].
  apply query_get_complaint_inr in Hc.
  cbv zeta. case_attempt HE; [apply step_none|]. cbn [res_db].
  exc_inv HE. apply commit_complaint_inr in HE as [-> _].
  eapply onupdate_db_step; [exact Hc|reflexivity|simpl; lia|].
  simpl. intros Hset.
  destruct (form (request ctx) !! "status") as [name|].
  - exc_inv Ha. case_bool_decide; injection Ha as <- <- <-; done.
  - injection Ha as <- <- <-. done.
Qed.

Lemma escalate_complaint_db_step k ctx :
  db_step (db ctx) (res_db (escalate_complaint k ctx)).
Proof.
  unfold escalate_complaint.
  match goal with |- context [admin_required ?f ctx] =>
    destruct (admin_required_cases f ctx) as [->|(fl & to & -> & _)] end;
    [|apply step_none].
  destruct (query_get_complaint (db ctx) k) as [?|[c|]] eqn:Hc;
    [apply step_none| |apply step_none].
  apply query_get_complaint_inr in Hc.
  cbv zeta. case_attempt HE; [apply step_none|]. cbn [res_db].
  apply commit_complaint_inr in HE as [-> _].
  eapply onupdate_db_step; [exact Hc|reflexivity|simpl; lia|done].
Qed.

Lemma respond_to_complaint_db_step k ctx :
  db_step (db ctx) (res_db (respond_to_complaint k ctx)).
Proof.
  unfold respond_to_complaint.
  match goal with |- context [login_required ?f ctx] =>
    destruct (login_required_cases f ctx) as [->|[_ ->]] end;
    [|apply step_none].
  cbv zeta.
  destruct (query_get_complaint (db ctx) k) as [?|[?|]];
    [apply step_none| |apply step_none].
  case_attempt HE; [apply step_none|]. simpl.
  exc_inv HE. injection HE as <-. by apply step_response.
Qed.

Lemma dispatch_db_step r ctx :
  db_step (db ctx)
          (res_db (dispatch generate_password_hash check_password_hash
                            int_of_str r ctx)).
Proof.
  unfold dispatch. case_bool_decide; [|apply step_none].
  destruct r; simpl;
    auto using register_db_step, new_complaint_db_step,
      update_complaint_db_step, escalate_complaint_db_step,
      respond_to_complaint_db_step;
    unfold user_dashboard, view_complaint, admin_dashboard,
      manage_users, reports;
    repeat match goal with
           | |- context [login_required ?f ctx] =>
             destruct (login_required_cases f ctx) as [->|[_ ->]];
             [|apply step_none]
           | |- context [admin_required ?f ctx] =>
             destruct (admin_required_cases f ctx) as [->|(fl & to & -> & _)];
             [|apply step_none]
           end; cbv zeta; try apply step_none.
  - unfold login. destruct (method (request ctx)); [apply step_none|].
    destruct (do username <- _; _) as [?|[username password]];
      [apply step_none|].
    destruct (first_by_username (db ctx) username) as [u|]; [|apply step_none].
    destruct (_ && _); apply step_none.
  - destruct (do k <- session_user_id ctx; ret (get_user (db ctx) k))
      as [?|[?|]]; apply step_none.
  - destruct (session_user_id ctx); apply step_none.
  - destruct (query_get_complaint (db ctx) complaint_id) as [?|[?|]];
      [apply step_none| |apply step_none].
    destruct (do k <- session_user_id ctx; ret (get_user (db ctx) k))
      as [?|[?|]]; try apply step_none.
    destruct (_ && _); apply step_none.
Qed.

End Steps.

(** ** Invariants of the tables *)

Lemma NoDup_snoc_fresh {A} (l : list A) x : NoDup l -> x ∉ l -> NoDup (l ++ [x]).
Proof.
  intros Hl Hx. apply NoDup_app. split_and!; [done| |apply NoDup_singleton].
  intros y Hy [->|[]]%list_elem_of_In. contradiction.
Qed.

Lemma same_key_same_row (l : list Complaint) c1 c2 :
  NoDup (map c_id l) -> c1 ∈ l -> c2 ∈ l -> c_id c1 = c_id c2 -> c1 = c2.
Proof.
  induction l as [|x l IH]; simpl; intros Hnd H1 H2 Hid.
  - by apply elem_of_nil in H1.
  - apply NoDup_cons in Hnd as [Hx Hnd].
    apply elem_of_cons in H1 as [->|H1]; apply elem_of_cons in H2 as [->|H2];
      [reflexivity| | |by apply IH].
    + exfalso. apply Hx. rewrite Hid. apply list_elem_of_fmap. eauto.
    + exfalso. apply Hx. rewrite <- Hid. apply list_elem_of_fmap. eauto.
Qed.

Lemma get_complaint_elem d k c : get_complaint d k = Some c -> c ∈ complaints d.
Proof.
  unfold get_complaint. intros H. apply List.find_some in H as [H _].
  by apply list_elem_of_In.
Qed.

(** Writing a row back changes no value that the row read and the row
    written agree on. *)
Lemma write_complaint_map {B} (g : Complaint -> B) d k c c' :
  NoDup (map c_id (complaints d)) ->
  get_complaint d k = Some c ->
  c_id c' = c_id c -> g c' = g c ->
  map g (complaints (write_complaint d c')) = map g (complaints d).
Proof.
  intros Hnd Hc Hid Hg. unfold write_complaint. simpl.
  rewrite List.map_map. apply List.map_ext_in. intros old Hin.
  destruct (c_id old =? c_id c') eqn:E; [|reflexivity].
  apply Z.eqb_eq in E. rewrite Hg. f_equal. symmetry.
  apply (same_key_same_row (complaints d)); try done.
  - by apply list_elem_of_In.
  - by eapply get_complaint_elem.
  - lia.
Qed.

Lemma fixed_fields_key c c' : fixed_fields c' = fixed_fields c -> c_id c' = c_id c.
Proof. unfold fixed_fields. by intros [= -> _ _ _ _ _ _ _]. Qed.

Lemma fixed_fields_ticket c c' :
  fixed_fields c' = fixed_fields c -> c_ticket_number c' = c_ticket_number c.
Proof. unfold fixed_fields. by intros [= _ -> _ _ _ _ _ _]. Qed.

Lemma db_step_unique d d' :
  db_step d d' ->
  unique_keys d /\ unique_users d -> unique_keys d' /\ unique_users d'.
Proof.
  intros Hstep [(Hu & Hc & Hr & Ht) [He Hn]].
  destruct Hstep as [|u Hid Hrole Hfree|c Hid Hfree _ _ _
                     |k c c' Hget Hfix _ _|r Hid];
    unfold unique_keys, unique_users;
    [| simpl; rewrite ?map_app; simpl ..| | simpl; rewrite ?map_app; simpl].
  - done.
  - split_and!; try done; apply NoDup_snoc_fresh; try done.
    + rewrite Hid. apply next_id_fresh.
    + intros (v & Hv1 & Hv2)%list_elem_of_fmap. destruct (Hfree v Hv2). congruence.
    + intros (v & Hv1 & Hv2)%list_elem_of_fmap. destruct (Hfree v Hv2). congruence.
  - split_and!; try done; apply NoDup_snoc_fresh; try done.
    + rewrite Hid. apply next_id_fresh.
    + intros (v & Hv1 & Hv2)%list_elem_of_fmap. destruct (Hfree v Hv2). congruence.
  - pose proof (fixed_fields_key _ _ Hfix) as Hk.
    pose proof (fixed_fields_ticket _ _ Hfix) as Htk.
    rewrite (write_complaint_map c_id d k c c' Hc Hget Hk Hk).
    rewrite (write_complaint_map c_ticket_number d k c c' Hc Hget Hk Htk).
    done.
  - split_and!; try done. apply NoDup_snoc_fresh; try done.
    rewrite Hid. apply next_id_fresh.
Qed.

Lemma db_step_users d d' :
  db_step d d' ->
  exists more, users d' = users d ++ more /\
               Forall (fun u => u_role u = CITIZEN) more.
Proof.
  intros [|u _ Hrole _|c _ _ _ _ _|k c c' _ _ _ _|r _]; simpl;
    try (exists []; split; [by rewrite app_nil_r|constructor]).
  exists [u]. split; [reflexivity|]. by repeat constructor.
Qed.

Lemma db_step_responses d d' :
  db_step d d' -> exists more, responses d' = responses d ++ more.
Proof.
  intros [|u _ _ _|c _ _ _ _ _|k c c' _ _ _ _|r _]; simpl;
    try (exists []; by rewrite app_nil_r).
  by exists [r].
Qed.

Lemma later_version_refl c : later_version c c.
Proof. unfold later_version. split_and!; [done|lia|done]. Qed.

Lemma later_version_trans c1 c2 c3 :
  later_version c1 c2 -> later_version c2 c3 -> later_version c1 c3.
Proof.
  unfold later_version. intros (H1 & H2 & H3) (H4 & H5 & H6).
  split_and!; [congruence|lia|auto].
Qed.

Lemma db_step_complaints d d' c :
  db_step d d' -> NoDup (map c_id (complaints d)) ->
  c ∈ complaints d ->
  exists c', c' ∈ complaints d' /\ later_version c c'.
Proof.
  intros Hstep Hnd Hin.
  destruct Hstep as [|u _ _ _|c0 _ _ _ _ _|k c0 c' Hget Hfix Hcnt Hres|r _];
    simpl; try (exists c; split; [done|apply later_version_refl]).
  - exists c. split; [|apply later_version_refl].
    apply elem_of_app. by left.
  - destruct (decide (c_id c = c_id c')) as [Heq|Hne].
    + exists c'. split.
      * apply list_elem_of_fmap. exists c. split; [|done].
        by rewrite (proj2 (Z.eqb_eq _ _) Heq).
      * assert (c = c0) as ->; [|done].
        apply (same_key_same_row (complaints d)); try done.
        -- by eapply get_complaint_elem.
        -- rewrite Heq. by apply fixed_fields_key.
    + exists c. split; [|apply later_version_refl].
      apply list_elem_of_fmap. exists c. split; [|done].
      by rewrite (proj2 (Z.eqb_neq _ _) Hne).
Qed.

(** ** Sequences of requests *)

Section Sequences.

Variable generate_password_hash : string -> string -> string.
Variable check_password_hash : string -> string -> bool.
Variable int_of_str : string -> option Z.

Lemma serve_db_step d v :
  db_step d (res_db (serve generate_password_hash check_password_hash
                           int_of_str d v)).
Proof.
  exact (dispatch_db_step generate_password_hash check_password_hash
           int_of_str (v_route v)
           {| env := v_env v; request := v_request v;
              session := v_session v; db := d |}).
Qed.

(** X17. Whatever requests are served, in whatever order and with
    whatever sessions, forms, clocks and random bytes: when the keys of
    the three tables, the ticket numbers, the emails and the usernames
    are unique before, they are unique after. *)
Theorem requests_keep_keys_unique d vs :
  unique_keys d -> unique_users d ->
  unique_keys (serve_all generate_password_hash check_password_hash
                         int_of_str d vs) /\
  unique_users (serve_all generate_password_hash check_password_hash
                          int_of_str d vs).
Proof.
  revert d. induction vs as [|v vs IH]; intros d Hk Hu; [done|].
  simpl. pose proof (db_step_unique _ _ (serve_db_step d v) (conj Hk Hu))
    as [Hk' Hu'].
  by apply IH.
Qed.

Lemma serve_all_users d vs :
  exists more,
    users (serve_all generate_password_hash check_password_hash
                     int_of_str d vs) = users d ++ more /\
    Forall (fun u => u_role u = CITIZEN) more.
Proof.
  revert d. induction vs as [|v vs IH]; intros d.
  - exists []. split; [by rewrite app_nil_r|constructor].
  - simpl. destruct (db_step_users _ _ (serve_db_step d v)) as (m1 & H1 & F1).
    destruct (IH (res_db (serve generate_password_hash check_password_hash
                                int_of_str d v))) as (m2 & H2 & F2).
    exists (m1 ++ m2). split; [by rewrite H2, H1, app_assoc|].
    by apply Forall_app.
Qed.

(** X18. No sequence of requests removes or changes a user row, and the
    rows it adds are citizens: the users table after the requests is the
    table before followed by citizens only. *)
Theorem requests_add_citizens_only d vs :
  exists more,
    users (serve_all generate_password_hash check_password_hash
                     int_of_str d vs) = users d ++ more /\
    Forall (fun u => u_role u = CITIZEN) more.
Proof. exact (serve_all_users d vs). Qed.

(** X19. Starting from the database the bootstrap routine leaves on an
    empty one, no sequence of requests ever yields a staff user or a
    second admin: every user is a citizen or the bootstrap admin. *)
Theorem bootstrap_admin_is_only_admin e d0 a vs u :
  create_admin_user generate_password_hash e empty_db = inr (d0, a) ->
  u ∈ users (serve_all generate_password_hash check_password_hash
                       int_of_str d0 vs) ->
  u_role u = CITIZEN \/
  (a = Some u /\ u_role u = ADMIN /\ u_username u = "admin").
Proof.
  intros [= <- <-] Hu.
  match type of Hu with
  | _ ∈ users (serve_all _ _ _ ?d0 vs) =>
    destruct (serve_all_users d0 vs) as (more & Hmore & Hcit)
  end.
  rewrite Hmore in Hu. simpl in Hu.
  apply elem_of_cons in Hu as [->|Hu]; [right; by split_and!|left].
  rewrite Forall_forall in Hcit. by apply Hcit.
Qed.

(** X20. No sequence of requests removes or changes a response row: the
    responses table only grows at its end. *)
Theorem requests_append_responses d vs :
  exists more,
    responses (serve_all generate_password_hash check_password_hash
                         int_of_str d vs) = responses d ++ more.
Proof.
  revert d. induction vs as [|v vs IH]; intros d.
  - exists []. by rewrite app_nil_r.
  - simpl. destruct (db_step_responses _ _ (serve_db_step d v)) as (m1 & H1).
    destruct (IH (res_db (serve generate_password_hash check_password_hash
                                int_of_str d v))) as (m2 & H2).
    exists (m1 ++ m2). by rewrite H2, H1, app_assoc.
Qed.

(** X21. With unique keys, no sequence of requests removes a complaint or
    changes its key, ticket number, owner, title, description, category,
    location or creation time; its escalation count never decreases and a
    resolution time, once set, is never cleared. *)
Theorem requests_keep_complaints d vs c :
  unique_keys d -> unique_users d ->
  c ∈ complaints d ->
  exists c',
    c' ∈ complaints (serve_all generate_password_hash check_password_hash
                               int_of_str d vs) /\
    fixed_fields c' = fixed_fields c /\
    c_escalation_count c <= c_escalation_count c' /\
    (c_resolved_at c <> None -> c_resolved_at c' <> None).
Proof.
  revert d c. induction vs as [|v vs IH]; intros d c Hk Hu Hc.
  - exists c. split; [done|apply later_version_refl].
  - simpl.
    pose proof (serve_db_step d v) as Hstep.
    destruct (db_step_unique _ _ Hstep (conj Hk Hu)) as [Hk' Hu'].
    destruct (db_step_complaints _ _ c Hstep (proj1 (proj2 Hk)) Hc)
      as (c1 & Hc1 & Hl1).
    destruct (IH _ c1 Hk' Hu' Hc1) as (c2 & Hc2 & Hl2).
    exists c2. split; [exact Hc2|].
    exact (later_version_trans _ _ _ Hl1 Hl2).
Qed.

End Sequences.

(** ** Registration, login and the bootstrap admin together *)

Lemma get_user_of_member d u :
  NoDup (map u_id (users d)) -> u ∈ users d -> get_user d (u_id u) = Some u.
Proof.
  unfold get_user. induction (users d) as [|x l IH]; simpl; intros Hnd Hu.
  - by apply elem_of_nil in Hu.
  - apply NoDup_cons in Hnd as [Hx Hnd].
    apply elem_of_cons in Hu as [->|Hu]; [by rewrite Z.eqb_refl|].
    destruct (u_id x =? u_id u) eqn:E; [|by apply IH].
    apply Z.eqb_eq in E. exfalso. apply Hx. rewrite E.
    apply list_elem_of_fmap. eauto.
Qed.

Lemma first_by_username_snoc d u name :
  first_by_username d name = None -> u_username u = name ->
  first_by_username {| users := users d ++ [u]; complaints := complaints d;
                       responses := responses d |} name = Some u.
Proof.
  intros Hf Hu. unfold first_by_username in *. simpl. rewrite find_app_r.
  - simpl. by rewrite (proj2 (String.eqb_eq _ _) Hu).
  - intros y Hy. apply (List.find_none _ _ Hf). by apply list_elem_of_In.
Qed.

Section Accounts.

Variable generate_password_hash : string -> string -> string.
Variable check_password_hash : string -> string -> bool.

(** X22. Register, then log in: when the hasher verifies the password
    against the hash it produced for it, a login with the username and
    password of a registration that has just succeeded succeeds, for the
    user that registration stored: the session carries that user's key
    and the role [citizen], the full name is greeted, and the answer
    redirects to the user dashboard. *)
Theorem register_then_login ctx1 ctx2 email username full_name password :
  method (request ctx1) = POST ->
  form (request ctx1) !! "email" = Some email ->
  form (request ctx1) !! "username" = Some username ->
  form (request ctx1) !! "full_name" = Some full_name ->
  form (request ctx1) !! "password" = Some password ->
  (forall v, v ∈ users (db ctx1) ->
     u_email v <> email /\ u_username v <> username) ->
  check_password_hash
    (generate_password_hash (salt (env ctx1)) password) password = true ->
  db ctx2 = res_db (register generate_password_hash ctx1) ->
  method (request ctx2) = POST ->
  form (request ctx2) !! "username" = Some username ->
  form (request ctx2) !! "password" = Some password ->
  exists u,
    users (db ctx2) = users (db ctx1) ++ [u] /\
    u_email u = email /\
    login check_password_hash ctx2
    = {| res_db := db ctx2;
         res_session :=
           Some {| s_user_id := u_id u; s_username := username;
                   s_role := "citizen"; s_permanent := true |};
         res_flashes :=
           [(Text ("Welcome back, " ++ full_name ++ "!"), "success")];
         res_response := redirect url_user_dashboard |}.
Proof.
  intros Hm He Hn Hf Hp Hfree Hhash Hdb Hm2 Hn2 Hp2.
  destruct (register_stores_row generate_password_hash ctx1
              email username full_name password Hm He Hn Hf Hp Hfree)
    as (u & Hres & _ & _ & _ & Hfields & Hpw & _ & _ & Hrole & Hact & _).
  rewrite Hres in Hdb. injection Hfields as Hue Huu Huf.
  exists u. split_and!; [by rewrite Hdb|exact Hue|].
  unfold login. rewrite Hm2. unfold form_getitem. rewrite Hn2, Hp2. simpl.
  assert (first_by_username (db ctx2) username = Some u) as ->.
  { unfold first_by_username. rewrite Hdb. simpl. rewrite find_app_r.
    - simpl. by rewrite (proj2 (String.eqb_eq _ _) Huu).
    - intros y Hy. apply String.eqb_neq. by apply Hfree. }
  rewrite Hpw, Hhash, Hact, Hrole, Huu, Huf. reflexivity.
Qed.

(** X23. With unique user keys, the session a successful login writes
    reads back the user who logged in: on the same database, the actor of
    a request that carries the new session is that user. *)
Theorem login_session_reads_user ctx name password u :
  NoDup (map u_id (users (db ctx))) ->
  method (request ctx) = POST ->
  form (request ctx) !! "username" = Some name ->
  form (request ctx) !! "password" = Some password ->
  first_by_username (db ctx) name = Some u ->
  check_password_hash (u_password_hash u) password = true ->
  truthy (u_is_active u) = true ->
  actor {| env := env ctx; request := request ctx;
           session := res_session (login check_password_hash ctx);
           db := res_db (login check_password_hash ctx) |} = Some u.
Proof.
  intros Hnd Hm Hn Hp Hf Hc Ha. unfold login.
  rewrite Hm. unfold form_getitem. rewrite Hn, Hp. simpl.
  rewrite Hf, Hc, Ha. simpl. unfold actor. simpl.
  apply get_user_of_member; [exact Hnd|].
  by apply first_by_username_elem in Hf as [? _].
Qed.

(** X24. The bootstrap routine is idempotent: run on the database an
    earlier run returned, it returns that database unchanged and the same
    admin row, whose username is [admin]; and it changes nothing at all
    when a user named [admin] is stored already. *)
Theorem create_admin_user_idempotent e1 e2 d d1 a :
  create_admin_user generate_password_hash e1 d = inr (d1, a) ->
  (exists u, a = Some u /\ u ∈ users d1 /\ u_username u = "admin") /\
  create_admin_user generate_password_hash e2 d1 = inr (d1, a) /\
  (first_by_username d "admin" <> None -> d1 = d).
Proof.
  unfold create_admin_user.
  destruct (first_by_username d "admin") as [adm|] eqn:Hf.
  - intros [= <- <-]. rewrite Hf.
    apply first_by_username_elem in Hf as [? ?]. split_and!; eauto.
  - unfold insert_user. simpl.
    destruct (existsb _ _); [discriminate|].
    destruct (existsb _ _); [discriminate|]. simpl.
    intros [= <- <-]. rewrite last_snoc.
    split_and!.
    + eexists. split_and!; [reflexivity| |reflexivity].
      simpl. apply elem_of_app. right. apply list_elem_of_here.
    + erewrite first_by_username_snoc; [reflexivity|exact Hf|reflexivity].
    + done.
Qed.

(** X25. The bootstrap routine raises exactly when no user is named
    [admin] while a stored user holds the admin's email address; the
    error it raises is the integrity error of the email column, and it
    raises no other. *)
Theorem create_admin_user_raises_iff e d :
  (create_admin_user generate_password_hash e d
   = inl (IntegrityError "users.email") <->
   first_by_username d "admin" = None /\
   exists v, v ∈ users d /\ u_email v = "admin@localgov.com") /\
  (forall x, create_admin_user generate_password_hash e d = inl x ->
             x = IntegrityError "users.email").
Proof.
  unfold create_admin_user.
  destruct (first_by_username d "admin") as [adm|] eqn:Hf.
  - split; [split; [intros [=]|intros [[=] _]]|intros x [=]].
  - unfold insert_user. simpl.
    destruct (existsb (fun v => String.eqb (u_email v) _) (users d)) eqn:He.
    + split; [|by intros x [= <-]].
      split; [intros _|intros _; reflexivity].
      split; [reflexivity|].
      apply existsb_exists in He as (v & Hv & Hb).
      exists v. split; [by apply list_elem_of_In|by apply String.eqb_eq].
    + assert (existsb (fun v => String.eqb (u_username v) "admin") (users d)
              = false) as ->.
      { apply existsb_false_iff. intros y Hy.
        apply (List.find_none _ _ Hf). by apply list_elem_of_In. }
      simpl. split; [|intros x [=]].
      split; [intros [=]|].
      intros [_ (v & Hv & Hmail)].
      pose proof (proj1 (existsb_false_iff _ _) He v Hv) as Hb.
      simpl in Hb. apply String.eqb_neq in Hb. contradiction.
Qed.

End Accounts.

(** ** Ticket numbers decide the date and the random bytes *)

Lemma upper_hexlify_byte_inj b1 b2 :
  upper (hexlify_byte b1) = upper (hexlify_byte b2) -> b1 = b2.
Proof.
  intros H.
  pose (value := fun c : ascii =>
          let n := N_of_ascii c in (if n <? 58 then n - 48 else n - 55)%N).
  pose (decode := fun s : string =>
          match s with
          | String a (String b EmptyString) =>
            Byte.of_N (16 * value a + value b)
          | _ => None
          end).
  assert (forall b, decode (upper (hexlify_byte b)) = Some b) as Hdec
    by (intros b; destruct b; reflexivity).
  apply (f_equal decode) in H. rewrite !Hdec in H. by injection H.
Qed.

(** X26. The ticket number determines what it was made from: two requests
    whose clocks read valid dates and that compute the same ticket number
    read the same year, month and day and drew the same three random
    bytes.  Tickets made on one day from different bytes differ. *)
Theorem make_ticket_number_inj e1 e2 :
  clock_reading (utcnow e1 0%nat) ->
  clock_reading (utcnow e2 0%nat) ->
  make_ticket_number e1 = make_ticket_number e2 ->
  (year (utcnow e1 0%nat), month (utcnow e1 0%nat), day (utcnow e1 0%nat))
  = (year (utcnow e2 0%nat), month (utcnow e2 0%nat), day (utcnow e2 0%nat)) /\
  token_bytes e1 = token_bytes e2.
Proof.
  intros Hc1 Hc2 Heq.
  pose proof (make_ticket_number_shape e1 Hc1) as [_ Hd1].
  pose proof (make_ticket_number_shape e2 Hc2) as [_ Hd2].
  rewrite Heq, Hd2 in Hd1.
  destruct Hc1 as (Hy1 & Hm1 & Hday1), Hc2 as (Hy2 & Hm2 & Hday2).
  split.
  - assert (year (utcnow e1 0%nat) = year (utcnow e2 0%nat)) as -> by lia.
    assert (month (utcnow e1 0%nat) = month (utcnow e2 0%nat)) as -> by lia.
    assert (day (utcnow e1 0%nat) = day (utcnow e2 0%nat)) as -> by lia.
    reflexivity.
  - revert Heq. unfold make_ticket_number, strftime_Ymd, token_hex.
    destruct (token_bytes e1) as [[a1 a2] a3].
    destruct (token_bytes e2) as [[b1 b2] b3].
    pose proof (fmt_Y_four_digits _ Hy1) as HY1.
    pose proof (fmt_Y_four_digits _ Hy2) as HY2.
    pose proof (fmt_02d_two_digits (month (utcnow e1 0%nat)) ltac:(lia)) as HM1.
    pose proof (fmt_02d_two_digits (month (utcnow e2 0%nat)) ltac:(lia)) as HM2.
    pose proof (fmt_02d_two_digits (day (utcnow e1 0%nat)) ltac:(lia)) as HD1.
    pose proof (fmt_02d_two_digits (day (utcnow e2 0%nat)) ltac:(lia)) as HD2.
    pose proof (hexlify_byte_upper a1) as Ha1.
    pose proof (hexlify_byte_upper a2) as Ha2.
    pose proof (hexlify_byte_upper a3) as Ha3.
    pose proof (hexlify_byte_upper b1) as Hb1.
    pose proof (hexlify_byte_upper b2) as Hb2.
    pose proof (hexlify_byte_upper b3) as Hb3.
    rewrite !upper_app.
    pose proof (upper_hexlify_byte_inj a1 b1) as I1.
    pose proof (upper_hexlify_byte_inj a2 b2) as I2.
    pose proof (upper_hexlify_byte_inj a3 b3) as I3.
    destruct (fmt_Y (year (utcnow e1 0%nat)))
      as [|? [|? [|? [|? [|]]]]]; try discriminate HY1.
    destruct (fmt_Y (year (utcnow e2 0%nat)))
      as [|? [|? [|? [|? [|]]]]]; try discriminate HY2.
    destruct (fmt_02d (month (utcnow e1 0%nat))) as [|? [|? [|]]];
      try discriminate HM1.
    destruct (fmt_02d (month (utcnow e2 0%nat))) as [|? [|? [|]]];
      try discriminate HM2.
    destruct (fmt_02d (day (utcnow e1 0%nat))) as [|? [|? [|]]];
      try discriminate HD1.
    destruct (fmt_02d (day (utcnow e2 0%nat))) as [|? [|? [|]]];
      try discriminate HD2.
    destruct (upper (hexlify_byte a1)) as [|? [|? [|]]]; try discriminate Ha1.
    destruct (upper (hexlify_byte a2)) as [|? [|? [|]]]; try discriminate Ha2.
    destruct (upper (hexlify_byte a3)) as [|? [|? [|]]]; try discriminate Ha3.
    destruct (upper (hexlify_byte b1)) as [|? [|? [|]]]; try discriminate Hb1.
    destruct (upper (hexlify_byte b2)) as [|? [|? [|]]]; try discriminate Hb2.
    destruct (upper (hexlify_byte b3)) as [|? [|? [|]]]; try discriminate Hb3.
    cbv [String.append]. intros Heq. injection Heq as <-.
    repeat match goal with H : _ = _ :> ascii |- _ => subst end.
    rewrite I1, I2, I3; reflexivity.
Qed.

(** * The further theorems at the sample data *)

Lemma demo_db_unique : unique_keys demo_db /\ unique_users demo_db.
Proof.
  unfold unique_keys, unique_users.
  split_and!; apply (bool_decide_unpack _); vm_compute; exact I.
Defined.

(** Nobody is logged in; the request asks to escalate complaint 1. *)
Lemma protected_routes_require_login_witness :
  let ctx := demo_ctx POST None ∅ demo_db in
  let res := dispatch demo_hash demo_check demo_int
                      (route_escalate_complaint 1) ctx in
  res_db res = demo_db /\ res_response res = redirect url_login /\
  res_flashes res = [].
Proof.
  intros ctx res.
  destruct (protected_routes_require_login demo_hash demo_check demo_int
              1 (route_escalate_complaint 1) ctx)
    as (Hdb & _ & Hre & Hfl);
    [apply elem_of_app; right;
     do 2 apply list_elem_of_further; apply list_elem_of_here
    |reflexivity|apply list_elem_of_here|].
  split_and!; [exact Hdb|exact Hre|exact Hfl].
Defined.

(** Bob, a citizen, asks to escalate Alice's complaint. *)
Lemma admin_routes_refuse_citizens_witness :
  let ctx := demo_ctx POST (session_of demo_bob) ∅ demo_db in
  dispatch demo_hash demo_check demo_int (route_escalate_complaint 1) ctx
  = respond ctx [(Text "Access denied. Admin privileges required.", "error")]
            (redirect url_index).
Proof.
  intros ctx.
  eapply (admin_routes_refuse_citizens demo_hash demo_check demo_int
            1 (route_escalate_complaint 1) ctx);
    [do 2 apply list_elem_of_further; apply list_elem_of_here
    |reflexivity
    |intros u Hu; vm_compute in Hu; by injection Hu as <-
    |apply list_elem_of_here].
Defined.

(** A GET of the registration page that carries a complete form. *)
Lemma get_requests_store_nothing_witness :
  res_db (dispatch demo_hash demo_check demo_int route_register
                   (demo_ctx GET None demo_carol_form demo_db)) = demo_db.
Proof.
  apply (get_requests_store_nothing demo_hash demo_check demo_int
           route_register (demo_ctx GET None demo_carol_form demo_db)).
  reflexivity.
Defined.

(** Alice files a complaint: her session is as before. *)
Lemma only_login_logout_write_session_witness :
  res_session
    (dispatch demo_hash demo_check demo_int route_new_complaint
       (demo_ctx POST (session_of demo_alice)
                 {[ "title" := "Dark street"; "description" := "Lamp out";
                    "category" := "Electricity" ]} demo_db))
  = session_of demo_alice.
Proof.
  apply (only_login_logout_write_session demo_hash demo_check demo_int
           route_new_complaint); discriminate.
Defined.

(** Bob asks for Alice's complaint; Alice asks for it herself. *)
Lemma view_complaint_access_witness :
  view_complaint 1 (demo_ctx GET (session_of demo_bob) ∅ demo_db)
  = respond (demo_ctx GET (session_of demo_bob) ∅ demo_db)
            [(Text "Access denied!", "error")] (redirect url_user_dashboard) /\
  exists rs,
    view_complaint 1 (demo_ctx GET (session_of demo_alice) ∅ demo_db)
    = respond (demo_ctx GET (session_of demo_alice) ∅ demo_db) []
              (render_template (view_complaint_html demo_complaint rs)).
Proof.
  split.
  - destruct (view_complaint_access
                (demo_ctx GET (session_of demo_bob) ∅ demo_db) 1
                demo_bob demo_complaint) as [Hdeny _];
      [reflexivity|reflexivity|].
    apply Hdeny. split; [reflexivity|discriminate].
  - destruct (view_complaint_access
                (demo_ctx GET (session_of demo_alice) ∅ demo_db) 1
                demo_alice demo_complaint) as [_ Hok];
      [reflexivity|reflexivity|].
    apply Hok. right. reflexivity.
Defined.

(** Alice reads the thread of her complaint: the internal note is left
    out and her question comes before the answer. *)
Lemma view_complaint_responses_witness :
  let rs := [mk_Response 2 1 2 "Any news?" 0 (demo_time 11);
             mk_Response 3 1 1 "Fixed" 0 (demo_time 13)] in
  res_response
    (view_complaint 1 (demo_ctx GET (session_of demo_alice) ∅ demo_db_thread))
  = render_template (view_complaint_html demo_complaint rs) /\
  StronglySorted (not_later r_created_at) rs /\
  forall r, r ∈ rs -> r_is_internal r = 0.
Proof.
  intros rs.
  destruct (view_complaint_responses
              (demo_ctx GET (session_of demo_alice) ∅ demo_db_thread) 1
              demo_alice demo_complaint rs)
    as (_ & Hsort & Hpub); [reflexivity|reflexivity|].
  split_and!; [reflexivity|exact Hsort|exact (Hpub eq_refl)].
Defined.

(** Alice's dashboard on the sample database. *)
Lemma user_dashboard_lists_own_complaints_witness :
  exists cs,
    res_response
      (user_dashboard (demo_ctx GET (session_of demo_alice) ∅ demo_db))
    = render_template
        (user_dashboard_html demo_alice cs
           [("total", 1%nat); ("pending", 0%nat); ("in_progress", 0%nat);
            ("resolved", 1%nat)]) /\
    forall c, c ∈ cs -> c_user_id c = 2.
Proof.
  destruct (user_dashboard_lists_own_complaints
              (demo_ctx GET (session_of demo_alice) ∅ demo_db) demo_alice)
    as (cs & Heq & _ & _ & Hown); [reflexivity|].
  exists cs. split; [by rewrite Heq|exact Hown].
Defined.

(** The admin's dashboard on the database with three complaints. *)
Lemma admin_dashboard_recent_complaints_witness :
  exists cs,
    res_response
      (admin_dashboard
         (demo_ctx GET (session_of demo_admin) ∅ demo_db_categories))
    = render_template
        (admin_dashboard_html (Some demo_admin)
           [("total", 3%nat); ("pending", 3%nat); ("escalated", 0%nat);
            ("users", 2%nat)] cs) /\
    length cs = 3%nat.
Proof.
  destruct (admin_dashboard_recent_complaints
              (demo_ctx GET (session_of demo_admin) ∅ demo_db_categories)
              demo_admin)
    as (cs & Heq & Hlen & _); [reflexivity|reflexivity|].
  exists cs. split; [by rewrite Heq|exact Hlen].
Defined.

(** The admin's reports page on the database with three complaints. *)
Lemma reports_status_counts_witness :
  exists counts rows,
    res_response
      (reports (demo_ctx GET (session_of demo_admin) ∅ demo_db_categories))
    = render_template (reports_html 3 counts rows) /\
    ("pending", 3%nat) ∈ counts /\ ("closed", 0%nat) ∈ counts /\
    foldr Nat.add 0%nat (map snd counts) = 3%nat.
Proof.
  destruct (reports_status_counts
              (demo_ctx GET (session_of demo_admin) ∅ demo_db_categories)
              demo_admin)
    as (counts & rows & Heq & _ & Hin & Hsum); [reflexivity|reflexivity|].
  exists counts, rows.
  split_and!; [by rewrite Heq|exact (Hin PENDING)|exact (Hin CLOSED)|exact Hsum].
Defined.

(** The admin asks for status RESOLVED and a priority that does not
    exist: nothing is written, the status included. *)
Lemma update_complaint_failures_witness :
  let ctx := demo_ctx POST (session_of demo_admin)
                      {[ "status" := "RESOLVED"; "priority" := "URGENT" ]}
                      demo_db_categories in
  res_db (update_complaint demo_int 1 ctx) = demo_db_categories /\
  res_response (update_complaint demo_int 9 ctx)
  = jsonify [("error", "Complaint not found")] 404 /\
  res_response (update_complaint demo_int (2 ^ 63) ctx) = abort 500.
Proof.
  intros ctx.
  destruct (update_complaint_failures demo_int ctx 1 demo_admin)
    as (_ & _ & Hbad); [reflexivity|reflexivity|].
  destruct (update_complaint_failures demo_int ctx 9 demo_admin)
    as (Hmiss & _); [reflexivity|reflexivity|].
  destruct (update_complaint_failures demo_int ctx (2 ^ 63) demo_admin)
    as (_ & Hbig & _); [reflexivity|reflexivity|].
  split_and!.
  - destruct (Hbad (demo_water 1 "COMP-20240307-000001" "Water Supply"))
      as [e ->]; [reflexivity| |reflexivity].
    right. left. exists "URGENT". split; [reflexivity|].
    intros p Hp. vm_compute in Hp. discriminate Hp.
  - rewrite Hmiss; reflexivity.
  - rewrite Hbig; reflexivity.
Defined.

(** The admin lowers the priority of Alice's complaint and assigns it to
    user 3; the status stays RESOLVED. *)
Lemma update_complaint_applies_form_witness :
  let ctx := demo_ctx POST (session_of demo_admin)
                      {[ "priority" := "LOW"; "assigned_to" := "3" ]}
                      demo_db in
  exists c',
    get_complaint (res_db (update_complaint demo_int 1 ctx)) 1 = Some c' /\
    c_status c' = RESOLVED /\ c_priority c' = LOW /\
    c_assigned_to c' = Some 3 /\
    c_ticket_number c' = "COMP-20240307-0000AA".
Proof.
  intros ctx.
  destruct (update_complaint_applies_form demo_int ctx 1 demo_admin
              demo_complaint RESOLVED LOW (Some 3))
    as (_ & _ & _ & _ & _ & c' & Hget & Hst & Hp & Ha & Hfix & _);
    [reflexivity|reflexivity|reflexivity|reflexivity|reflexivity
    |exists 3; split; reflexivity
    |intros n [= <-]; reflexivity|].
  exists c'. split_and!; try assumption.
  exact (fixed_fields_ticket _ _ Hfix).
Defined.

(** Alice files a complaint with a location and no priority. *)
Lemma new_complaint_stores_form_witness :
  let ctx := demo_ctx POST (session_of demo_alice)
                      {[ "title" := "Dark street"; "description" := "Lamp out";
                         "category" := "Electricity";
                         "location" := "Elm Rd" ]} demo_db in
  exists c,
    complaints (res_db (new_complaint ctx)) = [demo_complaint; c] /\
    c_user_id c = 2 /\ c_location c = "Elm Rd" /\ c_priority c = MEDIUM /\
    get_complaint (res_db (new_complaint ctx)) (c_id c) = Some c.
Proof.
  intros ctx.
  destruct (new_complaint_stores_form ctx
              {| s_user_id := 2; s_username := "alice"; s_role := "citizen";
                 s_permanent := true |}
              "Dark street" "Lamp out" "Electricity" MEDIUM)
    as (c & Hdb & _ & _ & Hown & _ & Hloc & Hp & _ & _ & _ & Hget & _);
    [reflexivity|reflexivity|reflexivity|reflexivity|reflexivity|reflexivity
    | |].
  - intros c Hc E. apply list_elem_of_singleton in Hc. subst c.
    vm_compute in E. discriminate E.
  - exists c. split_and!; [by rewrite Hdb|exact Hown|exact Hloc|exact Hp
                          |exact Hget].
Defined.

(** Alice files a complaint without a title. *)
Lemma new_complaint_failures_witness :
  res_db (new_complaint
            (demo_ctx POST (session_of demo_alice)
                      {[ "description" := "Lamp out";
                         "category" := "Electricity" ]} demo_db))
  = demo_db.
Proof.
  destruct (new_complaint_failures
              (demo_ctx POST (session_of demo_alice)
                        {[ "description" := "Lamp out";
                           "category" := "Electricity" ]} demo_db)
              {| s_user_id := 2; s_username := "alice"; s_role := "citizen";
                 s_permanent := true |})
    as [e ->]; [reflexivity|reflexivity|left; reflexivity|reflexivity].
Defined.

(** Carol registers. *)
Lemma register_stores_citizen_witness :
  exists u,
    users (res_db (register demo_hash (demo_ctx POST None demo_carol_form demo_db)))
    = [demo_admin; demo_alice; demo_bob; u] /\
    u_username u = "carol" /\ u_role u = CITIZEN /\
    u_password_hash u = "na$pw" /\ u_phone u = Some "".
Proof.
  destruct (register_stores_citizen demo_hash
              (demo_ctx POST None demo_carol_form demo_db)
              "carol@example.org" "carol" "Carol C" "pw")
    as (u & Hdb & _ & _ & _ & Hf & Hpw & Hph & _ & Hrole & _);
    [reflexivity|reflexivity|reflexivity|reflexivity|reflexivity| |].
  - intros v Hv.
    apply elem_of_cons in Hv as [->|Hv]; [split; discriminate|].
    apply elem_of_cons in Hv as [->|Hv]; [split; discriminate|].
    apply list_elem_of_singleton in Hv as ->. split; discriminate.
  - exists u. injection Hf as _ Hn _.
    split_and!; [by rewrite Hdb|exact Hn|exact Hrole|exact Hpw|exact Hph].
Defined.

(** A registration that submits an email and nothing else. *)
Lemma register_missing_field_witness :
  exists key,
    register demo_hash
      (demo_ctx POST None {[ "email" := "dave@example.org" ]} demo_db)
    = respond (demo_ctx POST None {[ "email" := "dave@example.org" ]} demo_db)
        [(TextExc "Registration failed: " (BadRequestKeyError key), "error")]
        (redirect url_register).
Proof.
  destruct (register_missing_field demo_hash
              (demo_ctx POST None {[ "email" := "dave@example.org" ]} demo_db))
    as (key & _ & _ & Heq); [reflexivity| | |].
  - intros v e n _ _ Hn. vm_compute in Hn. discriminate Hn.
  - exists "password". split; [|reflexivity].
    do 3 apply list_elem_of_further. apply list_elem_of_here.
  - exists key. exact Heq.
Defined.

(** Bob responds to key 7, under which nothing is stored, and to
    Alice's complaint without a message. *)
Lemma respond_to_complaint_outcomes_witness :
  let ctx := demo_ctx POST (session_of demo_bob) ∅ demo_db in
  res_flashes (respond_to_complaint 7 ctx)
  = [(Text "Complaint not found!", "error")] /\
  res_response (respond_to_complaint (2 ^ 63) ctx) = abort 500 /\
  res_db (respond_to_complaint 1 ctx) = demo_db.
Proof.
  intros ctx.
  destruct (respond_to_complaint_outcomes ctx 7 demo_bob) as (Hnone & _);
    [reflexivity|].
  destruct (respond_to_complaint_outcomes ctx (2 ^ 63) demo_bob)
    as (_ & Hbig & _); [reflexivity|].
  destruct (respond_to_complaint_outcomes ctx 1 demo_bob)
    as (_ & _ & Hmsg & _); [reflexivity|].
  split_and!.
  - rewrite Hnone; reflexivity.
  - rewrite Hbig; reflexivity.
  - rewrite (Hmsg demo_complaint); reflexivity.
Defined.

(** Carol registers, Alice files a complaint, the admin escalates Alice's
    first one: keys, tickets, emails and usernames are still unique. *)
Lemma requests_keep_keys_unique_witness :
  let vs := [demo_visit route_register None demo_carol_form;
             demo_visit route_new_complaint (session_of demo_alice)
                        {[ "title" := "Dark street";
                           "description" := "Lamp out";
                           "category" := "Electricity" ]};
             demo_visit (route_escalate_complaint 1) (session_of demo_admin) ∅] in
  let d := serve_all demo_hash demo_check demo_int demo_db vs in
  length (users d) = 4%nat /\ length (complaints d) = 2%nat /\
  unique_keys d /\ unique_users d.
Proof.
  intros vs d.
  destruct (requests_keep_keys_unique demo_hash demo_check demo_int demo_db vs
              (proj1 demo_db_unique) (proj2 demo_db_unique)) as [Hk Hu].
  split_and!; [reflexivity|reflexivity|exact Hk|exact Hu].
Defined.

(** After the bootstrap on the empty database and Carol's registration,
    the first user is the bootstrap admin. *)
Lemma bootstrap_admin_is_only_admin_witness :
  let admin := mk_User 1 "admin@localgov.com" "admin" "na$admin123"
                       "System Administrator" (Some "0000000000") None ADMIN
                       (utcnow (demo_env 8) 0%nat) (Some 1) in
  let d0 := {| users := [admin]; complaints := []; responses := [] |} in
  create_admin_user demo_hash (demo_env 8) empty_db = inr (d0, Some admin) /\
  length (users (serve_all demo_hash demo_check demo_int d0
                           [demo_visit route_register None demo_carol_form]))
  = 2%nat /\
  (u_role admin = CITIZEN \/
   Some admin = Some admin /\ u_role admin = ADMIN /\ u_username admin = "admin").
Proof.
  intros admin d0. split_and!; [reflexivity|reflexivity|].
  apply (bootstrap_admin_is_only_admin demo_hash demo_check demo_int
           (demo_env 8) d0 (Some admin)
           [demo_visit route_register None demo_carol_form] admin);
    [reflexivity|apply list_elem_of_here].
Defined.

(** The admin escalates Alice's complaint twice and she responds in
    between: the complaint keeps its ticket and its count has not dropped. *)
Lemma requests_keep_complaints_witness :
  let vs := [demo_visit (route_escalate_complaint 1) (session_of demo_admin) ∅;
             demo_visit (route_respond_to_complaint 1) (session_of demo_alice)
                        {[ "message" := "Thanks" ]};
             demo_visit (route_escalate_complaint 1) (session_of demo_admin) ∅] in
  exists c',
    c' ∈ complaints (serve_all demo_hash demo_check demo_int demo_db vs) /\
    c_ticket_number c' = "COMP-20240307-0000AA" /\
    4 <= c_escalation_count c' /\ c_resolved_at c' <> None.
Proof.
  intros vs.
  destruct (requests_keep_complaints demo_hash demo_check demo_int demo_db vs
              demo_complaint (proj1 demo_db_unique) (proj2 demo_db_unique))
    as (c' & Hin & Hfix & Hcnt & Hres); [apply list_elem_of_here|].
  exists c'. split_and!; [exact Hin| |exact Hcnt|].
  - exact (fixed_fields_ticket _ _ Hfix).
  - apply Hres. discriminate.
Defined.

(** Carol registers and logs in. *)
Lemma register_then_login_witness :
  let ctx1 := demo_ctx POST None demo_carol_form demo_db in
  let ctx2 := demo_ctx POST None {[ "username" := "carol"; "password" := "pw" ]}
                       (res_db (register demo_hash ctx1)) in
  exists u,
    res_session (login demo_check ctx2)
    = Some {| s_user_id := u_id u; s_username := "carol";
              s_role := "citizen"; s_permanent := true |} /\
    res_response (login demo_check ctx2) = redirect url_user_dashboard.
Proof.
  intros ctx1 ctx2.
  destruct (register_then_login demo_hash demo_check ctx1 ctx2
              "carol@example.org" "carol" "Carol C" "pw")
    as (u & _ & _ & Hlogin);
    [reflexivity|reflexivity|reflexivity|reflexivity|reflexivity|
    |reflexivity|reflexivity|reflexivity|reflexivity|reflexivity|].
  - intros v Hv.
    apply elem_of_cons in Hv as [->|Hv]; [split; discriminate|].
    apply elem_of_cons in Hv as [->|Hv]; [split; discriminate|].
    apply list_elem_of_singleton in Hv as ->. split; discriminate.
  - exists u. rewrite Hlogin. split; reflexivity.
Defined.

(** Alice logs in; her next request is hers. *)
Lemma login_session_reads_user_witness :
  let ctx := demo_ctx POST None
                      {[ "username" := "alice"; "password" := "wonder" ]}
                      demo_db in
  actor {| env := env ctx; request := request ctx;
           session := res_session (login demo_check ctx);
           db := res_db (login demo_check ctx) |} = Some demo_alice.
Proof.
  intros ctx.
  apply (login_session_reads_user demo_check ctx "alice" "wonder" demo_alice);
    try reflexivity.
  exact (proj1 (proj1 demo_db_unique)).
Defined.

(** The bootstrap runs twice on an empty database. *)
Lemma create_admin_user_idempotent_witness :
  exists d1 a,
    create_admin_user demo_hash (demo_env 8) empty_db = inr (d1, a) /\
    create_admin_user demo_hash (demo_env 9) d1 = inr (d1, a) /\
    length (users d1) = 1%nat.
Proof.
  eexists _, _. split; [reflexivity|].
  destruct (create_admin_user_idempotent demo_hash (demo_env 8) (demo_env 9)
              empty_db _ _ eq_refl) as (_ & Hagain & _).
  split; [exact Hagain|reflexivity].
Defined.

(** The bootstrap on a database whose only user, named [root], holds the
    admin's email address; and on the sample database, which has its admin. *)
Lemma create_admin_user_raises_iff_witness :
  let root := mk_User 1 "admin@localgov.com" "root" "na$toor" "Root"
                      None None CITIZEN (demo_time 8) (Some 1) in
  let d := {| users := [root]; complaints := []; responses := [] |} in
  create_admin_user demo_hash (demo_env 8) d
  = inl (IntegrityError "users.email") /\
  create_admin_user demo_hash (demo_env 8) demo_db
  <> inl (IntegrityError "users.email").
Proof.
  intros root d. split.
  - apply (proj1 (create_admin_user_raises_iff demo_hash (demo_env 8) d)).
    split; [reflexivity|].
    exists root. split; [apply list_elem_of_here|reflexivity].
  - intros H.
    apply (proj1 (create_admin_user_raises_iff demo_hash (demo_env 8) demo_db))
      in H as [Hnone _].
    discriminate Hnone.
Defined.

(** Two requests on the same day, an hour apart, with the same bytes. *)
Lemma make_ticket_number_inj_witness :
  make_ticket_number (demo_env 12) = make_ticket_number (demo_env 13) /\
  token_bytes (demo_env 12) = token_bytes (demo_env 13).
Proof.
  split; [reflexivity|].
  apply (make_ticket_number_inj (demo_env 12) (demo_env 13));
    [unfold clock_reading; simpl; lia|unfold clock_reading; simpl; lia
    |reflexivity].
Defined.
